(** * GameRoom booking bot: slots, prices and booking conflicts

    A shallow embedding of [src/bot.py] and the properties of its core:
    the slot generator [iter_open_slots], the pricing function
    [price_for_interval], the conflict query [overlaps] and the two handlers
    that write reservations, [enter_phone] and [admin_block]; then of what
    stands around it: the status changes by the admins, the listings, the
    inline keyboards and the handlers of the dialogue that read their
    buttons.

    Modelling conventions.
    - A local [datetime] is its wall-clock reading, a number of whole seconds
      since 1970-01-01 00:00 local time.  Every datetime the bot builds has
      [second = microsecond = 0] ([strptime] of a date or of a date and
      [HH:MM], then [replace] and [timedelta(minutes=...)]), and the two
      ends of every interval carry the same [tzinfo], so comparisons and
      differences are those of the wall-clock fields.
    - The range of [datetime], from 0001-01-01 00:00:00 to 9999-12-31
      23:59:59, and of [timedelta], 999999999 days either way, is modelled
      in the slot generator, whose sums raise [OverflowError] outside it.
      The pricing loop is given twice, on unbounded time
      ([price_for_interval], of which the price theorems speak) and with
      the range ([price_for_interval_ranged]); the two agree wherever
      [cur + 1 minute] stays in range, which it does on every interval of
      whole minutes.  The handlers' own sums are taken on unbounded time.
    - The zone [TZ] is a fixed offset [tz] (seconds east of UTC): [to_utc]
      subtracts it; a timestamp is a number of epoch seconds.
    - Python numbers are [Py.num]: unbounded [int]s and IEEE-754 binary64
      [float]s with round-to-nearest-even, the latter through the standard
      library's executable specification [SpecFloat].
    - A [while] loop runs on fuel computed from its arguments; running out of
      fuel yields [None], so a [Some] result is a result of the real loop.
      In the slot generator [None] is also the exception of a sum out of
      range; the fuel is one more than the number of turns of the loop on
      unbounded time, so it does not run out before the loop ends or
      raises (lemma [iter_open_slots_none]).
    - A [str] is the [string] of its UTF-8 bytes.  [Str.int] is [int] on
      ASCII text; what a handler does on other text is stated for every
      conversion ([time_chosen_with]). *)

From Stdlib Require Import ZArith List Bool String Ascii Lia.
From Stdlib Require Import Sorting.Sorted Sorting.Permutation.
From Stdlib Require Import Floats.SpecFloat.
Import ListNotations.
Local Open Scope Z_scope.

(** ** Python numbers *)

Module Py.

Definition prec : Z := 53.
Definition emax : Z := 1024.

Inductive num : Type :=
| Int (z : Z)
| Float (x : spec_float).

(** [float(z)]: the nearest binary64, exact below [2^53]. *)
Definition float_of_int (z : Z) : spec_float :=
  binary_normalize prec emax z 0 false.

Definition as_float (a : num) : spec_float :=
  match a with
  | Int z => float_of_int z
  | Float x => x
  end.

(** [a + b] and [a * b]: integer arithmetic on two [int]s, binary64
    arithmetic as soon as one operand is a [float]. *)
Definition add (a b : num) : num :=
  match a, b with
  | Int x, Int y => Int (x + y)
  | _, _ => Float (SFadd prec emax (as_float a) (as_float b))
  end.

Definition mul (a b : num) : num :=
  match a, b with
  | Int x, Int y => Int (x * y)
  | _, _ => Float (SFmul prec emax (as_float a) (as_float b))
  end.

(** [a / b], true division: always a [float], the correctly rounded
    quotient (for [int] operands below [2^53], the quotient of their
    conversions). *)
Definition truediv (a b : num) : num :=
  Float (SFdiv prec emax (as_float a) (as_float b)).

(** [rne m n]: [m / 2^n] rounded to the nearest integer, ties to even. *)
Definition rne (m n : Z) : Z :=
  let q := m / 2 ^ n in
  match 2 * (m mod 2 ^ n) ?= 2 ^ n with
  | Lt => q
  | Eq => if Z.even q then q else q + 1
  | Gt => q + 1
  end.

(** The integer nearest to [m * 2^e], ties to even. *)
Definition rint (m : positive) (e : Z) : Z :=
  if e <? 0 then rne (Zpos m) (- e) else Zpos m * 2 ^ e.

(** [round(a, 0)]: an [int] is returned as it is; a finite [float] is
    rounded half to even and stays a [float]; infinities and NaN round to
    themselves. *)
Definition round0 (a : num) : num :=
  match a with
  | Int z => Int z
  | Float (S754_finite s m e) =>
      let z := rint m e in
      if z =? 0 then Float (S754_zero s)
      else Float (float_of_int (if s then - z else z))
  | Float x => Float x
  end.

(** [int(a)]: truncation towards zero; [None] stands for the
    [OverflowError] on an infinity and the [ValueError] on NaN. *)
Definition int (a : num) : option Z :=
  match a with
  | Int z => Some z
  | Float (S754_zero _) => Some 0
  | Float (S754_finite s m e) =>
      let z := if e <? 0 then Zpos m / 2 ^ (- e) else Zpos m * 2 ^ e in
      Some (if s then - z else z)
  | Float _ => None
  end.

End Py.

(** ** Control: the [while] loop *)

Fixpoint while {S : Type} (fuel : nat) (cond : S -> bool) (body : S -> S)
  (s : S) : option S :=
  match fuel with
  | O => None
  | Datatypes.S fuel' =>
      if cond s then while fuel' cond body (body s) else Some s
  end.

(** A loop whose test and body may raise: [None] from either is the
    exception. *)
Fixpoint while_raising {S : Type} (fuel : nat) (cond : S -> option bool)
  (body : S -> option S) (s : S) : option S :=
  match fuel with
  | O => None
  | Datatypes.S fuel' =>
      match cond s with
      | None => None
      | Some false => Some s
      | Some true =>
          match body s with
          | None => None
          | Some s' => while_raising fuel' cond body s'
          end
      end
  end.

(** ** Dates and times *)

Definition datetime : Type := Z.

(** [timedelta(minutes=n)] and [timedelta(days=n)], in seconds. *)
Definition minutes (n : Z) : Z := 60 * n.
Definition days (n : Z) : Z := 86400 * n.

(** [time(h, m)] as a second of the day, and [d.time()]. *)
Definition time (h m : Z) : Z := 3600 * h + 60 * m.
Definition time_of (d : datetime) : Z := d mod 86400.

(** [d.replace(hour=h, minute=0, second=0, microsecond=0)]. *)
Definition replace_hour (d : datetime) (h : Z) : datetime :=
  d - time_of d + time h 0.

(** [to_utc] in a zone [tz] seconds east of UTC, and [int(u.timestamp())]
    of a UTC datetime. *)
Definition to_utc (tz : Z) (dt_local : datetime) : datetime := dt_local - tz.
Definition timestamp (u : datetime) : Z := u.

(** [datetime.min] and [datetime.max], the latter without its
    microseconds. *)
Definition datetime_min : Z := -62135596800.
Definition datetime_max : Z := 253402300799.

(** [d + delta] for a datetime [d] and a timedelta [delta]: [None] stands
    for the [OverflowError] on a date out of range. *)
Definition datetime_add (d : datetime) (delta : Z) : option datetime :=
  if (datetime_min <=? d + delta) && (d + delta <=? datetime_max)
  then Some (d + delta) else None.

(** [timedelta(minutes=n)]: [None] stands for the [OverflowError] on more
    than 999999999 days either way. *)
Definition timedelta_minutes (n : Z) : option Z :=
  if (-999999999 <=? minutes n / 86400) && (minutes n / 86400 <=? 999999999)
  then Some (minutes n) else None.

(** ** Business constants *)

Definition OPEN_TIME : Z * Z := (13, 0).
Definition CLOSE_TIME : Z * Z := (2, 0).
Definition SLOT_STEP_MIN : Z := 60.
Definition BUFFER_MIN : Z := 10.
Definition DAY_RATE : Z := 400.
Definition EVE_RATE : Z := 500.

Definition hour (t : Z * Z) : Z := fst t.

(** ** Slot generator *)

Definition open_dt (date_local : datetime) : datetime :=
  replace_hour date_local (hour OPEN_TIME).

Definition close_dt (date_local : datetime) : datetime :=
  replace_hour (date_local + days 1) (hour CLOSE_TIME).

(** [None] stands for the [OverflowError] of a sum that leaves the range
    of [datetime]: of the following day, of [cur + dur], of [cur + dur +
    buf] in the test of the loop, or of [cur + step]. *)
Definition iter_open_slots (date_local : datetime) (duration_min : Z)
  : option (list (datetime * datetime)) :=
  let start_day := open_dt date_local in
  match datetime_add date_local (days 1) with
  | None => None
  | Some next_day =>
      let close_dt := replace_hour next_day (hour CLOSE_TIME) in
      let step := minutes SLOT_STEP_MIN in
      match timedelta_minutes duration_min with
      | None => None
      | Some dur =>
          let buf := minutes BUFFER_MIN in
          let fuel :=
            S (Z.to_nat ((close_dt - start_day - dur - buf) / step + 1)) in
          option_map fst
            (while_raising fuel
               (fun st : list (datetime * datetime) * datetime =>
                  match datetime_add (snd st) dur with
                  | None => None
                  | Some e =>
                      match datetime_add e buf with
                      | None => None
                      | Some eb => Some (eb <=? close_dt)
                      end
                  end)
               (fun st =>
                  match datetime_add (snd st) dur with
                  | None => None
                  | Some e =>
                      match datetime_add (snd st) step with
                      | None => None
                      | Some cur => Some (fst st ++ [(snd st, e)], cur)
                      end
                  end)
               ([], start_day))
      end
  end.

(** ** Pricing *)

(** The rate of the minute that starts at [cur]. *)
Definition rate_at (cur : datetime) : Z :=
  if (time 13 0 <=? time_of cur) && (time_of cur <? time 18 0)
  then DAY_RATE else EVE_RATE.

Definition price_step (end_local : datetime) (st : Py.num * datetime)
  : Py.num * datetime :=
  let total := fst st in
  let cur := snd st in
  let next_min := Z.min end_local (cur + minutes 1) in
  let rate := rate_at cur in
  (Py.add total (Py.truediv (Py.Int rate) (Py.Int 60)), next_min).

(** The surcharges and the final rounding, applied to the loop's total. *)
Definition price_finish (total : Py.num) (start_local end_local : datetime)
  (gamepads_mode : string) (headsets : bool) : option Z :=
  let total :=
    if (gamepads_mode =? "squad")%string then
      let minutes := (end_local - start_local) / 60 in
      Py.add total
        (Py.mul (Py.truediv (Py.Int 100) (Py.Int 60)) (Py.Int minutes))
    else total in
  let total := if headsets then Py.add total (Py.Int 150) else total in
  Py.int (Py.round0 total).

Definition price_for_interval (start_local end_local : datetime)
  (gamepads_mode : string) (headsets : bool) : option Z :=
  let fuel := S (Z.to_nat ((end_local - start_local + 59) / 60)) in
  match while fuel (fun st => snd st <? end_local) (price_step end_local)
          (Py.Int 0, start_local) with
  | None => None
  | Some st =>
      price_finish (fst st) start_local end_local gamepads_mode headsets
  end.

(** [price_for_interval] with the range of [datetime]: the loop's
    [cur + timedelta(minutes=1)] raises [OverflowError] past
    [datetime.max].  The two agree wherever that sum stays in range (lemma
    [price_for_interval_ranged_eq]), which is where the theorems on
    [price_for_interval] speak of the code. *)
Definition price_step_ranged (end_local : datetime)
  (st : Py.num * datetime) : option (Py.num * datetime) :=
  let total := fst st in
  let cur := snd st in
  match datetime_add cur (minutes 1) with
  | None => None
  | Some next =>
      let next_min := Z.min end_local next in
      let rate := rate_at cur in
      Some (Py.add total (Py.truediv (Py.Int rate) (Py.Int 60)), next_min)
  end.

Definition price_for_interval_ranged (start_local end_local : datetime)
  (gamepads_mode : string) (headsets : bool) : option Z :=
  let fuel := S (Z.to_nat ((end_local - start_local + 59) / 60)) in
  match while_raising fuel (fun st => Some (snd st <? end_local))
          (price_step_ranged end_local) (Py.Int 0, start_local) with
  | None => None
  | Some st =>
      price_finish (fst st) start_local end_local gamepads_mode headsets
  end.

(** ** The bookings table *)

Module bookings.

Record row : Type := {
  id : Z;
  user_id : Z;
  username : string;
  name : option string;
  phone : string;
  start_ts : Z;
  end_ts : Z;
  duration_min : Z;
  addons : string;
  price_total : Z;
  status : string;
  created_ts : Z
}.

End bookings.

(** A connection is the table's content, in insertion order. *)
Definition connection : Type := list bookings.row.

(** [INTEGER PRIMARY KEY AUTOINCREMENT]: one more than the largest id so
    far (the bot never deletes a row). *)
Definition next_id (conn : connection) : Z :=
  1 + fold_right Z.max 0 (map bookings.id conn).

(** [status IN ('pending','confirmed','blocked')]. *)
Definition status_occupies (st : string) : bool :=
  ((st =? "pending") || (st =? "confirmed") || (st =? "blocked"))%string.

(** The query of [overlaps]: is there a row that occupies time and for
    which [NOT (end_ts <= s OR start_ts >= e)] holds? *)
Definition overlaps (conn : connection) (start_utc end_utc : datetime) : bool :=
  let s := timestamp start_utc in
  let e := timestamp end_utc in
  existsb
    (fun r =>
       status_occupies (bookings.status r)
       && negb ((bookings.end_ts r <=? s) || (bookings.start_ts r >=? e)))
    conn.

(** ** The booking dialogue *)

Module BookingDraft.

Record t : Type := {
  date : option datetime;
  duration_min : Z;
  start_dt : option datetime;
  gamepads_mode : string;
  headsets : bool;
  name : option string;
  phone : option string
}.

End BookingDraft.

Inductive state : Type :=
| CHOOSING_DATE
| CHOOSING_DURATION
| CHOOSING_TIME
| CHOOSING_ADDONS
| ENTERING_NAME
| ENTERING_PHONE
| CONFIRMING
| END.

(** The check [enter_phone] makes before it writes: the candidate's end is
    pushed [BUFFER_MIN] minutes forward, both ends go to UTC, and
    [overlaps] is asked. *)
Definition commit_check (tz : Z) (conn : connection) (start_local : datetime)
  (duration_min : Z) : bool :=
  let end_local := start_local + minutes (duration_min + BUFFER_MIN) in
  let start_utc := to_utc tz start_local in
  let end_utc := to_utc tz end_local in
  overlaps conn start_utc end_utc.

(** [";".join] of the selected options. *)
Definition addons_of (gamepads_mode : string) (headsets : bool) : string :=
  match (gamepads_mode =? "squad")%string, headsets with
  | true, true => "squad;headsets"
  | true, false => "squad"
  | false, true => "headsets"
  | false, false => ""
  end.

(** [enter_phone], as a function of the table: the table after the handler
    and the dialogue state it returns; [None] when the handler raises (no
    start time in the draft, no keyboard for the reply to a refused slot,
    or the price cannot be computed), in which case the connection rolls
    back.  [now_ts] is [int(datetime.utcnow().timestamp())]; messages to the
    user and to the admins are left out.  The reply to a refused slot
    carries [time_kb(draft.date, draft.duration_min)]: of that call it
    matters here only whether it raises, which it does without a date and
    when [iter_open_slots] does, whatever the clock (lemma
    [time_kb_returns_iff]). *)
Definition enter_phone (tz now_ts : Z) (conn : connection)
  (draft : BookingDraft.t) (user_id : Z) (username : option string)
  (phone : string) : option (connection * state) :=
  match BookingDraft.start_dt draft with
  | None => None
  | Some start_local =>
      let duration_min := BookingDraft.duration_min draft in
      if commit_check tz conn start_local duration_min
      then
        match BookingDraft.date draft with
        | None => None
        | Some date =>
            match iter_open_slots date duration_min with
            | None => None
            | Some _ => Some (conn, CHOOSING_TIME)
            end
        end
      else
        match price_for_interval start_local
                (start_local + minutes duration_min)
                (BookingDraft.gamepads_mode draft)
                (BookingDraft.headsets draft) with
        | None => None
        | Some price =>
            let r := {|
              bookings.id := next_id conn;
              bookings.user_id := user_id;
              bookings.username :=
                match username with Some u => u | None => "" end;
              bookings.name := BookingDraft.name draft;
              bookings.phone := phone;
              bookings.start_ts := timestamp (to_utc tz start_local);
              bookings.end_ts :=
                timestamp (to_utc tz (start_local + minutes duration_min));
              bookings.duration_min := duration_min;
              bookings.addons :=
                addons_of (BookingDraft.gamepads_mode draft)
                  (BookingDraft.headsets draft);
              bookings.price_total := price;
              bookings.status := "pending";
              bookings.created_ts := now_ts
            |} in
            Some (conn ++ [r], END)
        end
  end.

(** [admin_block] on a well-formed command [block YYYY-MM-DD HH:MM <min>],
    parsed to the local datetime [d] and the duration [dur]. *)
Definition admin_block (tz now_ts : Z) (admins : list Z) (conn : connection)
  (user_id : Z) (d : datetime) (dur : Z) : connection :=
  if negb (existsb (Z.eqb user_id) admins) then conn
  else
    let start_utc := to_utc tz d in
    let end_utc := to_utc tz (d + minutes dur) in
    if overlaps conn start_utc end_utc then conn
    else
      conn ++ [{|
        bookings.id := next_id conn;
        bookings.user_id := 0;
        bookings.username := "";
        bookings.name := Some "BLOCK"%string;
        bookings.phone := "";
        bookings.start_ts := timestamp start_utc;
        bookings.end_ts := timestamp end_utc;
        bookings.duration_min := dur;
        bookings.addons := "";
        bookings.price_total := 0;
        bookings.status := "blocked";
        bookings.created_ts := now_ts
      |}].

(** ** The specification's vocabulary *)

(** Two intervals overlap iff [NOT (a.end <= b.start OR a.start >= b.end)]. *)
Definition intervals_overlap (a_start a_end b_start b_end : Z) : Prop :=
  ~ (a_end <= b_start \/ a_start >= b_end).

(** The minutes of the interval [[start, end)]: those that begin at
    [start], [start + 1 min], ... before [end]. *)
Definition minute_count (start_local end_local : datetime) : nat :=
  Z.to_nat ((end_local - start_local + 59) / 60).

Fixpoint minute_starts (n : nat) (cur : datetime) : list datetime :=
  match n with
  | O => []
  | S n' => cur :: minute_starts n' (cur + minutes 1)
  end.

(** The day band [[13:00, 18:00)] on the 24-hour clock; every other time of
    day, through midnight, is in the evening band. *)
Definition in_day_band (t : datetime) : bool :=
  (time 13 0 <=? t mod 86400) && (t mod 86400 <? time 18 0).

Definition spec_minute_cost (dayRate eveRate : Z) (t : datetime) : Py.num :=
  if in_day_band t
  then Py.truediv (Py.Int dayRate) (Py.Int 60)
  else Py.truediv (Py.Int eveRate) (Py.Int 60).

Definition spec_sum (costs : list Py.num) : Py.num :=
  fold_left Py.add costs (Py.Int 0).

(** The base price in the specification's words: the sum over the minutes,
    rounded once. *)
Definition spec_base_price (dayRate eveRate : Z)
  (start_local end_local : datetime) : option Z :=
  Py.int (Py.round0
    (spec_sum (map (spec_minute_cost dayRate eveRate)
                 (minute_starts (minute_count start_local end_local)
                    start_local)))).

(** The alternative the specification rules out: every minute's cost
    rounded on its own, then summed. *)
Definition rounded_per_minute (dayRate eveRate : Z)
  (start_local end_local : datetime) : option Z :=
  fold_left
    (fun acc t =>
       match acc, Py.int (Py.round0 (spec_minute_cost dayRate eveRate t)) with
       | Some a, Some c => Some (a + c)
       | _, _ => None
       end)
    (minute_starts (minute_count start_local end_local) start_local)
    (Some 0).

(** The longest [timedelta], in seconds: no two datetimes are further
    apart. *)
Definition timedelta_max : Z := 86399999999999.

(** ** Binary64 values as scaled integers

    A finite non-negative binary64 [x] is described by the integer
    [x * 2^1074]: the smallest positive binary64 is [2^-1074]. *)

Definition bias : Z := 1074.

(** The number of low bits of [v] that do not fit in a 53-bit mantissa. *)
Definition kof (v : Z) : Z := Z.max (Z.log2 v + 1 - 53) 0.

(** Round-to-nearest-even of the scaled value [v] to 53 significant bits. *)
Definition Rz (v : Z) : Z := Py.rne v (kof v) * 2 ^ kof v.

(** The binary64 whose scaled value is [w]. *)
Definition Z2F (w : Z) : spec_float :=
  if w =? 0 then S754_zero false
  else if kof w <=? 2045
       then S754_finite false (Z.to_pos (w / 2 ^ kof w)) (kof w - bias)
       else S754_infinity false.

(** [w] is the scaled value of a finite non-negative binary64. *)
Definition okv (w : Z) : Prop := 0 <= w /\ Rz w = w /\ kof w <= 2045.

(** What [n] right shifts of the mantissa [m] leave in a [shr_record]. *)
Definition shr_inv (m : Z) (n : Z) (mrs : shr_record) : Prop :=
  shr_m mrs = m / 2 ^ n /\
  shr_r mrs = Z.odd (m / 2 ^ (n - 1)) /\
  shr_s mrs = negb (m mod 2 ^ (n - 1) =? 0).

(** The scaled values of [400/60], [500/60], [100/60] and [150]. *)
Definition w_day : Z := 7505999378950827 * 2 ^ 1024.
Definition w_eve : Z := 4691249611844267 * 2 ^ 1025.
Definition w_squad : Z := 7505999378950827 * 2 ^ 1022.
Definition w_headsets : Z := 150 * 2 ^ 1074.

Definition rate_w (cur : datetime) : Z :=
  if in_day_band cur then w_day else w_eve.

(** The loop's total over the minutes [l], from the total [acc]; the
    surcharges; all on scaled values. *)
Fixpoint total_w (acc : Z) (l : list datetime) : Z :=
  match l with
  | [] => acc
  | t :: l' => total_w (Rz (acc + rate_w t)) l'
  end.

Definition finish_w (total mins : Z) (squad headsets : bool) : Z :=
  let total :=
    if squad then Rz (total + Rz (w_squad * mins)) else total in
  if headsets then Rz (total + w_headsets) else total.

(** A bound no total reaches: adding a minute's cost to [2^60] returns
    [2^60]. *)
Definition w_top : Z := 2 ^ 1134.

(** The slots on the grid: [n] slots of length [dur], [step] apart, from
    [cur] on. *)
Fixpoint grid (n : nat) (cur step dur : Z) : list (datetime * datetime) :=
  match n with
  | O => []
  | S n' => (cur, cur + dur) :: grid n' (cur + step) step dur
  end.

(** How many grid points [cur], [cur + step], ... satisfy
    [point + need <= close]. *)
Definition grid_count (cur close need step : Z) : nat :=
  Z.to_nat ((close - cur - need) / step + 1).

(** The local time [h:m] of the day number [day] (days since 1970-01-01). *)
Definition on_day (day h m : Z) : datetime := days day + time h m.

(** A stored reservation of [duration_min] minutes from [start_local], as
    both handlers write it, with the given status. *)
Definition stored (tz : Z) (start_local : datetime) (duration_min : Z)
  (status : string) : bookings.row :=
  {| bookings.id := 1;
     bookings.user_id := 0;
     bookings.username := "";
     bookings.name := None;
     bookings.phone := "";
     bookings.start_ts := timestamp (to_utc tz start_local);
     bookings.end_ts :=
       timestamp (to_utc tz (start_local + minutes duration_min));
     bookings.duration_min := duration_min;
     bookings.addons := "";
     bookings.price_total := 0;
     bookings.status := status;
     bookings.created_ts := 0 |}.

(** The invariant of the table: a row holds the interval without the
    buffer. *)
Definition row_unbuffered (r : bookings.row) : Prop :=
  bookings.end_ts r - bookings.start_ts r = bookings.duration_min r * 60.

(** A draft for a booking of [duration_min] minutes from [start_local]. *)
Definition draft_of (start_local : datetime) (duration_min : Z)
  (gamepads_mode : string) (headsets : bool) : BookingDraft.t :=
  {| BookingDraft.date := Some (start_local - time_of start_local);
     BookingDraft.duration_min := duration_min;
     BookingDraft.start_dt := Some start_local;
     BookingDraft.gamepads_mode := gamepads_mode;
     BookingDraft.headsets := headsets;
     BookingDraft.name := Some "guest"%string;
     BookingDraft.phone := None |}.

(** ** Status changes by the admins *)

(** [UPDATE bookings SET status = st WHERE id = bid]. *)
Definition with_status (r : bookings.row) (st : string) : bookings.row :=
  {| bookings.id := bookings.id r;
     bookings.user_id := bookings.user_id r;
     bookings.username := bookings.username r;
     bookings.name := bookings.name r;
     bookings.phone := bookings.phone r;
     bookings.start_ts := bookings.start_ts r;
     bookings.end_ts := bookings.end_ts r;
     bookings.duration_min := bookings.duration_min r;
     bookings.addons := bookings.addons r;
     bookings.price_total := bookings.price_total r;
     bookings.status := st;
     bookings.created_ts := bookings.created_ts r |}.

Definition update_status (st : string) (bid : Z) (conn : connection)
  : connection :=
  map (fun r => if bookings.id r =? bid then with_status r st else r) conn.

(** [admin_confirm] and [admin_cancel] on a well-formed command
    [confirm <id>] or [cancel <id>], parsed to [bid]. *)
Definition admin_confirm (admins : list Z) (conn : connection)
  (user_id bid : Z) : connection :=
  if negb (existsb (Z.eqb user_id) admins) then conn
  else update_status "confirmed" bid conn.

Definition admin_cancel (admins : list Z) (conn : connection)
  (user_id bid : Z) : connection :=
  if negb (existsb (Z.eqb user_id) admins) then conn
  else update_status "cancelled" bid conn.

(** Two rows that both occupy time and whose stored intervals overlap. *)
Definition rows_clash (a b : bookings.row) : Prop :=
  status_occupies (bookings.status a) = true /\
  status_occupies (bookings.status b) = true /\
  intervals_overlap (bookings.start_ts a) (bookings.end_ts a)
    (bookings.start_ts b) (bookings.end_ts b).

(** No two rows of the table clash. *)
Definition no_double_booking (conn : connection) : Prop :=
  ForallOrdPairs (fun a b => ~ rows_clash a b) conn.

(** The row occupies the instant [t]. *)
Definition holds_instant (r : bookings.row) (t : Z) : Prop :=
  status_occupies (bookings.status r) = true /\
  bookings.start_ts r <= t < bookings.end_ts r.

(** One call of a handler that writes reservations or cancels one. *)
Inductive booking_step (tz : Z) (admins : list Z)
  : connection -> connection -> Prop :=
| step_enter_phone now_ts conn draft user_id username phone conn' st :
    enter_phone tz now_ts conn draft user_id username phone
    = Some (conn', st) ->
    booking_step tz admins conn conn'
| step_admin_block now_ts conn user_id d dur :
    booking_step tz admins conn
      (admin_block tz now_ts admins conn user_id d dur)
| step_admin_cancel conn user_id bid :
    booking_step tz admins conn (admin_cancel admins conn user_id bid).

(** The tables these handlers can build from the empty table. *)
Inductive reachable (tz : Z) (admins : list Z) : connection -> Prop :=
| reachable_empty : reachable tz admins []
| reachable_step conn conn' :
    reachable tz admins conn ->
    booking_step tz admins conn conn' ->
    reachable tz admins conn'.

(** The table after a handler that may raise: unchanged when it raises. *)
Definition table_after (conn : connection)
  (res : option (connection * state)) : connection :=
  match res with
  | Some (conn', _) => conn'
  | None => conn
  end.

(** Two tables for the examples: one booking of 13:00-14:00, then a second
    one of 15:00-16:30. *)
Definition one_booking : connection :=
  table_after []
    (enter_phone 10800 0 [] (draft_of (on_day 20407 13 0) 60 "duo" false)
       7 None "1").

Definition two_bookings : connection :=
  table_after one_booking
    (enter_phone 10800 0 one_booking
       (draft_of (on_day 20407 15 0) 90 "squad" true) 8 None "2").

(** The table for the example of a confirmation after a cancellation:
    13:00-14:00 is booked, cancelled by the admin 1, and booked again. *)
Definition rebooked_after_cancel : connection :=
  let cancelled := admin_cancel [1] one_booking 1 1 in
  table_after cancelled
    (enter_phone 10800 0 cancelled
       (draft_of (on_day 20407 13 0) 60 "duo" false) 8 None "2").

(** ** Prices in closed form *)

(** [num / den] rounded to the nearest integer, ties to even. *)
Definition round_div (num den : Z) : Z :=
  let q := num / den in
  match 2 * (num mod den) ?= den with
  | Lt => q
  | Eq => if Z.even q then q else q + 1
  | Gt => q + 1
  end.

(** The number of minutes of the [n] minutes from [start_local] that begin
    in the day band. *)
Definition day_minutes (n : nat) (start_local : datetime) : Z :=
  Z.of_nat (List.length (filter in_day_band (minute_starts n start_local))).

(** The price computed with exact fractions: the blend of the two rates
    rounded once, plus 100 per hour for the squad tier, plus 150 for the
    headsets. *)
Definition exact_price (n day : Z) (squad headsets : bool) : Z :=
  round_div (DAY_RATE * day + EVE_RATE * (n - day)) 60
  + (if squad then 100 * n / 60 else 0)
  + (if headsets then 150 else 0).

(** The cost of a minute by its band, and the price of [mins] minutes whose
    bands are listed in [bands]. *)
Definition band_cost (day : bool) : Py.num :=
  if day
  then Py.truediv (Py.Int DAY_RATE) (Py.Int 60)
  else Py.truediv (Py.Int EVE_RATE) (Py.Int 60).

Definition bands_price (mins : Z) (bands : list bool) (squad headsets : bool)
  : option Z :=
  price_finish (spec_sum (map band_cost bands)) 0 (minutes mins)
    (if squad then "squad" else "duo") headsets.

(** Do the prices of [n] minutes with the bands [bands], with and without
    each option, equal the exact prices? *)
Definition bands_exact (n : nat) (bands : list bool) (day : nat) : bool :=
  let total := spec_sum (map band_cost bands) in
  forallb
    (fun squad : bool =>
       forallb
         (fun headsets : bool =>
            match price_finish total 0 (minutes (Z.of_nat n))
                    (if squad then "squad" else "duo") headsets with
            | Some p =>
                p =? exact_price (Z.of_nat n) (Z.of_nat day) squad headsets
            | None => false
            end)
         [false; true])
    [false; true].

(** The same for every run of [n] minutes that changes band at most
    once. *)
Definition offered_exact (n : nat) : bool :=
  forallb
    (fun a : nat =>
       bands_exact n (repeat false a ++ repeat true (n - a)) (n - a)
       && bands_exact n (repeat true a ++ repeat false (n - a)) a)
    (seq 0 (S n)).

(** ** Listings *)

(** [ORDER BY]: insertion sort by the order [before]; rows that compare
    equal stay in the order of the table (SQLite leaves their order
    open). *)
Fixpoint insert_by (before : bookings.row -> bookings.row -> bool)
  (r : bookings.row) (l : list bookings.row) : list bookings.row :=
  match l with
  | [] => [r]
  | x :: l' => if before r x then r :: x :: l' else x :: insert_by before r l'
  end.

Definition order_by (before : bookings.row -> bookings.row -> bool)
  (l : list bookings.row) : list bookings.row :=
  fold_right (insert_by before) [] l.

(** The rows [list_bookings] formats:
    [WHERE user_id = ? AND status != 'cancelled' ORDER BY start_ts DESC
     LIMIT 10]. *)
Definition own_not_cancelled (uid : Z) (r : bookings.row) : bool :=
  (bookings.user_id r =? uid)
  && negb (bookings.status r =? "cancelled")%string.

Definition list_bookings (conn : connection) (uid : Z) : list bookings.row :=
  firstn 10
    (order_by
       (fun a b => bookings.start_ts b <=? bookings.start_ts a)
       (filter (own_not_cancelled uid) conn)).

(** [local_today()] at the local time [now_local]. *)
Definition local_today (now_local : datetime) : datetime :=
  now_local - time_of now_local.

(** The rows [admin] formats for an admin:
    [WHERE start_ts BETWEEN ? AND ? ORDER BY start_ts ASC], from today
    00:00 to the day after tomorrow 00:00; nothing for anyone else. *)
Definition admin (tz : Z) (now_local : datetime) (admins : list Z)
  (conn : connection) (user_id : Z) : list bookings.row :=
  if negb (existsb (Z.eqb user_id) admins) then []
  else
    let today := local_today now_local in
    let tomorrow := today + days 1 in
    order_by
      (fun a b => bookings.start_ts a <=? bookings.start_ts b)
      (filter
         (fun r =>
            (timestamp (to_utc tz today) <=? bookings.start_ts r)
            && (bookings.start_ts r
                <=? timestamp (to_utc tz (tomorrow + days 1))))
         conn).

(** ** Python strings

    A [str] is a [string] of its UTF-8 bytes.  Comparison, concatenation,
    [startswith] with an ASCII prefix and [split] on an ASCII separator act
    on the bytes as they do on the code points; slices count code points,
    whose bytes after the first have the form [10xxxxxx]. *)

Module Str.

(** [s.split(sep)] for a separator of one character. *)
Fixpoint split (sep : ascii) (s : string) : list string :=
  match s with
  | EmptyString => [EmptyString]
  | String c s' =>
      if Ascii.eqb c sep then EmptyString :: split sep s'
      else
        match split sep s' with
        | [] => [String c EmptyString]
        | x :: l => String c x :: l
        end
  end.

(** A byte that continues a code point. *)
Definition continues (c : ascii) : bool :=
  let n := nat_of_ascii c in ((128 <=? n) && (n <? 192))%nat.

(** [s[:n]] and [s[n:]]: the first [n] code points, and what follows
    them. *)
Fixpoint take (n : nat) (s : string) : string :=
  match s with
  | EmptyString => EmptyString
  | String c s' =>
      if continues c then String c (take n s')
      else
        match n with
        | O => EmptyString
        | S n' => String c (take n' s')
        end
  end.

Fixpoint drop (n : nat) (s : string) : string :=
  match s with
  | EmptyString => EmptyString
  | String c s' =>
      if continues c then drop n s'
      else
        match n with
        | O => s
        | S n' => drop n' s'
        end
  end.

Definition digit_of (c : ascii) : option Z :=
  let n := Z.of_nat (nat_of_ascii c) in
  if (48 <=? n) && (n <=? 57) then Some (n - 48) else None.

(** The ASCII whitespace that [int] skips around a literal: tab, line
    feed, vertical tab, form feed, carriage return and space. *)
Definition isspace (c : ascii) : bool :=
  let n := nat_of_ascii c in
  ((9 <=? n) && (n <=? 13) || (n =? 32))%nat.

Fixpoint lstrip (s : string) : string :=
  match s with
  | String c s' => if isspace c then lstrip s' else s
  | EmptyString => s
  end.

(** The digits of a literal, single underscores between digits allowed;
    [ok] tells whether the last character was a digit. *)
Fixpoint digits (s : string) (acc : Z) (ok : bool) : option Z :=
  match s with
  | EmptyString => if ok then Some acc else None
  | String c s' =>
      match digit_of c with
      | Some d => digits s' (10 * acc + d) true
      | None =>
          if Ascii.eqb c "_" && ok then digits s' acc false
          else if isspace c && ok
               then match lstrip s' with
                    | EmptyString => Some acc
                    | _ => None
                    end
               else None
      end
  end.

(** [int(s)] in base 10 on ASCII text: surrounding whitespace, an optional
    sign, digits; [None] stands for the [ValueError].  On text outside
    ASCII [int] reads more (other decimal digits and other whitespace), so
    what depends on it there is stated for every conversion instead. *)
Definition int (s : string) : option Z :=
  match lstrip s with
  | String "-" s' => option_map Z.opp (digits s' 0 false)
  | String "+" s' => digits s' 0 false
  | s' => digits s' 0 false
  end.

(** A number below 100 on two digits, as [%H] and [%M] print it. *)
Definition digit_char (n : Z) : ascii := ascii_of_nat (Z.to_nat (48 + n)).

Definition two_digits (n : Z) : string :=
  String (digit_char (n / 10)) (String (digit_char (n mod 10)) EmptyString).

End Str.

(** [d.strftime('%H:%M')] and [d.date()], the latter as a day number. *)
Definition strftime_HM (d : datetime) : string :=
  (Str.two_digits (time_of d / 3600) ++ ":"
   ++ Str.two_digits (time_of d mod 3600 / 60))%string.

Definition date_of (d : datetime) : Z := d / 86400.

(** [d.replace(hour=h, minute=m)]: [None] stands for the [ValueError] on
    an hour or a minute out of range. *)
Definition replace_hour_minute (d : datetime) (h m : Z) : option datetime :=
  if (0 <=? h) && (h <=? 23) && (0 <=? m) && (m <=? 59)
  then Some (d - time_of d + time h m + time_of d mod 60)
  else None.

(** ** Keyboards *)

Module InlineKeyboardButton.

Record t : Type := {
  text : string;
  callback_data : string
}.

End InlineKeyboardButton.

Definition InlineKeyboardMarkup : Type := list (list InlineKeyboardButton.t).

Definition duration_kb : InlineKeyboardMarkup :=
  [[ {| InlineKeyboardButton.text := "60 мин";
        InlineKeyboardButton.callback_data := "dur:60" |};
     {| InlineKeyboardButton.text := "90 мин";
        InlineKeyboardButton.callback_data := "dur:90" |};
     {| InlineKeyboardButton.text := "120 мин";
        InlineKeyboardButton.callback_data := "dur:120" |} ]].

(** The button of a slot that starts at [start]. *)
Definition slot_button (start : datetime) : InlineKeyboardButton.t :=
  {| InlineKeyboardButton.text := strftime_HM start;
     InlineKeyboardButton.callback_data := ("time:" ++ strftime_HM start)%string |}.

Definition noop_button : InlineKeyboardButton.t :=
  {| InlineKeyboardButton.text := "Нет доступных слотов";
     InlineKeyboardButton.callback_data := "noop" |}.

(** [start < now_local], where [now_local] is [now_sec] seconds and
    [now_usec] microseconds. *)
Definition before_now (start now_sec now_usec : Z) : bool :=
  (start <? now_sec) || ((start =? now_sec) && (0 <? now_usec)).

(** One turn of the loop of [time_kb] over the slots. *)
Definition time_kb_step (skip : datetime -> bool)
  (st : InlineKeyboardMarkup * list InlineKeyboardButton.t)
  (slot : datetime * datetime)
  : InlineKeyboardMarkup * list InlineKeyboardButton.t :=
  let buttons := fst st in
  let row := snd st in
  let start := fst slot in
  if skip start then st
  else
    let row := row ++ [slot_button start] in
    if (List.length row =? 4)%nat then (buttons ++ [row], [])
    else (buttons, row).

(** [time_kb]; [datetime.now(TZ)] is [now_sec] seconds and [now_usec]
    microseconds of local time. *)
Definition time_kb (now_sec now_usec : Z) (date_local : datetime)
  (duration_min : Z) : option InlineKeyboardMarkup :=
  match iter_open_slots date_local duration_min with
  | None => None
  | Some slots =>
      let skip start :=
        before_now start now_sec now_usec
        && (date_of date_local =? date_of now_sec) in
      let st := fold_left (time_kb_step skip) slots ([], []) in
      let buttons :=
        match snd st with
        | [] => fst st
        | _ :: _ => fst st ++ [snd st]
        end in
      match buttons with
      | [] => Some [[noop_button]]
      | _ :: _ => Some buttons
      end
  end.

(** ** The handlers of the choices

    A handler gets the callback data and the user's draft, if any, and
    returns the draft it leaves in [user_drafts] and the dialogue state it
    returns; [None] stands for an exception, which leaves [user_drafts] as
    it was unless said otherwise. *)

Definition with_start_dt (d : BookingDraft.t) (start : datetime)
  : BookingDraft.t :=
  {| BookingDraft.date := BookingDraft.date d;
     BookingDraft.duration_min := BookingDraft.duration_min d;
     BookingDraft.start_dt := Some start;
     BookingDraft.gamepads_mode := BookingDraft.gamepads_mode d;
     BookingDraft.headsets := BookingDraft.headsets d;
     BookingDraft.name := BookingDraft.name d;
     BookingDraft.phone := BookingDraft.phone d |}.

(** [time_chosen], with the conversion [int] of the two fields left
    open. *)
Definition time_chosen_with (int : string -> option Z) (data : string)
  (draft : option BookingDraft.t)
  : option (option BookingDraft.t * state) :=
  if negb (String.prefix "time:" data) then Some (draft, CHOOSING_TIME)
  else
    match nth_error (Str.split ":" data) 1 with
    | None => None
    | Some hhmm =>
        match draft with
        | None => None
        | Some d =>
            match BookingDraft.date d with
            | None => None
            | Some date =>
                match int (Str.take 2 hhmm) with
                | None => None
                | Some h =>
                    match int (Str.drop 3 hhmm) with
                    | None => None
                    | Some m =>
                        match replace_hour_minute date h m with
                        | None => None
                        | Some start_local =>
                            Some (Some (with_start_dt d start_local),
                                  CHOOSING_ADDONS)
                        end
                    end
                end
            end
        end
    end.

(** [time_chosen] on ASCII data. *)
Definition time_chosen (data : string) (draft : option BookingDraft.t)
  : option (option BookingDraft.t * state) :=
  time_chosen_with Str.int data draft.

(** The keyboard of a call that returned. *)
Definition kb_of (k : option InlineKeyboardMarkup) : InlineKeyboardMarkup :=
  match k with Some kb => kb | None => [] end.

(** The draft with one field written, as the handlers write it. *)
Definition with_duration_min (d : BookingDraft.t) (n : Z) : BookingDraft.t :=
  {| BookingDraft.date := BookingDraft.date d;
     BookingDraft.duration_min := n;
     BookingDraft.start_dt := BookingDraft.start_dt d;
     BookingDraft.gamepads_mode := BookingDraft.gamepads_mode d;
     BookingDraft.headsets := BookingDraft.headsets d;
     BookingDraft.name := BookingDraft.name d;
     BookingDraft.phone := BookingDraft.phone d |}.

Definition with_gamepads_mode (d : BookingDraft.t) (mode : string)
  : BookingDraft.t :=
  {| BookingDraft.date := BookingDraft.date d;
     BookingDraft.duration_min := BookingDraft.duration_min d;
     BookingDraft.start_dt := BookingDraft.start_dt d;
     BookingDraft.gamepads_mode := mode;
     BookingDraft.headsets := BookingDraft.headsets d;
     BookingDraft.name := BookingDraft.name d;
     BookingDraft.phone := BookingDraft.phone d |}.

Definition with_headsets (d : BookingDraft.t) (hs : bool) : BookingDraft.t :=
  {| BookingDraft.date := BookingDraft.date d;
     BookingDraft.duration_min := BookingDraft.duration_min d;
     BookingDraft.start_dt := BookingDraft.start_dt d;
     BookingDraft.gamepads_mode := BookingDraft.gamepads_mode d;
     BookingDraft.headsets := hs;
     BookingDraft.name := BookingDraft.name d;
     BookingDraft.phone := BookingDraft.phone d |}.

Definition with_name (d : BookingDraft.t) (name : string) : BookingDraft.t :=
  {| BookingDraft.date := BookingDraft.date d;
     BookingDraft.duration_min := BookingDraft.duration_min d;
     BookingDraft.start_dt := BookingDraft.start_dt d;
     BookingDraft.gamepads_mode := BookingDraft.gamepads_mode d;
     BookingDraft.headsets := BookingDraft.headsets d;
     BookingDraft.name := Some name;
     BookingDraft.phone := BookingDraft.phone d |}.

(** [duration_chosen]: the draft it leaves in [user_drafts] and the state
    it returns, [None] when it raises.  The duration is written to the
    draft before [time_kb] is called, so it stays written when that call
    raises for want of a date. *)
Definition duration_chosen (now_sec now_usec : Z) (data : string)
  (draft : option BookingDraft.t) : option BookingDraft.t * option state :=
  if negb (String.prefix "dur:" data) then (draft, Some CHOOSING_DURATION)
  else
    match nth_error (Str.split ":" data) 1 with
    | None => (draft, None)
    | Some s =>
        match Str.int s with
        | None => (draft, None)
        | Some minutes =>
            match draft with
            | None => (None, None)
            | Some d =>
                let d := with_duration_min d minutes in
                match BookingDraft.date d with
                | None => (Some d, None)
                | Some date =>
                    match time_kb now_sec now_usec date
                            (BookingDraft.duration_min d) with
                    | None => (Some d, None)
                    | Some _ => (Some d, Some CHOOSING_TIME)
                    end
                end
            end
        end
    end.

Definition addons_kb (draft : BookingDraft.t) : InlineKeyboardMarkup :=
  let squad :=
    if (BookingDraft.gamepads_mode draft =? "squad")%string
    then "✅ 3–4 геймпада (+100/ч)"%string
    else "3–4 геймпада (+100/ч)"%string in
  let duo :=
    if (BookingDraft.gamepads_mode draft =? "duo")%string
    then "✅ 2 геймпада (вкл.)"%string
    else "2 геймпада (вкл.)"%string in
  let hs :=
    if BookingDraft.headsets draft
    then "✅ 2 гарнитуры (+150)"%string
    else "2 гарнитуры (+150)"%string in
  [ [ {| InlineKeyboardButton.text := duo;
         InlineKeyboardButton.callback_data := "pads:duo" |} ];
    [ {| InlineKeyboardButton.text := squad;
         InlineKeyboardButton.callback_data := "pads:squad" |} ];
    [ {| InlineKeyboardButton.text := hs;
         InlineKeyboardButton.callback_data := "hs:toggle" |} ];
    [ {| InlineKeyboardButton.text := "Продолжить";
         InlineKeyboardButton.callback_data := "next:confirm" |} ] ].

(** [addons_toggle]: the draft it leaves in [user_drafts], the state it
    returns and, on [next:confirm], the price in the message it sends;
    [None] when it raises, which it does in every branch without a draft. *)
Definition addons_toggle (data : string) (draft : option BookingDraft.t)
  : option (option BookingDraft.t * state * option Z) :=
  match draft with
  | None => None
  | Some d =>
      if String.prefix "pads:" data then
        match nth_error (Str.split ":" data) 1 with
        | None => None
        | Some mode =>
            Some (Some (with_gamepads_mode d mode), CHOOSING_ADDONS, None)
        end
      else if (data =? "hs:toggle")%string then
        Some (Some (with_headsets d (negb (BookingDraft.headsets d))),
              CHOOSING_ADDONS, None)
      else if (data =? "next:confirm")%string then
        match BookingDraft.start_dt d with
        | None => None
        | Some start_local =>
            let end_local :=
              start_local + minutes (BookingDraft.duration_min d) in
            match price_for_interval start_local end_local
                    (BookingDraft.gamepads_mode d)
                    (BookingDraft.headsets d) with
            | None => None
            | Some price => Some (Some d, ENTERING_NAME, Some price)
            end
        end
      else Some (Some d, CHOOSING_ADDONS, None)
  end.

(** [enter_name], where [name] is the text of the message, stripped. *)
Definition enter_name (name : string) (draft : option BookingDraft.t)
  : option (option BookingDraft.t * state) :=
  match draft with
  | None => None
  | Some d => Some (Some (with_name d name), ENTERING_PHONE)
  end.

(** Whether a button of [addons_kb] shows its option as chosen. *)
Definition marked (b : InlineKeyboardButton.t) : bool :=
  String.prefix "✅" (InlineKeyboardButton.text b).

(** * Facts *)

(** ** Binary64 rounding *)

Lemma digits2_pos_log2 p : Zpos (digits2_pos p) = Z.log2 (Zpos p) + 1.
Proof.
  induction p as [p IH|p IH|]; cbn [digits2_pos]; try reflexivity.
  - rewrite Pos2Z.inj_succ, IH. cbn [Z.log2]. destruct p; cbn; lia.
  - rewrite Pos2Z.inj_succ, IH. cbn [Z.log2]. destruct p; cbn; lia.
Qed.

Lemma iter_pos_nat {A} (f : A -> A) p x :
  iter_pos f p x = Nat.iter (Pos.to_nat p) f x.
Proof.
  revert x. induction p as [p IH|p IH|]; intro x; cbn [iter_pos].
  - rewrite !IH. rewrite Pos2Nat.inj_xI. 
    replace (S (2 * Pos.to_nat p))%nat with (Pos.to_nat p + (Pos.to_nat p + 1))%nat by lia.
    rewrite !Nat.iter_add. reflexivity.
  - rewrite !IH. rewrite Pos2Nat.inj_xO.
    replace (2 * Pos.to_nat p)%nat with (Pos.to_nat p + Pos.to_nat p)%nat by lia.
    rewrite Nat.iter_add. reflexivity.
  - reflexivity.
Qed.

Lemma shr_1_nonneg q r s :
  0 <= q ->
  shr_1 (Build_shr_record q r s) = Build_shr_record (q / 2) (Z.odd q) (r || s).
Proof.
  intros Hq. destruct q as [|p|p]; try lia.
  - reflexivity.
  - destruct p as [p|p|]; cbn [shr_1 Z.odd].
    + f_equal. rewrite Pos2Z.inj_xI. apply Z.div_unique with 1; lia.
    + f_equal. rewrite Pos2Z.inj_xO. apply Z.div_unique with 0; lia.
    + reflexivity.
Qed.

(** Splitting the low [n+1] bits of [m]. *)
Lemma mod_pow2_succ m n :
  0 <= n ->
  m mod 2 ^ (n + 1) = Z.b2z (Z.odd (m / 2 ^ n)) * 2 ^ n + m mod 2 ^ n.
Proof.
  intros Hn. rewrite Z.pow_add_r, Z.pow_1_r by lia.
  rewrite Z.rem_mul_r by (try apply Z.pow_nonzero; lia).
  rewrite Zmod_odd. destruct (Z.odd (m / 2 ^ n)); cbn [Z.b2z]; lia.
Qed.

Lemma shr_iter_inv m k :
  0 <= m ->
  shr_inv m (Z.of_nat (S k))
    (Nat.iter (S k) shr_1 (Build_shr_record m false false)).
Proof.
  intros Hm. induction k as [|k IH].
  - cbn [Nat.iter nat_rect]. rewrite shr_1_nonneg by assumption.
    unfold shr_inv; cbn [shr_m shr_r shr_s]. 
    change (Z.of_nat 1 - 1) with 0. change (2 ^ 0) with 1.
    rewrite Z.div_1_r, Z.mod_1_r. change (Z.of_nat 1) with 1. rewrite Z.pow_1_r. auto.
  - set (n := Z.of_nat (S k)) in *.
    assert (Hn : 1 <= n) by (unfold n; lia).
    replace (Z.of_nat (S (S k))) with (n + 1) by (unfold n; lia).
    change (Nat.iter (S (S k)) shr_1 ?x) with (shr_1 (Nat.iter (S k) shr_1 x)).
    destruct (Nat.iter (S k) shr_1 _) as [q r s].
    destruct IH as (Hq & Hr & Hs); cbn [shr_m shr_r shr_s] in *.
    assert (0 <= q) by (subst q; apply Z.div_pos; [lia | apply Z.pow_pos_nonneg; lia]).
    rewrite shr_1_nonneg by assumption.
    unfold shr_inv; cbn [shr_m shr_r shr_s]. repeat split.
    + subst q. rewrite Z.div_div by (try apply Z.pow_pos_nonneg; lia).
      rewrite Z.pow_add_r, Z.pow_1_r by lia. reflexivity.
    + replace (n + 1 - 1) with n by lia. now subst q.
    + replace (n + 1 - 1) with (n - 1 + 1) by lia.
      rewrite mod_pow2_succ by lia. rewrite <- Hr. subst s.
      pose proof (Z.mod_pos_bound m (2 ^ (n - 1)) ltac:(apply Z.pow_pos_nonneg; lia)).
      assert (0 < 2 ^ (n - 1)) by (apply Z.pow_pos_nonneg; lia).
      destruct r; cbn [Z.b2z orb].
      * symmetry. apply negb_true_iff, Z.eqb_neq. lia.
      * now rewrite Z.mul_0_l, Z.add_0_l.
Qed.

Lemma rne_of_shr m n mrs :
  1 <= n -> shr_inv m n mrs ->
  round_nearest_even (shr_m mrs) (loc_of_shr_record mrs) = Py.rne m n.
Proof.
  intros Hn (Hq & Hr & Hs). destruct mrs as [q r s]; cbn [shr_m shr_r shr_s] in *.
  unfold Py.rne. rewrite <- Hq.
  replace n with (n - 1 + 1) at 1 2 by lia.
  rewrite mod_pow2_succ by lia. rewrite <- Hr.
  replace (2 ^ (n - 1 + 1)) with (2 * 2 ^ (n - 1)) by (rewrite Z.pow_add_r, Z.pow_1_r by lia; lia).
  pose proof (Z.mod_pos_bound m (2 ^ (n - 1)) ltac:(apply Z.pow_pos_nonneg; lia)) as Hb.
  assert (H2 : 0 < 2 ^ (n - 1)) by (apply Z.pow_pos_nonneg; lia).
  destruct r, s; cbn [loc_of_shr_record round_nearest_even Z.b2z];
    symmetry in Hs; 
    try (apply negb_true_iff, Z.eqb_neq in Hs);
    try (apply negb_false_iff, Z.eqb_eq in Hs).
  - replace (_ ?= _) with Gt; [reflexivity|]. symmetry; apply Z.compare_gt_iff; lia.
  - rewrite Hs. replace (_ ?= _) with Eq; [reflexivity|]. symmetry; apply Z.compare_eq_iff; lia.
  - replace (_ ?= _) with Lt; [reflexivity|]. symmetry; apply Z.compare_lt_iff; lia.
  - replace (_ ?= _) with Lt; [reflexivity|]. symmetry; apply Z.compare_lt_iff; lia.
Qed.

Lemma rne_0 m : Py.rne m 0 = m.
Proof. unfold Py.rne. change (2 ^ 0) with 1. rewrite Z.mod_1_r, Z.div_1_r. reflexivity. Qed.

Lemma shr_spec m e n :
  0 <= m -> 0 <= n ->
  exists mrs, shr (Build_shr_record m false false) e n = (mrs, e + n) /\
    shr_m mrs = m / 2 ^ n /\
    round_nearest_even (shr_m mrs) (loc_of_shr_record mrs) = Py.rne m n.
Proof.
  intros Hm Hn. destruct n as [|p|p]; try lia.
  - eexists; split; [cbn [shr]; rewrite Z.add_0_r; reflexivity|].
    cbn [shr_m loc_of_shr_record round_nearest_even]. rewrite rne_0, Z.div_1_r; auto.
  - eexists; split; [reflexivity|].
    rewrite iter_pos_nat.
    destruct (Pos2Nat.is_succ p) as [k Hk]. rewrite Hk.
    pose proof (shr_iter_inv m k Hm) as Hinv.
    replace (Z.of_nat (S k)) with (Z.pos p) in Hinv by lia.
    split; [apply Hinv | apply rne_of_shr; [lia | exact Hinv]].
Qed.

(** *** Rounding to the nearest integer *)
Lemma pow2_pos n : 0 <= n -> 0 < 2 ^ n.
Proof. intros; apply Z.pow_pos_nonneg; lia. Qed.

Lemma rne_cases m n :
  0 <= n ->
  Py.rne m n = m / 2 ^ n \/ Py.rne m n = m / 2 ^ n + 1.
Proof. intros; unfold Py.rne. destruct (_ ?= _); auto. destruct (Z.even _); auto. Qed.

Lemma rne_exact a n : 0 <= n -> Py.rne (a * 2 ^ n) n = a.
Proof.
  intros Hn. pose proof (pow2_pos n Hn). unfold Py.rne.
  rewrite Z.mod_mul, Z.div_mul by lia.
  destruct (Z.compare_spec (2 * 0) (2 ^ n)); lia.
Qed.

Lemma rne_shift m j n :
  0 <= j -> 0 <= n -> Py.rne (m * 2 ^ j) (n + j) = Py.rne m n.
Proof.
  intros Hj Hn. pose proof (pow2_pos j Hj). pose proof (pow2_pos n Hn).
  unfold Py.rne. rewrite Z.pow_add_r by lia.
  rewrite Z.div_mul_cancel_r by lia.
  rewrite Z.mul_mod_distr_r by lia.
  replace (2 * (m mod 2 ^ n * 2 ^ j)) with (2 * (m mod 2 ^ n) * 2 ^ j) by lia.
  replace (2 * (m mod 2 ^ n) * 2 ^ j ?= 2 ^ n * 2 ^ j)
    with (2 * (m mod 2 ^ n) ?= 2 ^ n); [reflexivity|].
  destruct (Z.compare_spec (2 * (m mod 2 ^ n)) (2 ^ n));
    symmetry; [apply Z.compare_eq_iff | apply Z.compare_lt_iff | apply Z.compare_gt_iff]; nia.
Qed.

Lemma rne_mono a b n : 0 <= n -> a <= b -> Py.rne a n <= Py.rne b n.
Proof.
  intros Hn Hab. pose proof (pow2_pos n Hn) as Hp.
  assert (Hq : a / 2 ^ n <= b / 2 ^ n) by (apply Z.div_le_mono; lia).
  destruct (Z.eq_dec (a / 2 ^ n) (b / 2 ^ n)) as [E|NE].
  - assert (Hr : a mod 2 ^ n <= b mod 2 ^ n).
    { rewrite !Z.mod_eq by lia. rewrite E. lia. }
    unfold Py.rne. rewrite E.
    destruct (Z.compare_spec (2 * (a mod 2 ^ n)) (2 ^ n));
    destruct (Z.compare_spec (2 * (b mod 2 ^ n)) (2 ^ n));
    destruct (Z.even (b / 2 ^ n)); lia.
  - destruct (rne_cases a n Hn), (rne_cases b n Hn); lia.
Qed.

Lemma rne_le_grid a g n : 0 <= n -> a <= g * 2 ^ n -> Py.rne a n <= g.
Proof. intros Hn H. rewrite <- (rne_exact g n Hn). now apply rne_mono. Qed.

Lemma rne_ge_grid a g n : 0 <= n -> g * 2 ^ n <= a -> g <= Py.rne a n.
Proof. intros Hn H. rewrite <- (rne_exact g n Hn). now apply rne_mono. Qed.

Lemma kof_nonneg v : 0 <= kof v.
Proof. unfold kof; lia. Qed.

Lemma kof_mono v w : v <= w -> kof v <= kof w.
Proof. intros H. unfold kof. pose proof (Z.log2_le_mono v w H). lia. Qed.

Lemma Rz_nonneg v : 0 <= v -> 0 <= Rz v.
Proof.
  intros Hv. unfold Rz. pose proof (kof_nonneg v). pose proof (pow2_pos _ H).
  assert (0 <= Py.rne v (kof v)) by (apply rne_ge_grid; lia). nia.
Qed.

Lemma Rz_mono v w : 0 <= v -> v <= w -> Rz v <= Rz w.
Proof.
  intros Hv Hvw. pose proof (kof_mono v w Hvw) as Hk.
  pose proof (kof_nonneg v) as Hkv.
  destruct (Z.eq_dec (kof v) (kof w)) as [E|NE].
  - unfold Rz. rewrite E. apply Z.mul_le_mono_nonneg_r.
    + apply Z.lt_le_incl, pow2_pos; lia.
    + apply rne_mono; lia.
  - assert (Hlt : kof v < kof w) by lia. clear NE Hk.
    assert (Hw : 0 < w).
    { destruct (Z.eq_dec w 0) as [->|]; [|lia]. assert (v = 0) by lia; subst v. lia. }
    assert (Hl : Z.log2 v < Z.log2 w) by (unfold kof in *; lia).
    assert (Hkw : kof w = Z.log2 w - 52) by (unfold kof in *; lia).
    pose proof (Z.log2_nonneg v) as Hlv.
    apply Z.le_trans with (2 ^ Z.log2 w).
    + (* Rz v <= 2 ^ log2 w *)
      assert (Hd : 0 <= Z.log2 w - kof v) by (unfold kof in *; lia).
      replace (2 ^ Z.log2 w) with (2 ^ (Z.log2 w - kof v) * 2 ^ kof v)
        by (rewrite <- Z.pow_add_r by lia; f_equal; lia).
      unfold Rz. apply Z.mul_le_mono_nonneg_r; [apply Z.lt_le_incl, pow2_pos; lia|].
      apply rne_le_grid; [lia|].
      rewrite <- Z.pow_add_r by lia. replace (Z.log2 w - kof v + kof v) with (Z.log2 w) by lia.
      destruct (Z.eq_dec v 0) as [->|]; [apply Z.lt_le_incl, pow2_pos; lia|].
      pose proof (Z.log2_spec v ltac:(lia)) as [_ Hu].
      apply Z.le_trans with (2 ^ Z.succ (Z.log2 v)); [lia|].
      apply Z.pow_le_mono_r; lia.
    + unfold Rz. rewrite Hkw.
      replace (2 ^ Z.log2 w) with (2 ^ 52 * 2 ^ (Z.log2 w - 52))
        by (rewrite <- Z.pow_add_r by lia; f_equal; lia).
      apply Z.mul_le_mono_nonneg_r; [apply Z.lt_le_incl, pow2_pos; lia|].
      apply rne_ge_grid; [lia|].
      rewrite <- Z.pow_add_r by lia. replace (52 + (Z.log2 w - 52)) with (Z.log2 w) by lia.
      apply Z.log2_spec; lia.
Qed.

Lemma fexp_eq d : fexp Py.prec Py.emax d = Z.max (d - 53) (- bias).
Proof. reflexivity. Qed.

Lemma Zdigits2_log2 q : 0 < q -> Zdigits2 q = Z.log2 q + 1.
Proof. destruct q; try lia. intros _. apply digits2_pos_log2. Qed.

Lemma kof_mul_pow2 m j :
  0 < m -> 0 <= j -> kof (m * 2 ^ j) = Z.max (Z.log2 m + 1 + j - 53) 0.
Proof. intros. unfold kof. rewrite Z.log2_mul_pow2 by lia. lia. Qed.

Lemma log2_bounds v : 0 < v -> 2 ^ Z.log2 v <= v < 2 ^ (Z.log2 v + 1).
Proof. intros. apply Z.log2_spec; lia. Qed.

(** The mantissa kept by [Rz]: positive, and of 53 bits (or [2^53]) when
    something was shifted out. *)
Lemma rne_kof_pos v : 0 < v -> 0 < Py.rne v (kof v).
Proof.
  intros Hv. pose proof (kof_nonneg v). pose proof (log2_bounds v Hv) as [Hl _].
  pose proof (Z.log2_nonneg v).
  destruct (Z.eq_dec (kof v) 0) as [E|NE].
  - rewrite E, rne_0. lia.
  - assert (Hk : kof v = Z.log2 v - 52) by (unfold kof in *; lia).
    assert (2 ^ 52 <= Py.rne v (kof v)).
    { apply rne_ge_grid; [lia|]. rewrite <- Z.pow_add_r by lia.
      replace (52 + kof v) with (Z.log2 v) by lia. lia. }
    lia.
Qed.

Lemma rne_kof_log2 v :
  0 < v ->
  Z.max (Z.log2 (Py.rne v (kof v)) + 1 + kof v - 53) 0 - kof v = 0 \/
  (Py.rne v (kof v) = 2 ^ 53 /\ 0 < kof v).
Proof.
  intros Hv. pose proof (kof_nonneg v). pose proof (log2_bounds v Hv) as [Hl Hu].
  pose proof (Z.log2_nonneg v).
  destruct (Z.eq_dec (kof v) 0) as [E|NE].
  - left. rewrite E, rne_0. unfold kof in E. lia.
  - assert (Hk : kof v = Z.log2 v - 52) by (unfold kof in *; lia).
    assert (H1 : 2 ^ 52 <= Py.rne v (kof v)).
    { apply rne_ge_grid; [lia|]. rewrite <- Z.pow_add_r by lia.
      replace (52 + kof v) with (Z.log2 v) by lia. lia. }
    assert (H2 : Py.rne v (kof v) <= 2 ^ 53).
    { apply rne_le_grid; [lia|]. rewrite <- Z.pow_add_r by lia.
      replace (53 + kof v) with (Z.log2 v + 1) by lia. lia. }
    destruct (Z.eq_dec (Py.rne v (kof v)) (2 ^ 53)) as [E|NE2]; [right; lia|left].
    assert (Z.log2 (Py.rne v (kof v)) = 52).
    { apply Z.log2_unique; [lia|]. change (Z.succ 52) with 53. lia. }
    lia.
Qed.

Lemma binary_round_aux_spec mx ex :
  - bias <= ex ->
  ex <= fexp Py.prec Py.emax (Zpos (digits2_pos mx) + ex) ->
  binary_round_aux Py.prec Py.emax false (Zpos mx) ex loc_Exact
  = Z2F (Rz (Zpos mx * 2 ^ (ex + bias))).
Proof.
  intros Hex Hfe. unfold bias in *.
  set (V := Zpos mx * 2 ^ (ex + 1074)).
  assert (HV : 0 < V) by (unfold V; pose proof (pow2_pos (ex + 1074)); nia).
  assert (Hkv : kof V = fexp Py.prec Py.emax (Zpos (digits2_pos mx) + ex) + 1074).
  { unfold V. rewrite kof_mul_pow2 by lia. rewrite fexp_eq, digits2_pos_log2. unfold bias. lia. }
  set (n1 := fexp Py.prec Py.emax (Zpos (digits2_pos mx) + ex) - ex).
  assert (Hn1 : 0 <= n1) by (unfold n1; lia).
  assert (Hq : Py.rne (Zpos mx) n1 = Py.rne V (kof V)).
  { unfold V. replace (kof _) with (n1 + (ex + 1074)) by (fold V; unfold n1; lia).
    now rewrite rne_shift by lia. }
  unfold binary_round_aux, shr_fexp. cbn [Zdigits2 shr_record_of_loc].
  fold n1.
  destruct (shr_spec (Zpos mx) ex n1 ltac:(lia) Hn1) as (mrs & Hs & _ & Hr).
  rewrite Hs, Hr, Hq.
  set (q := Py.rne V (kof V)).
  assert (Hqpos : 0 < q) by (apply rne_kof_pos; assumption).
  rewrite (Zdigits2_log2 q Hqpos).
  set (n2 := fexp Py.prec Py.emax (Z.log2 q + 1 + (ex + n1)) - (ex + n1)).
  assert (Hn2 : n2 = Z.max (Z.log2 q + 1 + kof V - 53) 0 - kof V).
  { unfold n2. rewrite fexp_eq. unfold bias. unfold n1. lia. }
  assert (Hn2' : 0 <= n2 <= 1 /\ (n2 = 1 -> q = 2 ^ 53)).
  { pose proof (rne_kof_log2 V HV) as HH. fold q in HH.
    destruct HH as [H0|[H1 H2]].
    - lia.
    - rewrite Hn2. rewrite H1. change (Z.log2 (2 ^ 53)) with 53. lia. }
  destruct (shr_spec q (ex + n1) n2 ltac:(lia) ltac:(lia)) as (mrs2 & Hs2 & Hm2 & _).
  rewrite Hs2, Hm2.
  (* the right-hand side *)
  pose proof (kof_nonneg V) as HkV.
  assert (HR : Rz V = q * 2 ^ kof V) by reflexivity.
  assert (HkR : kof (Rz V) = kof V + n2).
  { rewrite HR, kof_mul_pow2 by lia. lia. }
  assert (Hdiv : Rz V / 2 ^ kof (Rz V) = q / 2 ^ n2).
  { rewrite HkR, HR. rewrite Z.pow_add_r by lia.
    rewrite (Z.mul_comm (2 ^ kof V)).
    rewrite Z.div_mul_cancel_r; try reflexivity; apply Z.pow_nonzero; lia. }
  assert (Hmpos : 0 < q / 2 ^ n2).
  { destruct (Z.eq_dec n2 0) as [->|]; [change (2^0) with 1; rewrite Z.div_1_r; lia|].
    assert (n2 = 1) by lia. destruct Hn2' as [_ H9]. rewrite (H9 H), H. reflexivity. }
  unfold Z2F.
  assert (HRpos : 0 < Rz V) by (rewrite HR; pose proof (pow2_pos (kof V) HkV); nia).
  destruct (Z.eqb_spec (Rz V) 0) as [|_]; [lia|].
  rewrite Hdiv, HkR.
  replace (ex + n1 + n2) with (kof V + n2 - bias) by (unfold bias, n1; lia).
  replace (kof V + n2 - bias <=? Py.emax - Py.prec) with (kof V + n2 <=? 2045)
    by (unfold bias, Py.emax, Py.prec; destruct (Z.leb_spec (kof V + n2) 2045), (Z.leb_spec (kof V + n2 - 1074) (1024 - 53)); lia).
  destruct (q / 2 ^ n2) as [|p|p] eqn:E; try lia.
  reflexivity.
Qed.

Lemma pos_iter_xO mx d : Zpos (Pos.iter xO mx d) = Zpos mx * 2 ^ Zpos d.
Proof.
  induction d as [|d IH] using Pos.peano_ind.
  - cbn [Pos.iter]. rewrite Z.pow_1_r. lia.
  - rewrite Pos.iter_succ, Pos2Z.inj_xO, IH, Pos2Z.inj_succ, Z.pow_succ_r by lia. lia.
Qed.

Lemma shl_align_fst mx ex ez :
  ez <= ex -> Zpos (fst (shl_align mx ex ez)) = Zpos mx * 2 ^ (ex - ez).
Proof.
  intros H. unfold shl_align. destruct (ez - ex) as [|d|d] eqn:E; try lia; cbn [fst].
  - replace (ex - ez) with 0 by lia. lia.
  - rewrite pos_iter_xO. f_equal. f_equal. lia.
Qed.

Lemma binary_round_spec mx ex :
  - bias <= ex ->
  binary_round Py.prec Py.emax false mx ex = Z2F (Rz (Zpos mx * 2 ^ (ex + bias))).
Proof.
  intros Hex. unfold binary_round, shl_align.
  set (ex' := fexp Py.prec Py.emax (Zpos (digits2_pos mx) + ex)).
  assert (Hex' : - bias <= ex') by (unfold ex'; rewrite fexp_eq; lia).
  destruct (ex' - ex) as [|d|d] eqn:E.
  - apply binary_round_aux_spec; [assumption | fold ex'; lia].
  - apply binary_round_aux_spec; [assumption | fold ex'; lia].
  - rewrite binary_round_aux_spec; [| assumption |].
    + f_equal. f_equal. rewrite pos_iter_xO.
      replace (ex + bias) with (Zpos d + (ex' + bias)) by lia.
      rewrite (Z.pow_add_r 2 (Zpos d)) by lia. ring.
    + rewrite digits2_pos_log2, pos_iter_xO, Z.log2_mul_pow2 by lia.
      replace (Z.pos d + Z.log2 (Z.pos mx) + 1 + ex') with (Zpos (digits2_pos mx) + ex)
        by (rewrite digits2_pos_log2; lia).
      fold ex'. lia.
Qed.

(** *** Operations on finite non-negative values *)

Lemma Rz_divides w : Rz w = w -> w / 2 ^ kof w * 2 ^ kof w = w.
Proof.
  intros H. pose proof (kof_nonneg w). unfold Rz in H.
  rewrite <- H at 1. rewrite Z.div_mul by (apply Z.pow_nonzero; lia). exact H.
Qed.

Lemma Rz_exact w g : 0 <= w -> w = g * 2 ^ kof w -> Rz w = w.
Proof.
  intros Hw H. unfold Rz. rewrite H at 1. rewrite rne_exact by apply kof_nonneg. lia.
Qed.

Lemma Z2F_okv w :
  okv w -> 0 < w ->
  exists m, Z2F w = S754_finite false m (kof w - bias) /\ Zpos m * 2 ^ kof w = w.
Proof.
  intros (Hw & HR & Hk) Hpos. unfold Z2F.
  destruct (Z.eqb_spec w 0); [lia|]. destruct (Z.leb_spec (kof w) 2045); [|lia].
  pose proof (Rz_divides w HR) as Hd. pose proof (pow2_pos _ (kof_nonneg w)).
  assert (0 < w / 2 ^ kof w) by nia.
  exists (Z.to_pos (w / 2 ^ kof w)). split; [reflexivity|].
  rewrite Z2Pos.id by assumption. exact Hd.
Qed.

Lemma SFadd_Z2F a b :
  okv a -> okv b -> SFadd Py.prec Py.emax (Z2F a) (Z2F b) = Z2F (Rz (a + b)).
Proof.
  intros Ha Hb.
  destruct (Z.eq_dec a 0) as [->|Na]; [|destruct (Z.eq_dec b 0) as [->|Nb]].
  - rewrite Z.add_0_l. replace (Rz b) with b by (symmetry; apply Hb).
    change (Z2F 0) with (S754_zero false).
    destruct (Z.eq_dec b 0) as [->|Nb]; [reflexivity|].
    destruct (Z2F_okv b Hb) as (m & -> & _); [destruct Hb; lia | reflexivity].
  - rewrite Z.add_0_r. replace (Rz a) with a by (symmetry; apply Ha).
    change (Z2F 0) with (S754_zero false).
    destruct (Z2F_okv a Ha) as (m & -> & _); [destruct Ha; lia | reflexivity].
  - destruct (Z2F_okv a Ha) as (ma & -> & Ea); [destruct Ha; lia|].
    destruct (Z2F_okv b Hb) as (mb & -> & Eb); [destruct Hb; lia|].
    cbn [SFadd cond_Zopp].
    set (ea := kof a - bias). set (eb := kof b - bias). set (ez := Z.min ea eb).
    rewrite !shl_align_fst by (unfold ez; lia).
    pose proof (kof_nonneg a). pose proof (kof_nonneg b).
    pose proof (pow2_pos (ea - ez) ltac:(unfold ez; lia)).
    pose proof (pow2_pos (eb - ez) ltac:(unfold ez; lia)).
    destruct (Zpos ma * 2 ^ (ea - ez) + Zpos mb * 2 ^ (eb - ez)) as [|s|s] eqn:Es; try lia.
    cbn [binary_normalize]. rewrite binary_round_spec by (unfold ez, ea, eb; lia).
    f_equal. f_equal. rewrite <- Es, Z.mul_add_distr_r, <- !Z.mul_assoc, <- !Z.pow_add_r
      by (unfold ez, ea, eb, bias; lia).
    replace (ea - ez + (ez + bias)) with (kof a) by (unfold ea; lia).
    replace (eb - ez + (ez + bias)) with (kof b) by (unfold eb; lia).
    now rewrite Ea, Eb.
Qed.

Lemma Rz_idem v : 0 <= v -> Rz (Rz v) = Rz v.
Proof.
  intros Hv. destruct (Z.eq_dec v 0) as [->|Nz]; [reflexivity|].
  assert (Hpos : 0 < v) by lia.
  pose proof (kof_nonneg v) as Hk. pose proof (rne_kof_pos v Hpos) as Hq.
  pose proof (Rz_nonneg v Hv) as HR.
  destruct (rne_kof_log2 v Hpos) as [H0|[H1 H2]].
  - apply Rz_exact with (Py.rne v (kof v)); [assumption|].
    unfold Rz at 2. rewrite kof_mul_pow2 by lia.
    replace (Z.max _ 0) with (kof v) by lia. reflexivity.
  - apply Rz_exact with (2 ^ 52); [assumption|].
    unfold Rz. rewrite kof_mul_pow2 by lia. rewrite H1.
    change (Z.log2 (2 ^ 53)) with 53.
    replace (Z.max (53 + 1 + kof v - 53) 0) with (1 + kof v) by lia.
    rewrite (Z.pow_add_r 2 1) by lia. lia.
Qed.

Lemma okv_0 : okv 0.
Proof. repeat split; cbn; lia. Qed.

Lemma okv_Rz v B : 0 <= v <= B -> okv B -> okv (Rz v).
Proof.
  intros [Hv HvB] (HB & HRB & HkB).
  assert (Rz v <= B) by (rewrite <- HRB; apply Rz_mono; lia).
  repeat split.
  - now apply Rz_nonneg.
  - now apply Rz_idem.
  - pose proof (kof_mono _ _ H). lia.
Qed.

(** A power of two is representable. *)
Lemma okv_pow2 n : 0 <= n <= 2097 -> okv (2 ^ n).
Proof.
  intros Hn. pose proof (pow2_pos n ltac:(lia)).
  assert (Hk : kof (2 ^ n) = Z.max (n - 52) 0) by (unfold kof; rewrite Z.log2_pow2 by lia; lia).
  repeat split; try lia.
  apply Rz_exact with (2 ^ (n - kof (2 ^ n))); [lia|].
  rewrite <- Z.pow_add_r by lia. f_equal. lia.
Qed.

(** An integer below [2^53] is representable. *)
Lemma okv_int z : 0 <= z < 2 ^ 53 -> okv (z * 2 ^ bias).
Proof.
  intros Hz. destruct (Z.eq_dec z 0) as [->|Nz]; [apply okv_0|].
  assert (Hl : Z.log2 z < 53) by (apply Z.log2_lt_pow2; lia).
  pose proof (Z.log2_nonneg z).
  assert (Hk : kof (z * 2 ^ bias) = Z.log2 z + 1 + bias - 53)
    by (rewrite kof_mul_pow2 by (unfold bias; lia); unfold bias; lia).
  pose proof (pow2_pos bias ltac:(unfold bias; lia)).
  repeat split; try (unfold bias in *; nia).
  apply Rz_exact with (z * 2 ^ (53 - Z.log2 z - 1)); [nia|].
  rewrite Hk, <- Z.mul_assoc, <- Z.pow_add_r by (unfold bias; lia).
  f_equal. f_equal. lia.
Qed.

Lemma float_of_int_spec z :
  0 <= z -> binary_normalize Py.prec Py.emax z 0 false = Z2F (Rz (z * 2 ^ bias)).
Proof.
  intros Hz. destruct z as [|p|p]; try lia; [reflexivity|].
  cbn [binary_normalize]. now rewrite binary_round_spec by (unfold bias; lia).
Qed.

Lemma SFmul_Z2F a b :
  okv a -> okv b -> 0 < kof a -> (b <> 0 -> bias <= kof a + kof b) ->
  SFmul Py.prec Py.emax (Z2F a) (Z2F b) = Z2F (Rz (a * b / 2 ^ bias)).
Proof.
  intros Ha Hb Hka Hkab.
  assert (Hapos : 0 < a).
  { destruct Ha as [? _]. destruct (Z.eq_dec a 0) as [->|]; [cbn in Hka|]; lia. }
  destruct (Z2F_okv a Ha Hapos) as (ma & -> & Ea).
  destruct (Z.eq_dec b 0) as [->|Nb].
  - rewrite Z.mul_0_r. reflexivity.
  - specialize (Hkab Nb).
    destruct (Z2F_okv b Hb) as (mb & -> & Eb); [destruct Hb; lia|].
    cbn [SFmul xorb].
    pose proof (kof_nonneg b) as Hkb.
    pose proof (kof_nonneg a) as Hka0.
    assert (Hval : Zpos (ma * mb) * 2 ^ (kof a - bias + (kof b - bias) + bias) = a * b / 2 ^ bias).
    { assert (Hab : a * b = Zpos (ma * mb) * 2 ^ (kof a + kof b - bias) * 2 ^ bias).
      { rewrite <- Z.mul_assoc, <- Z.pow_add_r by (unfold bias in *; lia).
        replace (kof a + kof b - bias + bias) with (kof a + kof b) by lia.
        rewrite Z.pow_add_r, Pos2Z.inj_mul by lia.
        replace (Zpos ma * Zpos mb * (2 ^ kof a * 2 ^ kof b))
          with (Zpos ma * 2 ^ kof a * (Zpos mb * 2 ^ kof b)) by ring.
        now rewrite Ea, Eb. }
      rewrite Hab, Z.div_mul by (apply Z.pow_nonzero; unfold bias; lia).
      f_equal. f_equal. lia. }
    rewrite binary_round_aux_spec.
    + now rewrite Hval.
    + lia.
    + rewrite fexp_eq, digits2_pos_log2.
      assert (Hla : 52 <= Z.log2 (Zpos ma)).
      { pose proof (Z.log2_mul_pow2 (Zpos ma) (kof a) ltac:(lia) Hka0) as Hlog.
        rewrite Ea in Hlog. unfold kof in Hka, Hlog. unfold kof. lia. }
      assert (Z.log2 (Zpos ma) <= Z.log2 (Zpos (ma * mb))).
      { apply Z.log2_le_mono. rewrite Pos2Z.inj_mul. nia. }
      lia.
Qed.

(** ** The loops *)

(** *** The slot loop *)

Lemma grid_count_0 cur close need step :
  0 < step -> close < cur + need -> grid_count cur close need step = O.
Proof.
  intros Hs H. unfold grid_count.
  assert ((close - cur - need) / step < 0) by (apply Z.div_lt_upper_bound; lia).
  lia.
Qed.

Lemma grid_count_S cur close need step :
  0 < step -> cur + need <= close ->
  grid_count cur close need step = S (grid_count (cur + step) close need step).
Proof.
  intros Hs H. unfold grid_count.
  replace (close - cur - need) with ((close - (cur + step) - need) + 1 * step) by lia.
  rewrite Z.div_add by lia.
  assert (-1 <= (close - (cur + step) - need) / step)
    by (apply Z.div_le_lower_bound; lia).
  lia.
Qed.

Lemma slot_loop close dur buf step :
  0 < step ->
  forall n cur slots fuel,
    grid_count cur close (dur + buf) step = n ->
    (n < fuel)%nat ->
    while fuel
      (fun st : list (datetime * datetime) * datetime =>
         snd st + dur + buf <=? close)
      (fun st => (fst st ++ [(snd st, snd st + dur)], snd st + step))
      (slots, cur)
    = Some (slots ++ grid n cur step dur, cur + step * Z.of_nat n).
Proof.
  intros Hs. induction n as [|n IH]; intros cur slots fuel Hn Hf;
    (destruct fuel as [|fuel]; [lia|]); cbn [while fst snd].
  - destruct (Z.leb_spec (cur + dur + buf) close) as [Hle|Hgt].
    + rewrite grid_count_S in Hn by lia. discriminate.
    + cbn [grid]. rewrite app_nil_r. do 2 f_equal. lia.
  - destruct (Z.leb_spec (cur + dur + buf) close) as [Hle|Hgt].
    + rewrite grid_count_S in Hn by lia. injection Hn as Hn.
      rewrite (IH (cur + step) _ fuel Hn) by lia.
      cbn [grid]. rewrite <- app_assoc. cbn [app]. do 2 f_equal. lia.
    + rewrite grid_count_0 in Hn by lia. discriminate.
Qed.

Lemma grid_nth n : forall cur step dur i,
  (i < n)%nat ->
  nth_error (grid n cur step dur) i
  = Some (cur + step * Z.of_nat i, cur + step * Z.of_nat i + dur).
Proof.
  induction n as [|n IH]; intros cur step dur i Hi; [lia|].
  destruct i as [|i]; cbn [grid nth_error].
  - do 2 f_equal; lia.
  - rewrite IH by lia. do 2 f_equal; lia.
Qed.

Lemma grid_length n cur step dur : List.length (grid n cur step dur) = n.
Proof. revert cur; induction n as [|n IH]; intros cur; cbn [grid List.length]; auto. Qed.

Lemma grid_in n cur step dur close need s e :
  0 < step -> n = grid_count cur close need step ->
  In (s, e) (grid n cur step dur) ->
  cur <= s /\ s + need <= close /\ e = s + dur.
Proof.
  intros Hs Hn Hin. apply In_nth_error in Hin as [i Hi].
  assert (Hlt : (i < n)%nat).
  { rewrite <- (grid_length n cur step dur). apply nth_error_Some. congruence. }
  rewrite grid_nth in Hi by assumption. injection Hi as <- <-.
  repeat split; try nia.
  assert (Z.of_nat i + 1 <= (close - cur - need) / step + 1) by (unfold grid_count in Hn; lia).
  assert (Z.of_nat i * step <= close - cur - need).
  { apply Z.le_trans with (step * ((close - cur - need) / step)); [nia|].
    apply Z.mul_div_le; lia. }
  lia.
Qed.

Lemma open_close_dt date_local :
  time_of (open_dt date_local) = time 13 0 /\
  close_dt date_local = open_dt date_local + 13 * 3600 /\
  time_of (close_dt date_local) = time 2 0 /\
  open_dt date_local - time 13 0 <= date_local < open_dt date_local - time 13 0 + days 1.
Proof.
  unfold open_dt, close_dt, replace_hour, time_of, hour, OPEN_TIME, CLOSE_TIME,
    time, days; cbn [fst].
  pose proof (Z.mod_pos_bound date_local 86400 ltac:(lia)).
  replace (date_local + 86400 * 1) with (date_local + 1 * 86400) by lia.
  rewrite Z.mod_add by lia.
  repeat split; try lia.
  - replace (date_local - date_local mod 86400 + (3600 * 13 + 60 * 0))
      with (46800 + (date_local / 86400) * 86400)
      by (pose proof (Z.div_mod date_local 86400 ltac:(lia)); lia).
    rewrite Z.mod_add by lia. reflexivity.
  - replace (date_local + 1 * 86400 - date_local mod 86400 + (3600 * 2 + 60 * 0))
      with (7200 + (date_local / 86400 + 1) * 86400)
      by (pose proof (Z.div_mod date_local 86400 ltac:(lia)); lia).
    rewrite Z.mod_add by lia. reflexivity.
Qed.

(** A day whose following day is a date: its opening is a datetime, and
    so is the hour after its closing. *)
Lemma business_day_in_range date_local :
  datetime_min <= date_local -> date_local + days 1 <= datetime_max ->
  datetime_min <= open_dt date_local /\
  close_dt date_local + 3600 <= datetime_max.
Proof.
  intros Hmin Hnext.
  destruct (open_close_dt date_local) as (_ & Hc & _ & Ho).
  unfold time, days in Ho.
  unfold datetime_min, datetime_max, days in *.
  pose proof (Z.div_mod date_local 86400 ltac:(lia)) as Hdm.
  pose proof (Z.mod_pos_bound date_local 86400 ltac:(lia)) as Hm.
  set (o := open_dt date_local) in *.
  assert (Eo : o = 86400 * (date_local / 86400) + 46800).
  { unfold o, open_dt, replace_hour, time_of, hour, OPEN_TIME, time.
    cbn [fst]. lia. }
  assert (-719162 <= date_local / 86400)
    by (apply Z.div_le_lower_bound; lia).
  assert (date_local / 86400 < 2932896)
    by (apply Z.div_lt_upper_bound; lia).
  lia.
Qed.

(** The loop that may raise, against the loop that does not. *)
Lemma while_raising_sim {S : Type} (cond' : S -> option bool)
  (body' : S -> option S) (cond : S -> bool) (body : S -> S) :
  (forall s b, cond' s = Some b -> b = cond s) ->
  (forall s s', body' s = Some s' -> s' = body s) ->
  forall fuel s r,
    while_raising fuel cond' body' s = Some r ->
    while fuel cond body s = Some r.
Proof.
  intros Hc Hb. induction fuel as [|fuel IH]; intros s r H;
    cbn [while_raising while] in *; [discriminate H|].
  destruct (cond' s) as [b|] eqn:Ec; [|discriminate H].
  rewrite <- (Hc s b Ec). destruct b; [|exact H].
  destruct (body' s) as [s'|] eqn:Eb; [|discriminate H].
  rewrite <- (Hb s s' Eb). now apply IH.
Qed.

Lemma while_raising_ok {S : Type} (P : S -> Prop) (cond' : S -> option bool)
  (body' : S -> option S) (cond : S -> bool) (body : S -> S) :
  (forall s, P s -> cond' s = Some (cond s)) ->
  (forall s, P s -> cond s = true -> body' s = Some (body s) /\ P (body s)) ->
  forall fuel s, P s ->
    while_raising fuel cond' body' s = while fuel cond body s.
Proof.
  intros Hc Hb. induction fuel as [|fuel IH]; intros s Hs;
    cbn [while_raising while]; [reflexivity|].
  rewrite (Hc s Hs). destruct (cond s) eqn:E; [|reflexivity].
  destruct (Hb s Hs E) as [-> HP]. now apply IH.
Qed.

Lemma datetime_add_some d delta r :
  datetime_add d delta = Some r ->
  r = d + delta /\ datetime_min <= r <= datetime_max.
Proof.
  unfold datetime_add.
  destruct (Z.leb_spec datetime_min (d + delta));
    destruct (Z.leb_spec (d + delta) datetime_max); cbn [andb];
    intros Hr; try discriminate Hr.
  injection Hr as <-. lia.
Qed.

Lemma datetime_add_ok d delta :
  datetime_min <= d + delta <= datetime_max ->
  datetime_add d delta = Some (d + delta).
Proof.
  intros H. unfold datetime_add.
  destruct (Z.leb_spec datetime_min (d + delta));
    destruct (Z.leb_spec (d + delta) datetime_max); cbn [andb];
    try reflexivity; lia.
Qed.

Lemma datetime_add_overflow d delta :
  datetime_max < d + delta -> datetime_add d delta = None.
Proof.
  intros H. unfold datetime_add.
  destruct (Z.leb_spec (d + delta) datetime_max); [lia|].
  now rewrite andb_false_r.
Qed.

Lemma timedelta_minutes_some n r :
  timedelta_minutes n = Some r -> r = minutes n.
Proof.
  unfold timedelta_minutes.
  destruct ((-999999999 <=? minutes n / 86400)
            && (minutes n / 86400 <=? 999999999));
    intros H; [now injection H|discriminate H].
Qed.

Lemma timedelta_minutes_ok n :
  datetime_min - datetime_max <= minutes n <= datetime_max - datetime_min ->
  timedelta_minutes n = Some (minutes n).
Proof.
  unfold datetime_min, datetime_max. intros H. unfold timedelta_minutes.
  assert (-999999999 <= minutes n / 86400)
    by (apply Z.div_le_lower_bound; lia).
  assert (minutes n / 86400 <= 999999999)
    by (apply Z.lt_succ_r, Z.div_lt_upper_bound; lia).
  destruct (Z.leb_spec (-999999999) (minutes n / 86400)); [|lia].
  destruct (Z.leb_spec (minutes n / 86400) 999999999); [|lia].
  reflexivity.
Qed.

(** With the fuel of the loop that does not raise, the loop that may
    raise gives [None] only when its test or its body raises. *)
Lemma while_raising_none {S : Type} (cond' : S -> option bool)
  (body' : S -> option S) (cond : S -> bool) (body : S -> S) :
  (forall s b, cond' s = Some b -> b = cond s) ->
  (forall s s', body' s = Some s' -> s' = body s) ->
  forall fuel s r,
    while fuel cond body s = Some r ->
    while_raising fuel cond' body' s = None ->
    exists s', cond' s' = None \/ body' s' = None.
Proof.
  intros Hc Hb. induction fuel as [|fuel IH]; intros s r Hw H;
    cbn [while_raising while] in *; [discriminate Hw|].
  destruct (cond' s) as [b|] eqn:Ec; [|exists s; now left].
  rewrite <- (Hc s b Ec) in Hw. destruct b; [|discriminate H].
  destruct (body' s) as [s'|] eqn:Eb; [|exists s; now right].
  rewrite <- (Hb s s' Eb) in Hw. now apply (IH s' r).
Qed.

(** Whenever the slot generator returns, it returns the slots of the
    grid. *)
Lemma iter_open_slots_some date_local duration_min slots :
  iter_open_slots date_local duration_min = Some slots ->
  slots
  = grid
      (grid_count (open_dt date_local) (close_dt date_local)
         (minutes duration_min + minutes BUFFER_MIN)
         (minutes SLOT_STEP_MIN))
      (open_dt date_local) (minutes SLOT_STEP_MIN)
      (minutes duration_min).
Proof.
  set (buf := minutes BUFFER_MIN). set (step := minutes SLOT_STEP_MIN).
  assert (Hstep : 0 < step) by (unfold step, minutes, SLOT_STEP_MIN; lia).
  unfold iter_open_slots. fold buf step.
  destruct (datetime_add date_local (days 1)) as [next_day|] eqn:En;
    [|discriminate].
  apply datetime_add_some in En as [-> _]. fold (close_dt date_local).
  destruct (timedelta_minutes duration_min) as [dur|] eqn:Ed;
    [|discriminate].
  apply timedelta_minutes_some in Ed as ->. set (dur := minutes duration_min).
  match goal with
  | |- option_map fst (while_raising ?f ?c ?b ?s) = _ -> _ =>
      destruct (while_raising f c b s) as [r|] eqn:Ew; [|discriminate]
  end.
  cbn [option_map]. intros H. injection H as <-.
  apply (while_raising_sim _ _
           (fun st : list (datetime * datetime) * datetime =>
              snd st + dur + buf <=? close_dt date_local)
           (fun st => (fst st ++ [(snd st, snd st + dur)], snd st + step)))
    in Ew.
  - replace (close_dt date_local - open_dt date_local - dur - buf)
      with (close_dt date_local - open_dt date_local - (dur + buf)) in Ew
      by lia.
    fold (grid_count (open_dt date_local) (close_dt date_local) (dur + buf)
            step) in Ew.
    rewrite (slot_loop _ dur buf step Hstep _ _ _ _ eq_refl) in Ew by lia.
    injection Ew as <-. reflexivity.
  - intros st b. cbn beta.
    destruct (datetime_add (snd st) dur) as [e|] eqn:E1; [|discriminate].
    apply datetime_add_some in E1 as [-> _].
    destruct (datetime_add (snd st + dur) buf) as [eb|] eqn:E2;
      [|discriminate].
    apply datetime_add_some in E2 as [-> _]. intros H. now injection H.
  - intros st st'. cbn beta.
    destruct (datetime_add (snd st) dur) as [e|] eqn:E1; [|discriminate].
    apply datetime_add_some in E1 as [-> _].
    destruct (datetime_add (snd st) step) as [c|] eqn:E2; [|discriminate].
    apply datetime_add_some in E2 as [-> _]. intros H. now injection H.
Qed.

(** The slot generator returns when its sums stay in the range of
    [datetime]. *)
Lemma iter_open_slots_returns date_local duration_min :
  datetime_min <= date_local -> date_local + days 1 <= datetime_max ->
  datetime_min <= open_dt date_local + minutes duration_min ->
  open_dt date_local + minutes duration_min + minutes BUFFER_MIN
  <= datetime_max ->
  close_dt date_local - minutes duration_min - minutes BUFFER_MIN
  + minutes SLOT_STEP_MIN <= datetime_max ->
  iter_open_slots date_local duration_min
  = Some (grid
            (grid_count (open_dt date_local) (close_dt date_local)
               (minutes duration_min + minutes BUFFER_MIN)
               (minutes SLOT_STEP_MIN))
            (open_dt date_local) (minutes SLOT_STEP_MIN)
            (minutes duration_min)).
Proof.
  intros Hmin Hnext Hlo Hhi Hlast.
  set (buf := minutes BUFFER_MIN) in *. set (step := minutes SLOT_STEP_MIN) in *.
  set (dur := minutes duration_min) in *.
  assert (Hstep : step = 3600) by reflexivity.
  assert (Hbuf : buf = 600) by reflexivity.
  destruct (business_day_in_range date_local Hmin Hnext) as [Hopen Hclose].
  destruct (open_close_dt date_local) as (_ & Hc & _).
  unfold iter_open_slots. fold buf step.
  rewrite datetime_add_ok by (unfold days in *; lia).
  fold (close_dt date_local).
  rewrite timedelta_minutes_ok
    by (fold dur; unfold datetime_min, datetime_max in *; lia).
  fold dur.
  rewrite (while_raising_ok
             (fun st : list (datetime * datetime) * datetime =>
                datetime_min <= snd st <= datetime_max /\
                datetime_min <= snd st + dur /\
                snd st + dur + buf <= datetime_max)
             _ _
             (fun st : list (datetime * datetime) * datetime =>
                snd st + dur + buf <=? close_dt date_local)
             (fun st => (fst st ++ [(snd st, snd st + dur)], snd st + step))).
  - replace (close_dt date_local - open_dt date_local - dur - buf)
      with (close_dt date_local - open_dt date_local - (dur + buf)) by lia.
    fold (grid_count (open_dt date_local) (close_dt date_local) (dur + buf)
            step).
    rewrite (slot_loop _ dur buf step ltac:(lia) _ _ _ _ eq_refl) by lia.
    reflexivity.
  - intros st (H1 & H2 & H3). cbn beta.
    rewrite datetime_add_ok by lia. rewrite datetime_add_ok by lia.
    reflexivity.
  - intros st (H1 & H2 & H3) Hc'. apply Z.leb_le in Hc'. cbn beta.
    rewrite datetime_add_ok by lia. rewrite datetime_add_ok by lia.
    split; [reflexivity|]. cbn [snd]. lia.
  - cbn [snd]. lia.
Qed.

(** With a duration that is not negative only the first test of the loop
    can leave the range. *)
Lemma iter_open_slots_returns_nonneg date_local duration_min :
  datetime_min <= date_local -> date_local + days 1 <= datetime_max ->
  0 <= duration_min ->
  open_dt date_local + minutes duration_min + minutes BUFFER_MIN
  <= datetime_max ->
  iter_open_slots date_local duration_min
  = Some (grid
            (grid_count (open_dt date_local) (close_dt date_local)
               (minutes duration_min + minutes BUFFER_MIN)
               (minutes SLOT_STEP_MIN))
            (open_dt date_local) (minutes SLOT_STEP_MIN)
            (minutes duration_min)).
Proof.
  intros Hmin Hnext Hd Hhi.
  destruct (business_day_in_range date_local Hmin Hnext) as [Hopen Hclose].
  destruct (open_close_dt date_local) as (_ & Hc & _).
  apply iter_open_slots_returns; try assumption;
    unfold minutes, BUFFER_MIN, SLOT_STEP_MIN in *; lia.
Qed.

(** It raises when the first test leaves the range, and when the
    following day does. *)
Lemma iter_open_slots_overflow date_local duration_min :
  datetime_max
  < open_dt date_local + minutes duration_min + minutes BUFFER_MIN ->
  iter_open_slots date_local duration_min = None.
Proof.
  intros H. unfold iter_open_slots.
  destruct (datetime_add date_local (days 1)) as [next_day|];
    [|reflexivity].
  destruct (timedelta_minutes duration_min) as [dur|] eqn:Ed;
    [|reflexivity].
  apply timedelta_minutes_some in Ed as ->.
  cbn [while_raising snd].
  destruct (datetime_add (open_dt date_local) (minutes duration_min))
    as [e|] eqn:E1; [|reflexivity].
  apply datetime_add_some in E1 as [-> _].
  now rewrite datetime_add_overflow.
Qed.

Lemma iter_open_slots_last_day date_local duration_min :
  datetime_max < date_local + days 1 ->
  iter_open_slots date_local duration_min = None.
Proof.
  intros H. unfold iter_open_slots. now rewrite datetime_add_overflow.
Qed.

(** The generator gives [None] only when one of its sums is out of
    range. *)
Lemma iter_open_slots_none date_local duration_min :
  iter_open_slots date_local duration_min = None ->
  datetime_add date_local (days 1) = None \/
  timedelta_minutes duration_min = None \/
  exists cur,
    datetime_add cur (minutes duration_min) = None \/
    datetime_add (cur + minutes duration_min) (minutes BUFFER_MIN) = None \/
    datetime_add cur (minutes SLOT_STEP_MIN) = None.
Proof.
  set (buf := minutes BUFFER_MIN). set (step := minutes SLOT_STEP_MIN).
  assert (Hstep : 0 < step) by (unfold step, minutes, SLOT_STEP_MIN; lia).
  unfold iter_open_slots. fold buf step.
  destruct (datetime_add date_local (days 1)) as [next_day|] eqn:En;
    [|now left].
  apply datetime_add_some in En as [-> _]. fold (close_dt date_local).
  destruct (timedelta_minutes duration_min) as [dur|] eqn:Ed;
    [|now right; left].
  apply timedelta_minutes_some in Ed as ->. set (dur := minutes duration_min).
  match goal with
  | |- option_map fst (while_raising ?f ?c ?b ?s) = _ -> _ =>
      destruct (while_raising f c b s) as [r|] eqn:Ew; [discriminate|]
  end.
  intros _. right. right.
  assert (K : exists st : list (datetime * datetime) * datetime,
            match datetime_add (snd st) dur with
            | None => None
            | Some e =>
                match datetime_add e buf with
                | None => None
                | Some eb => Some (eb <=? close_dt date_local)
                end
            end = None \/
            match datetime_add (snd st) dur with
            | None => None
            | Some e =>
                match datetime_add (snd st) step with
                | None => None
                | Some cur => Some (fst st ++ [(snd st, e)], cur)
                end
            end = None).
  { eapply (while_raising_none _ _
              (fun st : list (datetime * datetime) * datetime =>
                 snd st + dur + buf <=? close_dt date_local)
              (fun st => (fst st ++ [(snd st, snd st + dur)],
                          snd st + step)));
      [| | |exact Ew].
    - intros st b. cbn beta.
      destruct (datetime_add (snd st) dur) as [e|] eqn:E1; [|discriminate].
      apply datetime_add_some in E1 as [-> _].
      destruct (datetime_add (snd st + dur) buf) as [eb|] eqn:E2;
        [|discriminate].
      apply datetime_add_some in E2 as [-> _]. intros H. now injection H.
    - intros st st'. cbn beta.
      destruct (datetime_add (snd st) dur) as [e|] eqn:E1; [|discriminate].
      apply datetime_add_some in E1 as [-> _].
      destruct (datetime_add (snd st) step) as [c|] eqn:E2; [|discriminate].
      apply datetime_add_some in E2 as [-> _]. intros H. now injection H.
    - replace (close_dt date_local - open_dt date_local - dur - buf)
        with (close_dt date_local - open_dt date_local - (dur + buf)) by lia.
      fold (grid_count (open_dt date_local) (close_dt date_local)
              (dur + buf) step).
      apply (slot_loop _ dur buf step Hstep _ _ _ _ eq_refl). lia. }
  destruct K as [st [H|H]]; exists (snd st).
  - destruct (datetime_add (snd st) dur) as [e|] eqn:E1; [|now left].
    apply datetime_add_some in E1 as [-> _].
    destruct (datetime_add (snd st + dur) buf) eqn:E2; [discriminate H|].
    right. now left.
  - destruct (datetime_add (snd st) dur) as [e|] eqn:E1; [|now left].
    destruct (datetime_add (snd st) step) eqn:E2; [discriminate H|].
    right. now right.
Qed.

(** C5. Whenever the slot generator returns, every slot in the list starts
    at or after the day's opening instant (13:00 local), ends [duration]
    after its start, and fits with the buffer before the closing instant
    (02:00 local of the following day, 13 hours after the opening); the
    [i]-th slot starts [i] steps after the opening, so the list is ordered
    earliest first on the step grid; and the list is empty when not even
    the opening instant satisfies the closing constraint.  For a day whose
    following day is a date and a duration that is not negative, the
    generator returns when the opening instant plus the duration plus the
    buffer is a datetime, that is at most 9999-12-31 23:59:59; beyond that
    it raises [OverflowError] on the first test of its loop. *)
Theorem iter_open_slots_sound (date_local : datetime) (duration_min : Z) :
  time_of (open_dt date_local) = time 13 0 /\
  close_dt date_local = open_dt date_local + minutes (13 * 60) /\
  (forall slots,
     iter_open_slots date_local duration_min = Some slots ->
     (forall s e, In (s, e) slots ->
        open_dt date_local <= s /\
        s + minutes duration_min + minutes BUFFER_MIN
        <= close_dt date_local /\
        e = s + minutes duration_min) /\
     (forall i, (i < List.length slots)%nat ->
        nth_error slots i
        = Some (open_dt date_local + minutes SLOT_STEP_MIN * Z.of_nat i,
                open_dt date_local + minutes SLOT_STEP_MIN * Z.of_nat i
                + minutes duration_min)) /\
     (close_dt date_local
      < open_dt date_local + minutes duration_min + minutes BUFFER_MIN ->
      slots = [])) /\
  (datetime_min <= date_local -> date_local + days 1 <= datetime_max ->
   0 <= duration_min ->
   open_dt date_local + minutes duration_min + minutes BUFFER_MIN
   <= datetime_max ->
   exists slots, iter_open_slots date_local duration_min = Some slots) /\
  (datetime_max
   < open_dt date_local + minutes duration_min + minutes BUFFER_MIN ->
   iter_open_slots date_local duration_min = None).
Proof.
  set (dur := minutes duration_min). set (buf := minutes BUFFER_MIN).
  set (step := minutes SLOT_STEP_MIN).
  assert (Hstep : 0 < step) by (unfold step, minutes, SLOT_STEP_MIN; lia).
  destruct (open_close_dt date_local) as (Ho & Hc & _).
  split; [exact Ho|]. split; [rewrite Hc; unfold minutes; lia|].
  split; [|split].
  - intros slots Hs. apply iter_open_slots_some in Hs. fold dur buf step in Hs.
    set (n := grid_count (open_dt date_local) (close_dt date_local)
                (dur + buf) step) in Hs.
    subst slots. split; [|split].
    + intros s e H. eapply grid_in in H; [|exact Hstep|reflexivity]. lia.
    + intros i Hi. rewrite grid_length in Hi. now apply grid_nth.
    + intros H. unfold n. rewrite grid_count_0 by lia. reflexivity.
  - intros Hmin Hnext Hd Hhi. eexists.
    now apply iter_open_slots_returns_nonneg.
  - apply iter_open_slots_overflow.
Qed.

Lemma iter_open_slots_sound_witness :
  exists slots, iter_open_slots (on_day 20407 0 0) 60 = Some slots.
Proof.
  refine (proj1 (proj2 (proj2 (proj2
            (iter_open_slots_sound (on_day 20407 0 0) 60))))
            _ _ _ _);
    vm_compute; congruence.
Defined.

(** The generator on 2025-11-15 with a duration of 5000000000 minutes: no
    start satisfies the closing constraint, and the result is not the empty
    list but the [OverflowError] of [cur + dur]. *)
Lemma iter_open_slots_raises :
  close_dt (on_day 20407 0 0)
  < open_dt (on_day 20407 0 0) + minutes 5000000000 + minutes BUFFER_MIN /\
  datetime_add (open_dt (on_day 20407 0 0)) (minutes 5000000000) = None /\
  iter_open_slots (on_day 20407 0 0) 5000000000 = None.
Proof. vm_compute. repeat split; reflexivity. Qed.

(** *** The pricing loop *)

Lemma minute_count_0 cur end_local :
  end_local <= cur -> minute_count cur end_local = O.
Proof.
  intros H. unfold minute_count.
  assert ((end_local - cur + 59) / 60 < 1) by (apply Z.div_lt_upper_bound; lia).
  lia.
Qed.

Lemma minute_count_S cur end_local :
  cur < end_local ->
  minute_count cur end_local
  = S (minute_count (Z.min end_local (cur + minutes 1)) end_local).
Proof.
  intros H. unfold minute_count, minutes.
  destruct (Z.le_ge_cases end_local (cur + 60 * 1)) as [Hle|Hge].
  - rewrite Z.min_l by lia.
    replace (end_local - end_local + 59) with 59 by lia.
    change (59 / 60) with 0.
    assert (1 <= (end_local - cur + 59) / 60) by (apply Z.div_le_lower_bound; lia).
    assert ((end_local - cur + 59) / 60 < 2) by (apply Z.div_lt_upper_bound; lia).
    lia.
  - rewrite Z.min_r by lia.
    replace (end_local - cur + 59)
      with ((end_local - (cur + 60 * 1) + 59) + 1 * 60) by lia.
    rewrite Z.div_add by lia.
    assert (0 <= (end_local - (cur + 60 * 1) + 59) / 60)
      by (apply Z.div_pos; lia).
    lia.
Qed.

(** When the clamp of the last step applies, no minute is left. *)
Lemma minute_starts_min n cur end_local :
  cur < end_local ->
  minute_count (Z.min end_local (cur + minutes 1)) end_local = n ->
  minute_starts n (Z.min end_local (cur + minutes 1))
  = minute_starts n (cur + minutes 1).
Proof.
  intros H Hn.
  destruct (Z.le_ge_cases end_local (cur + minutes 1)) as [Hle|Hge].
  - rewrite Z.min_l in Hn by lia. rewrite minute_count_0 in Hn by lia.
    subst n. reflexivity.
  - now rewrite Z.min_r by lia.
Qed.

Lemma rate_cost cur :
  Py.truediv (Py.Int (rate_at cur)) (Py.Int 60)
  = spec_minute_cost DAY_RATE EVE_RATE cur.
Proof.
  unfold rate_at, spec_minute_cost, in_day_band, time_of.
  now destruct (_ && _).
Qed.

Lemma price_loop end_local :
  forall n cur total fuel,
    minute_count cur end_local = n ->
    (n < fuel)%nat ->
    exists cur',
      while fuel (fun st : Py.num * datetime => snd st <? end_local)
        (price_step end_local) (total, cur)
      = Some (fold_left Py.add
                (map (spec_minute_cost DAY_RATE EVE_RATE) (minute_starts n cur))
                total, cur').
Proof.
  induction n as [|n IH]; intros cur total fuel Hn Hf;
    (destruct fuel as [|fuel]; [lia|]); cbn [while fst snd].
  - destruct (Z.ltb_spec cur end_local) as [Hlt|Hge].
    + rewrite minute_count_S in Hn by assumption. discriminate.
    + exists cur. reflexivity.
  - destruct (Z.ltb_spec cur end_local) as [Hlt|Hge].
    + rewrite minute_count_S in Hn by assumption. injection Hn as Hn.
      change (price_step end_local (total, cur))
        with (Py.add total (Py.truediv (Py.Int (rate_at cur)) (Py.Int 60)),
              Z.min end_local (cur + minutes 1)).
      destruct (IH (Z.min end_local (cur + minutes 1))
                  (Py.add total (Py.truediv (Py.Int (rate_at cur)) (Py.Int 60)))
                  fuel Hn ltac:(lia)) as [cur' Hw].
      exists cur'. etransitivity; [exact Hw|]. cbn [minute_starts map fold_left].
      rewrite rate_cost, (minute_starts_min n cur end_local Hlt Hn). reflexivity.
    + rewrite minute_count_0 in Hn by lia. discriminate.
Qed.

(** The function as the loop's total followed by the surcharges. *)
Lemma price_for_interval_eq start_local end_local gamepads_mode headsets :
  price_for_interval start_local end_local gamepads_mode headsets
  = price_finish
      (spec_sum (map (spec_minute_cost DAY_RATE EVE_RATE)
                   (minute_starts (minute_count start_local end_local)
                      start_local)))
      start_local end_local gamepads_mode headsets.
Proof.
  unfold price_for_interval, spec_sum.
  destruct (price_loop end_local (minute_count start_local end_local)
              start_local (Py.Int 0)
              (S (Z.to_nat ((end_local - start_local + 59) / 60)))
              eq_refl) as [cur' Hw].
  - unfold minute_count. lia.
  - etransitivity; [|reflexivity].
    match goal with |- match ?w with _ => _ end = _ =>
      replace w with (Some (fold_left Py.add
        (map (spec_minute_cost DAY_RATE EVE_RATE)
           (minute_starts (minute_count start_local end_local) start_local))
        (Py.Int 0), cur')) by (symmetry; exact Hw)
    end.
    reflexivity.
Qed.

(** *** Prices do not depend on the day *)

Lemma in_day_band_shift t k : in_day_band (t + days k) = in_day_band t.
Proof.
  unfold in_day_band, days. rewrite (Z.mul_comm 86400 k), Z.mod_add by lia.
  reflexivity.
Qed.

Lemma spec_minute_cost_shift dayRate eveRate t k :
  spec_minute_cost dayRate eveRate (t + days k)
  = spec_minute_cost dayRate eveRate t.
Proof. unfold spec_minute_cost. now rewrite in_day_band_shift. Qed.

Lemma minute_costs_shift k n : forall cur,
  map (spec_minute_cost DAY_RATE EVE_RATE) (minute_starts n (cur + days k))
  = map (spec_minute_cost DAY_RATE EVE_RATE) (minute_starts n cur).
Proof.
  induction n as [|n IH]; intros cur; cbn [minute_starts map]; [reflexivity|].
  replace (cur + days k + minutes 1) with (cur + minutes 1 + days k) by lia.
  now rewrite IH, spec_minute_cost_shift.
Qed.

Lemma price_shift_days k start_local end_local gamepads_mode headsets :
  price_for_interval (start_local + days k) (end_local + days k)
    gamepads_mode headsets
  = price_for_interval start_local end_local gamepads_mode headsets.
Proof.
  rewrite !price_for_interval_eq. unfold minute_count, price_finish.
  replace (end_local + days k - (start_local + days k))
    with (end_local - start_local) by lia.
  now rewrite minute_costs_shift.
Qed.

Lemma price_on_day day h1 m1 h2 m2 gamepads_mode headsets :
  price_for_interval (on_day day h1 m1) (on_day day h2 m2)
    gamepads_mode headsets
  = price_for_interval (time h1 m1) (time h2 m2) gamepads_mode headsets.
Proof.
  unfold on_day. rewrite !(Z.add_comm (days day)). apply price_shift_days.
Qed.

(** ** Pricing: the claims on concrete intervals *)

(** C3. With the rates 400 and 500 per hour, on any day: 13:00-14:00
    without options costs 400; 17:00-19:00 with the squad tier costs 1100;
    17:00-19:00 with the squad tier and the headsets costs 1250. *)
Theorem price_scenarios (day : Z) :
  DAY_RATE = 400 /\ EVE_RATE = 500 /\ BUFFER_MIN = 10 /\ SLOT_STEP_MIN = 60 /\
  price_for_interval (on_day day 13 0) (on_day day 14 0) "duo" false
  = Some 400 /\
  price_for_interval (on_day day 17 0) (on_day day 19 0) "squad" false
  = Some 1100 /\
  price_for_interval (on_day day 17 0) (on_day day 19 0) "squad" true
  = Some 1250.
Proof.
  rewrite !price_on_day. repeat split; vm_compute; reflexivity.
Qed.

(** C4. The price without options is the sum, over the minutes of the
    interval, of [400/60] for a minute that begins in [13:00, 18:00) on the
    24-hour clock and of [500/60] for any other, rounded once at the end.
    The band of an instant does not change when whole days are added.  The
    interval 17:30-18:30 is the sum of 30 minutes at the day rate and 30 at
    the evening rate, rounded once: 450.  Rounding every minute on its own
    would give another price: 420 instead of 400 for 13:00-14:00. *)
Theorem price_is_sum_rounded_once :
  (forall start_local end_local,
     price_for_interval start_local end_local "duo" false
     = spec_base_price DAY_RATE EVE_RATE start_local end_local) /\
  (forall t k, in_day_band (t + days k) = in_day_band t) /\
  (forall t,
     in_day_band t = true <-> time 13 0 <= t mod days 1 < time 18 0) /\
  (forall day,
     price_for_interval (on_day day 17 30) (on_day day 18 30) "duo" false
     = Py.int (Py.round0 (spec_sum
         (repeat (Py.truediv (Py.Int DAY_RATE) (Py.Int 60)) 30
          ++ repeat (Py.truediv (Py.Int EVE_RATE) (Py.Int 60)) 30))) /\
     price_for_interval (on_day day 17 30) (on_day day 18 30) "duo" false
     = Some 450) /\
  (forall day,
     price_for_interval (on_day day 13 0) (on_day day 14 0) "duo" false
     = Some 400 /\
     rounded_per_minute DAY_RATE EVE_RATE (on_day day 13 0) (on_day day 14 0)
     = Some 420).
Proof.
  split; [|split; [|split; [|split]]].
  - intros s e. rewrite price_for_interval_eq. reflexivity.
  - apply in_day_band_shift.
  - intros t. unfold in_day_band. change (days 1) with 86400.
    rewrite andb_true_iff, Z.leb_le, Z.ltb_lt. reflexivity.
  - intros day. rewrite !price_on_day. split; vm_compute; reflexivity.
  - intros day. rewrite price_on_day. split; [vm_compute; reflexivity|].
    unfold rounded_per_minute, minute_count, on_day.
    replace (days day + time 14 0 - (days day + time 13 0) + 59) with 3659 by (unfold time; lia).
    change (Z.to_nat (3659 / 60)) with 60%nat.
    assert (H : forall n cur acc,
      fold_left (fun acc t =>
        match acc, Py.int (Py.round0 (spec_minute_cost DAY_RATE EVE_RATE t)) with
        | Some a, Some c => Some (a + c) | _, _ => None end)
        (minute_starts n (days day + cur)) acc
      = fold_left (fun acc t =>
        match acc, Py.int (Py.round0 (spec_minute_cost DAY_RATE EVE_RATE t)) with
        | Some a, Some c => Some (a + c) | _, _ => None end)
        (minute_starts n cur) acc).
    { induction n as [|n IH]; intros cur acc; [reflexivity|].
      cbn [minute_starts fold_left].
      replace (days day + cur + minutes 1) with (days day + (cur + minutes 1)) by lia.
      rewrite IH, (Z.add_comm (days day) cur), spec_minute_cost_shift.
      reflexivity. }
    rewrite H. vm_compute. reflexivity.
Qed.

(** ** The conflict check *)

Lemma status_occupies_iff st :
  status_occupies st = true
  <-> st = "pending"%string \/ st = "confirmed"%string \/ st = "blocked"%string.
Proof.
  unfold status_occupies. rewrite !orb_true_iff, !String.eqb_eq. tauto.
Qed.

Lemma overlaps_iff conn s e :
  overlaps conn s e = true
  <-> exists r, In r conn /\ status_occupies (bookings.status r) = true /\
                intervals_overlap (bookings.start_ts r) (bookings.end_ts r) s e.
Proof.
  unfold overlaps, timestamp, intervals_overlap. rewrite existsb_exists.
  split; intros (r & Hin & H); exists r; (split; [exact Hin|]).
  - apply andb_true_iff in H as [Hst H]. split; [exact Hst|].
    apply negb_true_iff, orb_false_iff in H as [H1 H2].
    apply Z.leb_gt in H1. rewrite Z.geb_leb in H2. apply Z.leb_gt in H2. lia.
  - destruct H as [Hst H]. rewrite Hst. cbn [andb].
    apply negb_true_iff, orb_false_iff. split.
    + apply Z.leb_gt. lia.
    + rewrite Z.geb_leb. apply Z.leb_gt. lia.
Qed.

Lemma overlaps_filter (keep : bookings.row -> bool) conn s e :
  (forall r, keep r = false -> status_occupies (bookings.status r) = false) ->
  overlaps (filter keep conn) s e = overlaps conn s e.
Proof.
  intros Hk. unfold overlaps. induction conn as [|r conn IH]; [reflexivity|].
  cbn [filter existsb]. destruct (keep r) eqn:E; cbn [existsb].
  - now rewrite IH.
  - rewrite (Hk r E). cbn [andb orb]. exact IH.
Qed.

(** C2. The check made at commit time answers true exactly when some stored
    row whose status is pending, confirmed or blocked overlaps, in epoch
    seconds, the candidate interval with its end pushed forward by the
    buffer, where two intervals overlap iff
    [NOT (a.end <= b.start OR a.start >= b.end)].  A row that only touches
    the extended candidate at an endpoint, and a cancelled row, never make
    the check answer true: the check ignores the cancelled rows altogether. *)
Theorem commit_check_spec (tz : Z) (conn : connection)
  (start_local : datetime) (duration_min : Z) :
  let s := timestamp (to_utc tz start_local) in
  let e := timestamp
             (to_utc tz (start_local + minutes duration_min
                         + minutes BUFFER_MIN)) in
  (commit_check tz conn start_local duration_min = true
   <-> exists r,
         In r conn /\
         (bookings.status r = "pending"%string \/
          bookings.status r = "confirmed"%string \/
          bookings.status r = "blocked"%string) /\
         intervals_overlap (bookings.start_ts r) (bookings.end_ts r) s e) /\
  (forall b_start b_end,
     intervals_overlap b_start b_end s e
     <-> ~ (b_end <= s \/ b_start >= e)) /\
  ((forall r, In r conn ->
      bookings.end_ts r = s \/ bookings.start_ts r = e \/
      bookings.status r = "cancelled"%string) ->
   commit_check tz conn start_local duration_min = false) /\
  commit_check tz
    (filter (fun r => negb (bookings.status r =? "cancelled")%string) conn)
    start_local duration_min
  = commit_check tz conn start_local duration_min.
Proof.
  intros s e.
  assert (Hcc : forall c, commit_check tz c start_local duration_min
                          = overlaps c s e).
  { intros c. unfold commit_check, s, e, timestamp, to_utc, minutes.
    f_equal. lia. }
  rewrite !Hcc. repeat split.
  - intros H. apply overlaps_iff in H as (r & Hin & Hst & Hov).
    exists r. rewrite <- status_occupies_iff. auto.
  - intros (r & Hin & Hst & Hov). apply overlaps_iff.
    exists r. rewrite status_occupies_iff. auto.
  - unfold intervals_overlap. tauto.
  - unfold intervals_overlap. tauto.
  - intros Hall. destruct (overlaps conn s e) eqn:E; [|reflexivity].
    apply overlaps_iff in E as (r & Hin & Hst & Hov).
    unfold intervals_overlap in Hov.
    destruct (Hall r Hin) as [H|[H|H]]; try lia.
    rewrite H in Hst. discriminate.
  - apply overlaps_filter. intros r Hr.
    apply negb_false_iff, String.eqb_eq in Hr. now rewrite Hr.
Qed.

(** A candidate that starts at or after the end of the only stored
    reservation is accepted, whatever the gap. *)
Lemma commit_check_later tz s0 d0 st start_local duration_min :
  s0 + minutes d0 <= start_local ->
  commit_check tz [stored tz s0 d0 st] start_local duration_min = false.
Proof.
  intros H. unfold commit_check, overlaps, stored, timestamp, to_utc.
  cbn [existsb bookings.status bookings.end_ts bookings.start_ts].
  rewrite orb_false_r.
  replace (s0 + minutes d0 - tz <=? start_local - tz) with true
    by (symmetry; apply Z.leb_le; lia).
  cbn [orb negb]. apply andb_false_r.
Qed.

(** C1, on the code: with the table holding one confirmed reservation
    14:00-15:00, the check accepts the candidate 15:10-16:00, and it also
    accepts the candidate 15:05-16:00, which starts 5 minutes after the
    reservation's end; so does it for a pending or a blocked reservation. *)
Theorem commit_check_after_existing (tz day : Z) :
  BUFFER_MIN = 10 /\
  (forall st,
     commit_check tz [stored tz (on_day day 14 0) 60 st]
       (on_day day 15 10) 50 = false) /\
  (forall st,
     commit_check tz [stored tz (on_day day 14 0) 60 st]
       (on_day day 15 5) 55 = false).
Proof.
  split; [reflexivity|].
  split; intros st; apply commit_check_later;
    unfold on_day, minutes, time; lia.
Qed.

(** C7, on the code: for A = 14:00-15:00 and B = 15:05-16:00, the check of
    the candidate A against the table holding only B answers true, and the
    check of the candidate B against the table holding only A answers
    false. *)
Theorem commit_check_not_symmetric (tz day : Z) :
  commit_check tz [stored tz (on_day day 15 5) 55 "confirmed"]
    (on_day day 14 0) 60 = true /\
  commit_check tz [stored tz (on_day day 14 0) 60 "confirmed"]
    (on_day day 15 5) 55 = false.
Proof.
  split.
  - unfold commit_check, overlaps, stored, timestamp, to_utc, on_day, minutes,
      time, BUFFER_MIN; cbn [existsb bookings.status bookings.end_ts
      bookings.start_ts status_occupies].
    rewrite orb_false_r. apply andb_true_iff. split; [reflexivity|].
    apply negb_true_iff, orb_false_iff. split.
    + apply Z.leb_gt. lia.
    + rewrite Z.geb_leb. apply Z.leb_gt. lia.
  - apply commit_check_later. unfold on_day, minutes, time. lia.
Qed.

(** ** What the handlers store *)

Lemma enter_phone_cases tz now_ts conn draft user_id username phone conn' st :
  enter_phone tz now_ts conn draft user_id username phone = Some (conn', st) ->
  exists start_local,
    BookingDraft.start_dt draft = Some start_local /\
    ((commit_check tz conn start_local (BookingDraft.duration_min draft) = true
      /\ conn' = conn /\ st = CHOOSING_TIME)
     \/
     (commit_check tz conn start_local (BookingDraft.duration_min draft) = false
      /\ st = END /\
      exists r,
        conn' = conn ++ [r] /\
        bookings.start_ts r = timestamp (to_utc tz start_local) /\
        bookings.end_ts r
        = timestamp (to_utc tz
            (start_local + minutes (BookingDraft.duration_min draft))) /\
        bookings.duration_min r = BookingDraft.duration_min draft /\
        bookings.status r = "pending"%string /\
        Some (bookings.price_total r)
        = price_for_interval start_local
            (start_local + minutes (BookingDraft.duration_min draft))
            (BookingDraft.gamepads_mode draft) (BookingDraft.headsets draft))).
Proof.
  unfold enter_phone. intros H.
  destruct (BookingDraft.start_dt draft) as [start_local|]; [|discriminate].
  exists start_local. split; [reflexivity|].
  destruct (commit_check tz conn start_local _) eqn:Hc.
  - left. destruct (BookingDraft.date draft) as [date|]; [|discriminate].
    destruct (iter_open_slots date _); [|discriminate].
    injection H as <- <-. auto.
  - right. destruct (price_for_interval _ _ _ _) as [price|] eqn:Hp;
      [|discriminate].
    injection H as <- <-. repeat split.
    eexists. repeat split; cbn; auto.
Qed.

Lemma admin_block_cases tz now_ts admins conn user_id d dur :
  admin_block tz now_ts admins conn user_id d dur = conn \/
  exists r,
    admin_block tz now_ts admins conn user_id d dur = conn ++ [r] /\
    overlaps conn (to_utc tz d) (to_utc tz (d + minutes dur)) = false /\
    bookings.start_ts r = timestamp (to_utc tz d) /\
    bookings.end_ts r = timestamp (to_utc tz (d + minutes dur)) /\
    bookings.duration_min r = dur /\
    bookings.status r = "blocked"%string.
Proof.
  unfold admin_block.
  destruct (negb _); [now left|].
  destruct (overlaps conn _ _) eqn:Ho; [now left|].
  right. eexists. repeat split; cbn; auto.
Qed.

(** C9. A row written by [enter_phone] or by [admin_block] holds the
    interval without the buffer: [end_ts - start_ts] is [duration_min * 60]
    seconds.  [enter_phone] writes only when the check on the candidate
    extended by the buffer found no conflict, stores the candidate from its
    start to its start plus the duration, and stores it as pending; when
    the check finds a conflict the table is left as it was.  Hence every
    table whose rows satisfy the invariant keeps it through both
    handlers. *)
Theorem stored_rows_unbuffered (tz now_ts : Z) (conn : connection) :
  (forall draft user_id username phone conn' st,
     enter_phone tz now_ts conn draft user_id username phone
     = Some (conn', st) ->
     (st = CHOOSING_TIME /\ conn' = conn) \/
     (st = END /\
      exists r start_local,
        conn' = conn ++ [r] /\
        BookingDraft.start_dt draft = Some start_local /\
        overlaps conn (to_utc tz start_local)
          (to_utc tz (start_local
                      + minutes (BookingDraft.duration_min draft + BUFFER_MIN)))
        = false /\
        bookings.start_ts r = timestamp (to_utc tz start_local) /\
        bookings.duration_min r = BookingDraft.duration_min draft /\
        bookings.end_ts r - bookings.start_ts r
        = bookings.duration_min r * 60 /\
        bookings.status r = "pending"%string)) /\
  (forall admins user_id d dur,
     admin_block tz now_ts admins conn user_id d dur = conn \/
     exists r,
       admin_block tz now_ts admins conn user_id d dur = conn ++ [r] /\
       bookings.start_ts r = timestamp (to_utc tz d) /\
       bookings.duration_min r = dur /\
       bookings.end_ts r - bookings.start_ts r = bookings.duration_min r * 60 /\
       bookings.status r = "blocked"%string) /\
  (Forall row_unbuffered conn ->
   (forall draft user_id username phone conn' st,
      enter_phone tz now_ts conn draft user_id username phone
      = Some (conn', st) ->
      Forall row_unbuffered conn') /\
   (forall admins user_id d dur,
      Forall row_unbuffered
        (admin_block tz now_ts admins conn user_id d dur))).
Proof.
  assert (E : forall draft user_id username phone conn' st,
     enter_phone tz now_ts conn draft user_id username phone
     = Some (conn', st) ->
     (st = CHOOSING_TIME /\ conn' = conn) \/
     (st = END /\
      exists r start_local,
        conn' = conn ++ [r] /\
        BookingDraft.start_dt draft = Some start_local /\
        overlaps conn (to_utc tz start_local)
          (to_utc tz (start_local
                      + minutes (BookingDraft.duration_min draft + BUFFER_MIN)))
        = false /\
        bookings.start_ts r = timestamp (to_utc tz start_local) /\
        bookings.duration_min r = BookingDraft.duration_min draft /\
        bookings.end_ts r - bookings.start_ts r
        = bookings.duration_min r * 60 /\
        bookings.status r = "pending"%string)).
  { intros draft user_id username phone conn' st H.
    apply enter_phone_cases in H as (start_local & Hs & [(Hc & -> & ->)|(Hc & -> & r & -> & H1 & H2 & H3 & H4 & _)]).
    - now left.
    - right. split; [reflexivity|]. exists r, start_local.
      repeat split; auto.
      rewrite H1, H2, H3. unfold timestamp, to_utc, minutes. lia. }
  assert (A : forall admins user_id d dur,
     admin_block tz now_ts admins conn user_id d dur = conn \/
     exists r,
       admin_block tz now_ts admins conn user_id d dur = conn ++ [r] /\
       bookings.start_ts r = timestamp (to_utc tz d) /\
       bookings.duration_min r = dur /\
       bookings.end_ts r - bookings.start_ts r = bookings.duration_min r * 60 /\
       bookings.status r = "blocked"%string).
  { intros admins user_id d dur.
    destruct (admin_block_cases tz now_ts admins conn user_id d dur)
      as [H|(r & H & _ & H1 & H2 & H3 & H4)]; [now left|right].
    exists r. repeat split; auto.
    rewrite H1, H2, H3. unfold timestamp, to_utc, minutes. lia. }
  split; [exact E|]. split; [exact A|].
  intros Hinv. split.
  - intros draft user_id username phone conn' st H.
    destruct (E _ _ _ _ _ _ H) as [[_ ->]|(_ & r & s0 & -> & _ & _ & _ & _ & Hr & _)];
      [assumption|].
    apply Forall_app. split; [assumption|]. now constructor.
  - intros admins user_id d dur.
    destruct (A admins user_id d dur) as [->|(r & -> & _ & _ & Hr & _)];
      [assumption|].
    apply Forall_app. split; [assumption|]. now constructor.
Qed.

(** A booking that goes through: on an empty table, 60 minutes from 13:00
    for 400 are stored as pending, from 13:00 to 14:00. *)
Lemma stored_rows_unbuffered_witness :
  exists conn',
    enter_phone 10800 0 [] (draft_of (on_day 20407 13 0) 60 "duo" false)
      7 (Some "guest"%string) "+70000000000"
    = Some (conn', END) /\
    ((END = CHOOSING_TIME /\ conn' = []) \/
     (END = END /\
      exists r start_local,
        conn' = [] ++ [r] /\
        BookingDraft.start_dt (draft_of (on_day 20407 13 0) 60 "duo" false)
        = Some start_local /\
        overlaps [] (to_utc 10800 start_local)
          (to_utc 10800
             (start_local
              + minutes
                  (BookingDraft.duration_min
                     (draft_of (on_day 20407 13 0) 60 "duo" false)
                   + BUFFER_MIN)))
        = false /\
        bookings.start_ts r = timestamp (to_utc 10800 start_local) /\
        bookings.duration_min r
        = BookingDraft.duration_min
            (draft_of (on_day 20407 13 0) 60 "duo" false) /\
        bookings.end_ts r - bookings.start_ts r
        = bookings.duration_min r * 60 /\
        bookings.status r = "pending"%string)).
Proof.
  eexists. split.
  - vm_compute. reflexivity.
  - apply (proj1 (stored_rows_unbuffered 10800 0 [])
             (draft_of (on_day 20407 13 0) 60 "duo" false)
             7 (Some "guest"%string) "+70000000000"%string).
    vm_compute. reflexivity.
Defined.

(** ** Python arithmetic on scaled values *)

Lemma okv_Rz_below v B : 0 <= v -> Rz v <= B -> kof B <= 2045 -> okv (Rz v).
Proof.
  intros Hv HB Hk. repeat split.
  - now apply Rz_nonneg.
  - now apply Rz_idem.
  - pose proof (kof_mono _ _ HB). lia.
Qed.

Lemma SFadd_okv a b B :
  okv a -> okv b -> Rz (a + b) <= B -> kof B <= 2045 ->
  SFadd Py.prec Py.emax (Z2F a) (Z2F b) = Z2F (Rz (a + b)) /\ okv (Rz (a + b)).
Proof.
  intros Ha Hb HB Hk. split; [now apply SFadd_Z2F|].
  apply okv_Rz_below with B; try assumption. destruct Ha, Hb; lia.
Qed.

Lemma mantissa_lt w m :
  0 < w -> Zpos m * 2 ^ kof w = w -> Zpos m < 2 ^ 53.
Proof.
  intros Hw Hm. pose proof (kof_nonneg w) as Hk.
  pose proof (Z.log2_mul_pow2 (Zpos m) (kof w) ltac:(lia) Hk) as Hl.
  rewrite Hm in Hl.
  assert (Z.log2 (Zpos m) < 53) by (unfold kof in *; lia).
  apply Z.log2_lt_pow2; lia.
Qed.

Lemma int_Z2F_int z :
  0 < z -> okv (z * 2 ^ bias) -> Py.int (Py.Float (Z2F (z * 2 ^ bias))) = Some z.
Proof.
  intros Hz Hok. pose proof (pow2_pos bias ltac:(unfold bias; lia)) as Hp.
  destruct (Z2F_okv _ Hok ltac:(nia)) as (m & Hf & Hm).
  rewrite Hf. cbn [Py.int]. f_equal.
  set (k := kof (z * 2 ^ bias)) in *.
  assert (Hk : 0 <= k) by apply kof_nonneg.
  destruct (Z.ltb_spec (k - bias) 0) as [Hlt|Hge].
  - replace (- (k - bias)) with (bias - k) by lia.
    assert (Zpos m = z * 2 ^ (bias - k)).
    { apply Z.mul_reg_r with (2 ^ k); [apply Z.pow_nonzero; lia|].
      rewrite Hm, <- Z.mul_assoc, <- Z.pow_add_r by lia.
      do 2 f_equal. lia. }
    rewrite H. apply Z.div_mul, Z.pow_nonzero; lia.
  - apply Z.mul_reg_r with (2 ^ bias); [lia|].
    rewrite <- Hm, <- Z.mul_assoc, <- Z.pow_add_r by (unfold bias in *; lia).
    do 2 f_equal. lia.
Qed.

Lemma rne_nonneg m n : 0 <= n -> 0 <= m -> 0 <= Py.rne m n.
Proof. intros Hn Hm. apply rne_ge_grid; lia. Qed.

(** [int(round(x, 0))] of a finite non-negative [x]. *)
Lemma int_round0_Z2F w :
  okv w -> Py.int (Py.round0 (Py.Float (Z2F w))) = Some (Py.rne w bias).
Proof.
  intros Hok. destruct (Z.eq_dec w 0) as [->|Nz].
  - vm_compute. reflexivity.
  - assert (Hw : 0 < w) by (destruct Hok; lia).
    destruct (Z2F_okv w Hok Hw) as (m & Hf & Hm). rewrite Hf.
    pose proof (kof_nonneg w) as Hk. set (k := kof w) in *.
    pose proof (mantissa_lt w m Hw Hm) as Hm53.
    assert (Hz : Py.rint m (k - bias) = Py.rne w bias).
    { unfold Py.rint. destruct (Z.ltb_spec (k - bias) 0) as [Hlt|Hge].
      - rewrite <- Hm. replace bias with ((bias - k) + k) at 2 by lia.
        rewrite rne_shift by lia. f_equal. lia.
      - rewrite <- Hm. replace k with ((k - bias) + bias) at 2 by lia.
        rewrite Z.pow_add_r, Z.mul_assoc by (unfold bias in *; lia).
        symmetry. apply rne_exact. unfold bias; lia. }
    cbn [Py.round0]. rewrite Hz.
    assert (Hz0 : 0 <= Py.rne w bias) by (apply rne_nonneg; unfold bias; lia).
    destruct (Z.eqb_spec (Py.rne w bias) 0) as [E|NE].
    + cbn [Py.int]. now rewrite E.
    + unfold Py.float_of_int. rewrite float_of_int_spec by assumption.
      assert (Hokz : okv (Py.rne w bias * 2 ^ bias)).
      { destruct (Z.ltb_spec (k - bias) 0) as [Hlt|Hge].
        - apply okv_int. split; [assumption|].
          rewrite <- Hz. unfold Py.rint.
          destruct (Z.ltb_spec (k - bias) 0); [|lia].
          assert (Zpos m / 2 ^ (- (k - bias)) <= Zpos m / 2).
          { apply Z.div_le_compat_l; [lia|]. split; [lia|].
            change 2 with (2 ^ 1) at 1. apply Z.pow_le_mono_r; lia. }
          assert (Zpos m / 2 < 2 ^ 52) by (apply Z.div_lt_upper_bound; lia).
          destruct (rne_cases (Zpos m) (- (k - bias)) ltac:(lia)); lia.
        - replace (Py.rne w bias * 2 ^ bias) with w; [assumption|].
          rewrite <- Hz. unfold Py.rint.
          destruct (Z.ltb_spec (k - bias) 0); [lia|].
          rewrite <- Hm at 1. replace k with ((k - bias) + bias) at 1 by lia.
          rewrite Z.pow_add_r by (unfold bias in *; lia). ring. }
      replace (Rz (Py.rne w bias * 2 ^ bias)) with (Py.rne w bias * 2 ^ bias)
        by (symmetry; apply Hokz).
      apply int_Z2F_int; [lia | assumption].
Qed.

(** *** The constants of the price *)

Lemma okv_w_day : okv w_day.
Proof. repeat split; vm_compute; congruence. Qed.

Lemma okv_w_eve : okv w_eve.
Proof. repeat split; vm_compute; congruence. Qed.

Lemma okv_w_squad : okv w_squad.
Proof. repeat split; vm_compute; congruence. Qed.

Lemma okv_w_headsets : okv w_headsets.
Proof. repeat split; vm_compute; congruence. Qed.

Lemma okv_rate_w t : okv (rate_w t) /\ 0 < rate_w t <= w_eve.
Proof.
  unfold rate_w. destruct (in_day_band t).
  - split; [apply okv_w_day|]. split; vm_compute; congruence.
  - split; [apply okv_w_eve|]. split; vm_compute; congruence.
Qed.

Lemma minute_cost_w t :
  spec_minute_cost DAY_RATE EVE_RATE t = Py.Float (Z2F (rate_w t)).
Proof.
  unfold spec_minute_cost, rate_w.
  destruct (in_day_band t); vm_compute; reflexivity.
Qed.

Lemma squad_rate_w :
  Py.truediv (Py.Int 100) (Py.Int 60) = Py.Float (Z2F w_squad).
Proof. vm_compute. reflexivity. Qed.

Lemma headsets_w : Py.float_of_int 150 = Z2F w_headsets.
Proof. vm_compute. reflexivity. Qed.

Lemma w_top_absorbs : Rz (w_top + w_eve) = w_top.
Proof. vm_compute. reflexivity. Qed.

(** *** The loop's total and the surcharges *)

Lemma add_float a x :
  Py.add a (Py.Float x) = Py.Float (SFadd Py.prec Py.emax (Py.as_float a) x).
Proof. now destruct a. Qed.

Lemma okv_sum a b n :
  okv a -> okv b -> a <= 2 ^ n -> b <= 2 ^ n -> 0 <= n <= 2096 ->
  SFadd Py.prec Py.emax (Z2F a) (Z2F b) = Z2F (Rz (a + b)) /\
  okv (Rz (a + b)) /\ Rz (a + b) <= 2 ^ (n + 1).
Proof.
  intros Ha Hb Han Hbn Hn.
  destruct (okv_pow2 (n + 1) ltac:(lia)) as (_ & HR & Hk).
  assert (Rz (a + b) <= 2 ^ (n + 1)).
  { rewrite <- HR. apply Rz_mono; [destruct Ha, Hb; lia|].
    rewrite Z.pow_add_r, Z.pow_1_r by lia. lia. }
  destruct (SFadd_okv a b (2 ^ (n + 1)) Ha Hb H Hk). auto.
Qed.

Lemma minute_step a w t :
  Py.as_float a = Z2F w -> okv w -> w <= w_top ->
  Py.add a (spec_minute_cost DAY_RATE EVE_RATE t)
  = Py.Float (Z2F (Rz (w + rate_w t))) /\
  okv (Rz (w + rate_w t)) /\ Rz (w + rate_w t) <= w_top /\
  w <= Rz (w + rate_w t).
Proof.
  intros Ha Hw Htop. destruct (okv_rate_w t) as (Hr & Hr0 & Hr1).
  assert (Hle : Rz (w + rate_w t) <= w_top).
  { rewrite <- w_top_absorbs. apply Rz_mono; destruct Hw; lia. }
  assert (Hk : kof w_top <= 2045) by (vm_compute; congruence).
  rewrite minute_cost_w, add_float, Ha.
  destruct (SFadd_okv w (rate_w t) w_top Hw Hr Hle Hk) as [-> Hok].
  repeat split; try apply Hok; try assumption.
  destruct Hw as (Hw0 & Hw1 & _). rewrite <- Hw1 at 1. apply Rz_mono; lia.
Qed.

Lemma total_w_spec l : forall a w,
  Py.as_float a = Z2F w -> okv w -> w <= w_top ->
  Py.as_float
    (fold_left Py.add (map (spec_minute_cost DAY_RATE EVE_RATE) l) a)
  = Z2F (total_w w l) /\
  okv (total_w w l) /\ total_w w l <= w_top /\ w <= total_w w l /\
  (l <> [] ->
   fold_left Py.add (map (spec_minute_cost DAY_RATE EVE_RATE) l) a
   = Py.Float (Z2F (total_w w l))).
Proof.
  induction l as [|t l IH]; intros a w Ha Hw Htop; cbn [map fold_left total_w].
  - repeat split; try assumption; try apply Hw; try lia. congruence.
  - destruct (minute_step a w t Ha Hw Htop) as (Hs & Hok & Hle & Hmono).
    rewrite Hs.
    destruct (IH (Py.Float (Z2F (Rz (w + rate_w t)))) _ eq_refl Hok Hle)
      as (H1 & H2 & H3 & H4 & H5).
    repeat split; try assumption; try apply H2; try lia.
    intros _. destruct l as [|t' l']; [reflexivity|].
    apply H5. discriminate.
Qed.

Lemma total_w_app l1 l2 w : total_w w (l1 ++ l2) = total_w (total_w w l1) l2.
Proof. revert w; induction l1 as [|t l1 IH]; intros w; cbn; auto. Qed.

Lemma minute_starts_app n k : forall cur,
  minute_starts (n + k) cur
  = minute_starts n cur ++ minute_starts k (cur + minutes (Z.of_nat n)).
Proof.
  induction n as [|n IH]; intros cur; cbn [minute_starts Nat.add app].
  - f_equal. unfold minutes. lia.
  - rewrite IH.
    replace (cur + minutes (Z.of_nat (S n)))
      with (cur + minutes 1 + minutes (Z.of_nat n)) by (unfold minutes; lia).
    reflexivity.
Qed.

Lemma okv_squad mins :
  0 <= mins < 2 ^ 53 ->
  Py.mul (Py.truediv (Py.Int 100) (Py.Int 60)) (Py.Int mins)
  = Py.Float (Z2F (Rz (w_squad * mins))) /\
  okv (Rz (w_squad * mins)) /\ Rz (w_squad * mins) <= 2 ^ 1134.
Proof.
  intros Hm. rewrite squad_rate_w. cbn [Py.mul Py.as_float].
  unfold Py.float_of_int. rewrite float_of_int_spec by lia.
  pose proof (okv_int mins Hm) as Hok.
  replace (Rz (mins * 2 ^ bias)) with (mins * 2 ^ bias) by (symmetry; apply Hok).
  pose proof (pow2_pos bias ltac:(unfold bias; lia)) as Hp.
  assert (Hsq : 0 < w_squad < 2 ^ 1075) by (split; vm_compute; congruence).
  rewrite SFmul_Z2F.
  - replace (w_squad * (mins * 2 ^ bias) / 2 ^ bias) with (w_squad * mins)
      by (rewrite Z.mul_assoc, Z.div_mul; lia).
    destruct (okv_pow2 1134 ltac:(lia)) as (_ & HR & Hk).
    assert (Hle : Rz (w_squad * mins) <= 2 ^ 1134).
    { rewrite <- HR. apply Rz_mono; [nia|].
      apply Z.le_trans with (2 ^ 1075 * 2 ^ 53); [nia|].
      rewrite <- Z.pow_add_r by lia. apply Z.pow_le_mono_r; lia. }
    split; [reflexivity|]. split; [|exact Hle].
    apply okv_Rz_below with (2 ^ 1134); try assumption. nia.
  - apply okv_w_squad.
  - exact Hok.
  - vm_compute. congruence.
  - intros Nz. assert (0 < mins) by nia.
    rewrite kof_mul_pow2 by (unfold bias; lia).
    pose proof (Z.log2_nonneg mins).
    replace (kof w_squad) with 1022 by (vm_compute; reflexivity).
    unfold bias. lia.
Qed.

(** The surcharges and the rounding on a [float] total. *)
Lemma price_finish_w total start_local end_local gamepads_mode headsets :
  okv total -> total <= w_top ->
  0 <= (end_local - start_local) / 60 < 2 ^ 53 ->
  price_finish (Py.Float (Z2F total)) start_local end_local
    gamepads_mode headsets
  = Some (Py.rne
            (finish_w total ((end_local - start_local) / 60)
               (gamepads_mode =? "squad")%string headsets)
            bias).
Proof.
  intros Hok Htop Hm. unfold price_finish, finish_w.
  set (mins := (end_local - start_local) / 60) in *.
  destruct (okv_squad mins Hm) as (Hsq & Hsok & Hsle).
  assert (Hx : exists x,
    (if (gamepads_mode =? "squad")%string
     then Py.add (Py.Float (Z2F total))
            (Py.mul (Py.truediv (Py.Int 100) (Py.Int 60)) (Py.Int mins))
     else Py.Float (Z2F total)) = Py.Float (Z2F x) /\
    x = (if (gamepads_mode =? "squad")%string
         then Rz (total + Rz (w_squad * mins)) else total) /\
    okv x /\ x <= 2 ^ 1135).
  { destruct (gamepads_mode =? "squad")%string.
    - rewrite Hsq, add_float. cbn [Py.as_float].
      destruct (okv_sum total (Rz (w_squad * mins)) 1134 Hok Hsok Htop Hsle
                  ltac:(lia)) as (-> & H1 & H2).
      eexists. repeat split; try apply H1. exact H2.
    - exists total. repeat split; try apply Hok.
      apply Z.le_trans with (2 ^ 1134); [exact Htop|].
      apply Z.pow_le_mono_r; lia. }
  destruct Hx as (x & -> & Hxeq & Hxok & Hxle). rewrite <- Hxeq.
  destruct headsets.
  - cbn [Py.add Py.as_float]. rewrite headsets_w.
    assert (w_headsets <= 2 ^ 1135) by (vm_compute; congruence).
    destruct (okv_sum x w_headsets 1135 Hxok okv_w_headsets Hxle H
                ltac:(lia)) as (-> & H1 & _).
    now apply int_round0_Z2F.
  - now apply int_round0_Z2F.
Qed.

Lemma finish_w_mono t1 t2 m1 m2 squad headsets :
  0 <= t1 <= t2 -> 0 <= m1 <= m2 ->
  finish_w t1 m1 squad headsets <= finish_w t2 m2 squad headsets.
Proof.
  intros Ht Hm. unfold finish_w.
  assert (Hs : 0 < w_squad) by (vm_compute; congruence).
  assert (Hh : 0 < w_headsets) by (vm_compute; congruence).
  assert (H1 : 0 <= Rz (w_squad * m1) <= Rz (w_squad * m2)).
  { split; [apply Rz_nonneg; nia | apply Rz_mono; nia]. }
  assert (H2 : 0 <= (if squad then Rz (t1 + Rz (w_squad * m1)) else t1)
               <= (if squad then Rz (t2 + Rz (w_squad * m2)) else t2)).
  { destruct squad; [|lia].
    split; [apply Rz_nonneg; lia | apply Rz_mono; lia]. }
  destruct headsets; [apply Rz_mono; lia | lia].
Qed.

(** The price of an interval of positive length no longer than a
    [timedelta]. *)
Lemma price_w start_local end_local gamepads_mode headsets :
  start_local < end_local -> end_local - start_local <= timedelta_max ->
  let total :=
    total_w 0 (minute_starts (minute_count start_local end_local)
                 start_local) in
  price_for_interval start_local end_local gamepads_mode headsets
  = Some (Py.rne
            (finish_w total ((end_local - start_local) / 60)
               (gamepads_mode =? "squad")%string headsets)
            bias) /\
  okv total /\ total <= w_top.
Proof.
  intros Hlt Hmax total.
  assert (Htop0 : 0 <= w_top) by (vm_compute; congruence).
  destruct (total_w_spec
              (minute_starts (minute_count start_local end_local) start_local)
              (Py.Int 0) 0 eq_refl okv_0 Htop0) as (_ & Hok & Hle & _ & Hfl).
  fold total in Hok, Hle, Hfl.
  split; [|now split].
  rewrite price_for_interval_eq. unfold spec_sum. rewrite Hfl.
  - apply price_finish_w; try assumption.
    unfold timedelta_max in Hmax. split.
    + apply Z.div_pos; lia.
    + apply Z.div_lt_upper_bound; [lia|].
      apply Z.le_lt_trans with 86399999999999; [lia|]. vm_compute. reflexivity.
  - rewrite (minute_count_S start_local end_local Hlt). discriminate.
Qed.

(** ** Pricing: monotonicity *)

Lemma minute_count_mono start_local e1 e2 :
  e1 <= e2 ->
  (minute_count start_local e1 <= minute_count start_local e2)%nat.
Proof.
  intros H. unfold minute_count.
  assert ((e1 - start_local + 59) / 60 <= (e2 - start_local + 59) / 60)
    by (apply Z.div_le_mono; lia).
  lia.
Qed.

(** A longer interval from the same start never costs less. *)
Lemma price_mono_end start_local e1 e2 gamepads_mode headsets :
  start_local < e1 -> e1 <= e2 -> e2 - start_local <= timedelta_max ->
  exists p1 p2,
    price_for_interval start_local e1 gamepads_mode headsets = Some p1 /\
    price_for_interval start_local e2 gamepads_mode headsets = Some p2 /\
    p1 <= p2.
Proof.
  intros H1 H12 Hmax.
  destruct (price_w start_local e1 gamepads_mode headsets H1 ltac:(lia))
    as (Hp1 & Hok1 & Hle1).
  destruct (price_w start_local e2 gamepads_mode headsets ltac:(lia) Hmax)
    as (Hp2 & Hok2 & Hle2).
  rewrite Hp1, Hp2. do 2 eexists. split; [reflexivity|]. split; [reflexivity|].
  apply rne_mono; [unfold bias; lia|].
  pose proof (minute_count_mono start_local e1 e2 H12) as Hn.
  set (n1 := minute_count start_local e1) in *.
  set (n2 := minute_count start_local e2) in *.
  replace n2 with (n1 + (n2 - n1))%nat in * by lia.
  rewrite minute_starts_app, total_w_app in *.
  set (t1 := total_w 0 (minute_starts n1 start_local)) in *.
  apply finish_w_mono.
  - split; [apply Hok1|].
    destruct (total_w_spec
                (minute_starts (n2 - n1) (start_local + minutes (Z.of_nat n1)))
                (Py.Float (Z2F t1)) t1 eq_refl Hok1 Hle1) as (_ & _ & _ & H & _).
    exact H.
  - split; [apply Z.div_pos; lia | apply Z.div_le_mono; lia].
Qed.

(** C8. From any start, with any options, a duration of [d > 0] minutes
    and a duration of [d + s] minutes, [s > 0], both get a price, and the
    longer one costs at least as much (the longer interval being no longer
    than a [timedelta] can be). *)
Theorem price_monotone (start_local : datetime) (d s : Z)
  (gamepads_mode : string) (headsets : bool) :
  0 < d -> 0 < s -> minutes (d + s) <= timedelta_max ->
  exists p1 p2,
    price_for_interval start_local (start_local + minutes d)
      gamepads_mode headsets = Some p1 /\
    price_for_interval start_local (start_local + minutes (d + s))
      gamepads_mode headsets = Some p2 /\
    p1 <= p2.
Proof.
  intros Hd Hs Hmax. apply price_mono_end; unfold minutes in *; lia.
Qed.

Lemma price_monotone_witness :
  exists p1 p2,
    price_for_interval (on_day 20407 17 0) (on_day 20407 17 0 + minutes 60)
      "squad" true = Some p1 /\
    price_for_interval (on_day 20407 17 0)
      (on_day 20407 17 0 + minutes (60 + 60)) "squad" true = Some p2 /\
    p1 <= p2.
Proof.
  apply (price_monotone (on_day 20407 17 0) 60 60 "squad" true).
  - lia.
  - lia.
  - vm_compute. congruence.
Defined.

(** ** Negative values *)

Lemma binary_round_aux_opp m e l :
  binary_round_aux Py.prec Py.emax true m e l
  = SFopp (binary_round_aux Py.prec Py.emax false m e l).
Proof.
  unfold binary_round_aux.
  destruct (shr_fexp Py.prec Py.emax m e l) as [mrs' e'].
  destruct (shr_fexp Py.prec Py.emax _ e' loc_Exact) as [mrs'' e''].
  destruct (shr_m mrs''); try reflexivity.
  now destruct (e'' <=? Py.emax - Py.prec).
Qed.

Lemma binary_round_opp m e :
  binary_round Py.prec Py.emax true m e
  = SFopp (binary_round Py.prec Py.emax false m e).
Proof.
  unfold binary_round. destruct (shl_align m e _) as [mz ez].
  apply binary_round_aux_opp.
Qed.

Lemma SFopp_involutive x : SFopp (SFopp x) = x.
Proof. destruct x as [s|s| |s m e]; cbn; try reflexivity; now destruct s. Qed.

Lemma float_of_int_opp z :
  z <> 0 -> Py.float_of_int (- z) = SFopp (Py.float_of_int z).
Proof.
  intros Hz. unfold Py.float_of_int.
  destruct z as [|p|p]; [congruence| |]; cbn [Z.opp binary_normalize].
  - apply binary_round_opp.
  - now rewrite binary_round_opp, SFopp_involutive.
Qed.

Lemma int_opp x :
  Py.int (Py.Float (SFopp x)) = option_map Z.opp (Py.int (Py.Float x)).
Proof.
  destruct x as [s|s| |s m e]; cbn [SFopp Py.int option_map]; try reflexivity.
  destruct s; cbn [negb]; f_equal; lia.
Qed.

Lemma int_round0_opp x :
  Py.int (Py.round0 (Py.Float (SFopp x)))
  = option_map Z.opp (Py.int (Py.round0 (Py.Float x))).
Proof.
  destruct x as [s|s| |s m e]; cbn [SFopp Py.round0]; try reflexivity.
  destruct (Z.eqb_spec (Py.rint m e) 0) as [E|NE]; [reflexivity|].
  rewrite <- int_opp. do 2 f_equal.
  rewrite <- float_of_int_opp by (destruct s; lia).
  f_equal. destruct s; cbn [negb]; lia.
Qed.

Lemma SFmul_opp_r a b :
  okv a -> okv b -> 0 < a -> 0 < b ->
  SFmul Py.prec Py.emax (Z2F a) (SFopp (Z2F b))
  = SFopp (SFmul Py.prec Py.emax (Z2F a) (Z2F b)).
Proof.
  intros Ha Hb Ha0 Hb0.
  destruct (Z2F_okv a Ha Ha0) as (ma & -> & _).
  destruct (Z2F_okv b Hb Hb0) as (mb & -> & _).
  cbn [SFopp SFmul xorb negb]. apply binary_round_aux_opp.
Qed.

(** A negative finite value plus a positive one is finite. *)
Lemma SFadd_opp_l a b :
  okv a -> okv b -> 0 < a -> 0 < b ->
  exists c, okv c /\
    (SFadd Py.prec Py.emax (SFopp (Z2F a)) (Z2F b) = Z2F c \/
     SFadd Py.prec Py.emax (SFopp (Z2F a)) (Z2F b) = SFopp (Z2F c)).
Proof.
  intros Ha Hb Ha0 Hb0.
  destruct (Z2F_okv a Ha Ha0) as (ma & Hfa & Ea).
  destruct (Z2F_okv b Hb Hb0) as (mb & Hfb & Eb).
  rewrite Hfa, Hfb. cbn [SFopp negb SFadd cond_Zopp].
  set (ea := kof a - bias). set (eb := kof b - bias). set (ez := Z.min ea eb).
  rewrite !shl_align_fst by (unfold ez; lia).
  pose proof (kof_nonneg a). pose proof (kof_nonneg b).
  assert (Hez : - bias <= ez) by (unfold ez, ea, eb; lia).
  assert (Hva : Zpos ma * 2 ^ (ea - ez) * 2 ^ (ez + bias) = a).
  { rewrite <- Z.mul_assoc, <- Z.pow_add_r by (unfold ez; lia).
    replace (ea - ez + (ez + bias)) with (kof a) by (unfold ea; lia).
    exact Ea. }
  assert (Hvb : Zpos mb * 2 ^ (eb - ez) * 2 ^ (ez + bias) = b).
  { rewrite <- Z.mul_assoc, <- Z.pow_add_r by (unfold ez; lia).
    replace (eb - ez + (ez + bias)) with (kof b) by (unfold eb; lia).
    exact Eb. }
  pose proof (pow2_pos (ez + bias) ltac:(lia)) as Hp.
  destruct (- (Zpos ma * 2 ^ (ea - ez)) + Zpos mb * 2 ^ (eb - ez))
    as [|d|d] eqn:Ed; cbn [binary_normalize].
  - exists 0. split; [apply okv_0 | now left].
  - rewrite binary_round_spec by assumption.
    assert (Hd : Zpos d * 2 ^ (ez + bias) = b - a) by (rewrite <- Ed; lia).
    rewrite Hd. exists (Rz (b - a)). split; [|now left].
    apply okv_Rz with b; [lia | assumption].
  - rewrite binary_round_opp, binary_round_spec by assumption.
    assert (Hd : Zpos d * 2 ^ (ez + bias) = a - b).
    { replace (Zpos d) with (- Zneg d) by lia. rewrite <- Ed. lia. }
    rewrite Hd. exists (Rz (a - b)). split; [|now right].
    apply okv_Rz with a; [lia | assumption].
Qed.

(** ** Pricing: intervals of no length *)

Lemma price_empty_loop start_local end_local gamepads_mode headsets :
  end_local <= start_local ->
  price_for_interval start_local end_local gamepads_mode headsets
  = price_finish (Py.Int 0) start_local end_local gamepads_mode headsets.
Proof.
  intros H. rewrite price_for_interval_eq, minute_count_0 by assumption.
  reflexivity.
Qed.

Lemma price_not_positive start_local end_local gamepads_mode headsets :
  end_local <= start_local ->
  (gamepads_mode =? "squad")%string = false ->
  price_for_interval start_local end_local gamepads_mode headsets
  = Some (if headsets then 150 else 0).
Proof.
  intros H Hm. rewrite price_empty_loop by assumption.
  unfold price_finish. rewrite Hm. now destruct headsets.
Qed.

Lemma price_not_positive_squad start_local end_local headsets :
  end_local <= start_local -> start_local - end_local <= timedelta_max ->
  exists p,
    price_for_interval start_local end_local "squad" headsets = Some p.
Proof.
  intros H Hmax. rewrite price_empty_loop by assumption.
  unfold price_finish. cbn [String.eqb Ascii.eqb Bool.eqb andb].
  set (mins := (end_local - start_local) / 60).
  assert (Hm : - 2 ^ 53 < mins <= 0).
  { unfold mins, timedelta_max in *. split.
    - apply Z.lt_le_trans with (- 86399999999999 - 1); [vm_compute; reflexivity|].
      apply Z.div_le_lower_bound; lia.
    - apply Z.div_le_upper_bound; lia. }
  destruct (Z.eq_dec mins 0) as [E|NE].
  - rewrite E. destruct headsets; vm_compute; eauto.
  - rewrite squad_rate_w. cbn [Py.mul Py.as_float].
    replace mins with (- (- mins)) by lia.
    rewrite float_of_int_opp by lia.
    destruct (okv_squad (- mins) ltac:(lia)) as (Hsq & Hsok & Hsle).
    rewrite squad_rate_w in Hsq. cbn [Py.mul Py.as_float] in Hsq.
    apply (f_equal Py.as_float) in Hsq. cbn [Py.as_float] in Hsq.
    unfold Py.float_of_int in *.
    rewrite float_of_int_spec in * by lia.
    pose proof (okv_int (- mins) ltac:(lia)) as Hok.
    replace (Rz (- mins * 2 ^ bias)) with (- mins * 2 ^ bias) in *
      by (symmetry; apply Hok).
    pose proof (pow2_pos bias ltac:(unfold bias; lia)) as Hp.
    assert (Hw0 : 0 < w_squad) by (vm_compute; congruence).
    assert (Hm0 : 0 < - mins * 2 ^ bias).
    { apply Z.mul_pos_pos; lia. }
    rewrite (SFmul_opp_r w_squad (- mins * 2 ^ bias) okv_w_squad Hok Hw0 Hm0).
    rewrite Hsq.
    set (sq := Rz (w_squad * - mins)) in *.
    assert (Hsq0 : 0 < sq).
    { assert (Hw : 2 ^ 1074 <= w_squad) by (vm_compute; congruence).
      destruct (okv_pow2 1074 ltac:(lia)) as (_ & HR & _).
      apply Z.lt_le_trans with (2 ^ 1074); [apply pow2_pos; lia|].
      rewrite <- HR. apply Rz_mono; [apply Z.lt_le_incl, pow2_pos; lia|].
      nia. }
    destruct (Z2F_okv sq Hsok Hsq0) as (m & Hf & _).
    assert (Hadd : Py.add (Py.Int 0) (Py.Float (SFopp (Z2F sq)))
                   = Py.Float (SFopp (Z2F sq))).
    { cbn [Py.add Py.as_float]. rewrite Hf. reflexivity. }
    rewrite Hadd. destruct headsets.
    + cbn [Py.add Py.as_float]. rewrite headsets_w.
      destruct (SFadd_opp_l sq w_headsets Hsok okv_w_headsets Hsq0
                  ltac:(vm_compute; congruence)) as (c & Hc & [->| ->]).
      * rewrite int_round0_Z2F by assumption. eauto.
      * rewrite int_round0_opp, int_round0_Z2F by assumption. cbn. eauto.
    + rewrite int_round0_opp, int_round0_Z2F by assumption. cbn. eauto.
Qed.

(** C6, on the code: the interval from 14:00 back to 13:00 is not
    rejected; a price, 0, is returned. *)
Lemma price_reversed_not_rejected :
  on_day 20407 13 0 <= on_day 20407 14 0 /\
  price_for_interval (on_day 20407 14 0) (on_day 20407 13 0) "duo" false
  = Some 0 /\
  price_for_interval (on_day 20407 14 0) (on_day 20407 13 0) "duo" false
  <> None.
Proof.
  split; [vm_compute; congruence|].
  assert (H : price_for_interval (on_day 20407 14 0) (on_day 20407 13 0)
                "duo" false = Some 0) by (vm_compute; reflexivity).
  split; [exact H | rewrite H; discriminate].
Qed.

(** C6, amended. An interval with [end <= start] is not rejected: the loop
    body never runs and a price is returned; without the squad tier it is
    the flat surcharge alone, 150 with the headsets and 0 without. *)
Theorem price_not_positive_interval (start_local end_local : datetime)
  (gamepads_mode : string) (headsets : bool) :
  end_local <= start_local -> start_local - end_local <= timedelta_max ->
  (exists p,
     price_for_interval start_local end_local gamepads_mode headsets
     = Some p) /\
  ((gamepads_mode =? "squad")%string = false ->
   price_for_interval start_local end_local gamepads_mode headsets
   = Some (if headsets then 150 else 0)).
Proof.
  intros H Hmax. split.
  - destruct (gamepads_mode =? "squad")%string eqn:E.
    + apply String.eqb_eq in E. subst gamepads_mode.
      now apply price_not_positive_squad.
    + rewrite price_not_positive by assumption. eauto.
  - intros E. now apply price_not_positive.
Qed.

Lemma price_not_positive_interval_witness :
  (exists p,
     price_for_interval (on_day 20407 14 0) (on_day 20407 13 0) "duo" true
     = Some p) /\
  (("duo" =? "squad")%string = false ->
   price_for_interval (on_day 20407 14 0) (on_day 20407 13 0) "duo" true
   = Some 150).
Proof.
  apply (price_not_positive_interval (on_day 20407 14 0) (on_day 20407 13 0)
           "duo" true).
  - vm_compute. congruence.
  - vm_compute. congruence.
Defined.

(** ** Pricing outside the opening hours *)

Lemma price_total start_local end_local gamepads_mode headsets :
  - timedelta_max <= end_local - start_local <= timedelta_max ->
  exists p,
    price_for_interval start_local end_local gamepads_mode headsets = Some p.
Proof.
  intros H. destruct (Z.lt_ge_cases start_local end_local) as [Hlt|Hge].
  - destruct (price_w start_local end_local gamepads_mode headsets Hlt
                ltac:(lia)) as (Hp & _). eauto.
  - destruct (gamepads_mode =? "squad")%string eqn:E.
    + apply String.eqb_eq in E. subst gamepads_mode.
      apply price_not_positive_squad; lia.
    + rewrite price_not_positive by assumption. eauto.
Qed.

Lemma minute_costs_evening l :
  (forall t, In t l -> in_day_band t = false) ->
  map (spec_minute_cost DAY_RATE EVE_RATE) l
  = repeat (Py.truediv (Py.Int EVE_RATE) (Py.Int 60)) (List.length l).
Proof.
  induction l as [|t l IH]; intros H; cbn [map List.length repeat];
    [reflexivity|].
  rewrite IH by (intros; apply H; now right).
  unfold spec_minute_cost at 1. rewrite (H t) by now left. reflexivity.
Qed.

Lemma minute_starts_length n : forall cur,
  List.length (minute_starts n cur) = n.
Proof. induction n as [|n IH]; intros cur; cbn; auto. Qed.

(** A generated slot starts between 13:00 and 01:50. *)
Lemma slot_start_time date_local duration_min slots s e :
  0 <= duration_min ->
  iter_open_slots date_local duration_min = Some slots ->
  In (s, e) slots ->
  time 13 0 <= time_of s \/ time_of s <= time 1 50.
Proof.
  intros Hd Hs Hin. apply iter_open_slots_some in Hs. subst slots.
  eapply grid_in in Hin;
    [|unfold minutes, SLOT_STEP_MIN; lia|reflexivity].
  destruct (open_close_dt date_local) as (Ho & Hc & _).
  unfold minutes, BUFFER_MIN in Hin. rewrite Hc in Hin.
  unfold time_of, time in *.
  set (o := open_dt date_local) in *.
  pose proof (Z.div_mod o 86400 ltac:(lia)) as Hdm. rewrite Ho in Hdm.
  destruct (Z.lt_ge_cases (s - o) (86400 - 46800)) as [Hlt|Hge].
  - left.
    replace s with ((s - o + 46800) + (o / 86400) * 86400) by lia.
    rewrite Z.mod_add, Z.mod_small by lia. lia.
  - right.
    replace s with ((s - o + 46800 - 86400) + (o / 86400 + 1) * 86400) by lia.
    rewrite Z.mod_add, Z.mod_small by lia. lia.
Qed.

(** *** The pricing loop and the range of [datetime] *)

Lemma price_for_interval_ranged_eq start_local end_local gamepads_mode
  headsets :
  datetime_min <= start_local ->
  (forall c, start_local <= c < end_local ->
             (c - start_local) mod 60 = 0 -> c + 60 <= datetime_max) ->
  price_for_interval_ranged start_local end_local gamepads_mode headsets
  = price_for_interval start_local end_local gamepads_mode headsets.
Proof.
  intros Hmin Hstep. unfold price_for_interval_ranged, price_for_interval.
  rewrite (while_raising_ok
             (fun st : Py.num * datetime =>
                start_local <= snd st /\
                ((snd st - start_local) mod 60 = 0 \/ snd st = end_local))
             _ _ (fun st => snd st <? end_local) (price_step end_local)).
  - reflexivity.
  - reflexivity.
  - intros st [H1 H2] Hc. apply Z.ltb_lt in Hc.
    destruct H2 as [H2|H2]; [|lia].
    unfold price_step_ranged, price_step. cbv zeta.
    rewrite datetime_add_ok
      by (specialize (Hstep (snd st) ltac:(lia) H2); unfold minutes; lia).
    split; [reflexivity|]. cbn [snd]. unfold minutes.
    split; [lia|].
    destruct (Z.min_spec end_local (snd st + 60 * 1)) as [[_ ->]|[_ ->]];
      [now right|left].
    replace (snd st + 60 * 1 - start_local)
      with (snd st - start_local + 1 * 60) by lia.
    now rewrite Z.mod_add by lia.
  - cbn [snd]. split; [lia|]. left. now rewrite Z.sub_diag.
Qed.

(** The sum stays in range for an interval of whole minutes and for one
    that ends 59 seconds or more before [datetime.max]. *)
Lemma price_steps_in_range start_local end_local :
  end_local <= datetime_max ->
  (end_local - start_local) mod 60 = 0 \/ end_local + 59 <= datetime_max ->
  forall c, start_local <= c < end_local ->
            (c - start_local) mod 60 = 0 -> c + 60 <= datetime_max.
Proof.
  intros He [Hw|Hl] c Hc Hm; [|lia].
  assert (H : (end_local - c) mod 60 = 0).
  { replace (end_local - c)
      with ((end_local - start_local) - (c - start_local)) by lia.
    rewrite Zminus_mod, Hw, Hm. reflexivity. }
  apply Z.mod_divide in H; [|lia]. destruct H as [k Hk]. lia.
Qed.

(** In the last minute before [datetime.max] a part-minute starts whose
    end is not a datetime: the code raises where the loop on unbounded time
    gives a price. *)
Lemma price_last_minute_raises :
  price_for_interval_ranged (datetime_max - 30) datetime_max "duo" false
  = None /\
  price_for_interval (datetime_max - 30) datetime_max "duo" false = Some 8.
Proof. vm_compute. split; reflexivity. Qed.

(** The generator on 2025-11-15 with a duration of -490 minutes, which
    [duration_chosen] takes from the data [dur:-490]: the last of its 22
    slots starts at 10:00 on the following day. *)
Lemma slot_at_ten_generated :
  exists slots e,
    iter_open_slots (on_day 20407 0 0) (-490) = Some slots /\
    List.length slots = 22%nat /\
    In (on_day 20408 10 0, e) slots /\
    time_of (on_day 20408 10 0) = time 10 0.
Proof.
  eexists _, _. split; [vm_compute; reflexivity|].
  split; [reflexivity|]. split; [|reflexivity].
  cbn [In]. repeat (first [left; reflexivity | right]).
Qed.

(** C10. The pricing function, with the range of [datetime] and without
    it, returns a price for every pair of datetimes, in either order and
    whatever the times of day, for which the loop's [cur + 1 minute] stays
    in the range of [datetime]: every interval of whole minutes, and every
    interval that ends 59 seconds or more before [datetime.max].  A minute that begins outside [13:00,
    18:00) is charged at the evening rate, 500 per hour: an interval all
    of whose minutes begin outside the day band costs its number of
    minutes times [500/60], summed and rounded once.  So 10:00-11:00 costs
    500, although the slot generator, for a duration that is not negative,
    only yields slots that start between 13:00 and 01:50. *)
Theorem price_outside_opening_hours :
  (forall start_local end_local gamepads_mode headsets,
     datetime_min <= start_local <= datetime_max ->
     datetime_min <= end_local <= datetime_max ->
     (end_local - start_local) mod 60 = 0 \/
     end_local + 59 <= datetime_max ->
     exists p,
       price_for_interval_ranged start_local end_local gamepads_mode
         headsets = Some p /\
       price_for_interval start_local end_local gamepads_mode headsets
       = Some p) /\
  EVE_RATE = 500 /\
  (forall cur,
     ~ (time 13 0 <= time_of cur < time 18 0) -> rate_at cur = EVE_RATE) /\
  (forall start_local end_local,
     (forall t,
        In t (minute_starts (minute_count start_local end_local) start_local)
        -> ~ (time 13 0 <= time_of t < time 18 0)) ->
     price_for_interval start_local end_local "duo" false
     = Py.int (Py.round0 (spec_sum
         (repeat (Py.truediv (Py.Int EVE_RATE) (Py.Int 60))
            (minute_count start_local end_local))))) /\
  (forall day,
     price_for_interval (on_day day 10 0) (on_day day 11 0) "duo" false
     = Some 500) /\
  (forall date_local duration_min slots s e,
     0 <= duration_min ->
     iter_open_slots date_local duration_min = Some slots ->
     In (s, e) slots ->
     time_of s <> time 10 0).
Proof.
  assert (Hband : forall t,
    ~ (time 13 0 <= time_of t < time 18 0) -> in_day_band t = false).
  { intros t H. unfold in_day_band, time_of in *.
    destruct (Z.leb_spec (time 13 0) (t mod 86400));
      destruct (Z.ltb_spec (t mod 86400) (time 18 0)); cbn; try reflexivity.
    lia. }
  split; [|split; [reflexivity|]].
  { intros start_local end_local gamepads_mode headsets Hs He Hw.
    rewrite price_for_interval_ranged_eq
      by (try apply price_steps_in_range; tauto).
    destruct (price_total start_local end_local gamepads_mode headsets)
      as [p Hp]; [|eauto].
    unfold timedelta_max, datetime_min, datetime_max in *. lia. }
  split; [|split; [|split]].
  - intros cur H. unfold rate_at.
    specialize (Hband cur H). unfold in_day_band, time_of in *.
    now rewrite Hband.
  - intros st en H. rewrite price_for_interval_eq.
    rewrite minute_costs_evening by (intros t Ht; apply Hband, H, Ht).
    rewrite minute_starts_length.
    unfold price_finish. cbn [String.eqb Ascii.eqb Bool.eqb andb].
    reflexivity.
  - intros day. rewrite price_on_day. vm_compute. reflexivity.
  - intros date_local duration_min slots s e Hd Hs Hin.
    destruct (slot_start_time _ _ _ _ _ Hd Hs Hin) as [H|H];
      unfold time in *; lia.
Qed.

Lemma price_outside_opening_hours_witness :
  exists p,
    price_for_interval_ranged (on_day 20407 3 0) (on_day 20407 12 30)
      "squad" true = Some p /\
    price_for_interval (on_day 20407 3 0) (on_day 20407 12 30) "squad" true
    = Some p.
Proof.
  apply (proj1 price_outside_opening_hours).
  - vm_compute. split; congruence.
  - vm_compute. split; congruence.
  - left. reflexivity.
Defined.

(** * Further properties of the handlers *)

(** ** No double booking *)

Lemma intervals_overlap_sym a1 a2 b1 b2 :
  intervals_overlap a1 a2 b1 b2 -> intervals_overlap b1 b2 a1 a2.
Proof. unfold intervals_overlap. lia. Qed.

Lemma rows_clash_sym a b : rows_clash a b -> rows_clash b a.
Proof.
  intros (Ha & Hb & Ho). repeat split; try assumption.
  now apply intervals_overlap_sym.
Qed.

Lemma ForallOrdPairs_snoc {A} (R : A -> A -> Prop) l x :
  ForallOrdPairs R l -> Forall (fun a => R a x) l ->
  ForallOrdPairs R (l ++ [x]).
Proof.
  induction 1 as [|a l Ha Hl IH]; intros Hx; cbn [app].
  - constructor; constructor.
  - inversion Hx as [|? ? Hax Hlx]; subst. constructor.
    + apply Forall_app. split; [assumption|]. now constructor.
    + now apply IH.
Qed.

Lemma ForallOrdPairs_map {A} (R : A -> A -> Prop) (f : A -> A) l :
  (forall a b, R a b -> R (f a) (f b)) ->
  ForallOrdPairs R l -> ForallOrdPairs R (map f l).
Proof.
  intros Hf. induction 1 as [|a l Ha Hl IH]; cbn [map]; constructor.
  - apply Forall_map. eapply Forall_impl; [|exact Ha]. intros b. apply Hf.
  - exact IH.
Qed.

Lemma ForallOrdPairs_nth {A} (R : A -> A -> Prop) l :
  ForallOrdPairs R l ->
  forall i j a b, (i < j)%nat ->
    nth_error l i = Some a -> nth_error l j = Some b -> R a b.
Proof.
  induction 1 as [|x l Hx Hl IH]; intros i j a b Hij Hi Hj.
  - destruct i; discriminate.
  - destruct j as [|j]; [lia|]. cbn [nth_error] in Hj.
    destruct i as [|i]; cbn [nth_error] in Hi.
    + injection Hi as <-. rewrite Forall_forall in Hx.
      apply Hx. eapply nth_error_In, Hj.
    + apply (IH i j); [lia | assumption | assumption].
Qed.

(** A row written after a check without conflict clashes with no row. *)
Lemma no_clash_after_check conn s e r :
  overlaps conn s e = false ->
  bookings.start_ts r = s -> bookings.end_ts r <= e ->
  Forall (fun a => ~ rows_clash a r) conn.
Proof.
  intros Ho Hs He. apply Forall_forall. intros a Hin (Ha & _ & Hov).
  assert (overlaps conn s e = true); [|congruence].
  apply overlaps_iff. exists a. repeat split; try assumption.
  unfold intervals_overlap in *. lia.
Qed.

Lemma no_double_booking_step tz admins conn conn' :
  booking_step tz admins conn conn' ->
  no_double_booking conn -> no_double_booking conn'.
Proof.
  intros Hstep Hinv. destruct Hstep as [now_ts conn draft user_id username phone conn' st H|now_ts conn user_id d dur|conn user_id bid].
  - apply enter_phone_cases in H
      as (s & _ & [(_ & -> & _)|(Hc & _ & r & -> & H1 & H2 & _)]);
      [assumption|].
    apply ForallOrdPairs_snoc; [assumption|].
    unfold commit_check in Hc.
    eapply no_clash_after_check; [exact Hc | exact H1 |].
    rewrite H2. unfold timestamp, to_utc, minutes, BUFFER_MIN. lia.
  - destruct (admin_block_cases tz now_ts admins conn user_id d dur)
      as [->|(r & -> & Ho & H1 & H2 & _)]; [assumption|].
    apply ForallOrdPairs_snoc; [assumption|].
    eapply no_clash_after_check; [exact Ho | exact H1 | rewrite H2; reflexivity].
  - unfold admin_cancel. destruct (negb _); [assumption|].
    apply ForallOrdPairs_map; [|assumption].
    intros a b Hab (Ha & Hb & Hov). apply Hab.
    destruct (bookings.id a =? bid), (bookings.id b =? bid);
      cbn in Ha, Hb, Hov; try discriminate.
    repeat split; assumption.
Qed.

Lemma reachable_invariant tz admins conn :
  reachable tz admins conn -> no_double_booking conn.
Proof.
  induction 1 as [|conn conn' _ IH Hstep]; [constructor|].
  eapply no_double_booking_step; eassumption.
Qed.

(** X1. In every table that [enter_phone], [admin_block] and
    [admin_cancel] can build from the empty table, no two rows that occupy
    time have overlapping stored intervals: no instant is held by two
    reservations. *)
Theorem reachable_no_double_booking (tz : Z) (admins : list Z)
  (conn : connection) :
  reachable tz admins conn ->
  no_double_booking conn /\
  (forall i j a b t,
     i <> j ->
     nth_error conn i = Some a -> nth_error conn j = Some b ->
     holds_instant a t -> holds_instant b t -> False).
Proof.
  intros Hr.
  pose proof (reachable_invariant tz admins conn Hr) as Hinv.
  split; [exact Hinv|].
  intros i j a b t Hij Hi Hj (Ha & Hta) (Hb & Htb).
  assert (Hclash : rows_clash a b).
  { repeat split; try assumption. unfold intervals_overlap. lia. }
  destruct (Nat.lt_total i j) as [Hlt|[Heq|Hgt]]; [|lia|].
  - exact (ForallOrdPairs_nth _ _ Hinv i j a b Hlt Hi Hj Hclash).
  - exact (ForallOrdPairs_nth _ _ Hinv j i b a Hgt Hj Hi
             (rows_clash_sym _ _ Hclash)).
Qed.

Lemma reachable_no_double_booking_witness :
  no_double_booking two_bookings /\
  (forall i j a b t,
     i <> j ->
     nth_error two_bookings i = Some a -> nth_error two_bookings j = Some b ->
     holds_instant a t -> holds_instant b t -> False).
Proof.
  apply (reachable_no_double_booking 10800 [1] two_bookings).
  apply reachable_step with one_booking.
  - apply reachable_step with []; [apply reachable_empty|].
    apply step_enter_phone with 0
      (draft_of (on_day 20407 13 0) 60 "duo" false) 7 None "1"%string END.
    vm_compute. reflexivity.
  - apply step_enter_phone with 0
      (draft_of (on_day 20407 15 0) 90 "squad" true) 8 None "2"%string END.
    vm_compute. reflexivity.
Defined.

(** X2. [admin_confirm] does not keep that invariant: it sets the status
    whatever the row's status was.  Booking 13:00-14:00, cancelling it,
    booking 13:00-14:00 again and then confirming the cancelled booking
    leaves two reservations that occupy the same hour. *)
Theorem admin_confirm_revives_cancelled :
  reachable 10800 [1] rebooked_after_cancel /\
  no_double_booking rebooked_after_cancel /\
  ~ no_double_booking (admin_confirm [1] rebooked_after_cancel 1 1) /\
  exists a b,
    admin_confirm [1] rebooked_after_cancel 1 1 = [a; b] /\
    holds_instant a (timestamp (to_utc 10800 (on_day 20407 13 30))) /\
    holds_instant b (timestamp (to_utc 10800 (on_day 20407 13 30))).
Proof.
  assert (Hr : reachable 10800 [1] rebooked_after_cancel).
  { apply reachable_step with (admin_cancel [1] one_booking 1 1).
    - apply reachable_step with one_booking.
      + apply reachable_step with []; [apply reachable_empty|].
        apply step_enter_phone with 0
          (draft_of (on_day 20407 13 0) 60 "duo" false) 7 None "1"%string END.
        vm_compute. reflexivity.
      + apply step_admin_cancel.
    - apply step_enter_phone with 0
        (draft_of (on_day 20407 13 0) 60 "duo" false) 8 None "2"%string END.
      vm_compute. reflexivity. }
  assert (Hab : exists a b,
    admin_confirm [1] rebooked_after_cancel 1 1 = [a; b] /\
    holds_instant a (timestamp (to_utc 10800 (on_day 20407 13 30))) /\
    holds_instant b (timestamp (to_utc 10800 (on_day 20407 13 30)))).
  { do 2 eexists. split; [vm_compute; reflexivity|].
    split; (split; [reflexivity | vm_compute; split; congruence]). }
  split; [exact Hr|]. split; [|split; [|exact Hab]].
  - exact (reachable_invariant _ _ _ Hr).
  - destruct Hab as (a & b & -> & (Ha & Hta) & (Hb & Htb)).
    intros H. inversion H as [|? ? Hfa _]; subst.
    inversion Hfa as [|? ? Hno _]; subst. apply Hno.
    repeat split; try assumption. unfold intervals_overlap. lia.
Qed.

(** ** Booking, cancelling and booking again *)

Lemma id_below_next conn a : In a conn -> bookings.id a < next_id conn.
Proof.
  unfold next_id. induction conn as [|x conn IH]; intros Hin; [easy|].
  cbn [map fold_right]. destruct Hin as [->|Hin]; [lia|].
  specialize (IH Hin). lia.
Qed.

Lemma update_status_fresh st bid conn :
  (forall a, In a conn -> bookings.id a <> bid) ->
  update_status st bid conn = conn.
Proof.
  intros H. unfold update_status. induction conn as [|x conn IH]; [reflexivity|].
  cbn [map]. rewrite IH by (intros; apply H; now right).
  destruct (Z.eqb_spec (bookings.id x) bid) as [E|_]; [|reflexivity].
  exfalso. apply (H x); [now left | exact E].
Qed.

Lemma overlaps_app c1 c2 s e :
  overlaps (c1 ++ c2) s e = overlaps c1 s e || overlaps c2 s e.
Proof. unfold overlaps. apply existsb_app. Qed.

(** What a successful [enter_phone] appends. *)
Lemma enter_phone_booked tz now_ts conn draft user_id username phone conn' :
  enter_phone tz now_ts conn draft user_id username phone = Some (conn', END) ->
  exists start_local price r,
    BookingDraft.start_dt draft = Some start_local /\
    commit_check tz conn start_local (BookingDraft.duration_min draft) = false /\
    price_for_interval start_local
      (start_local + minutes (BookingDraft.duration_min draft))
      (BookingDraft.gamepads_mode draft) (BookingDraft.headsets draft)
    = Some price /\
    conn' = conn ++ [r] /\
    bookings.id r = next_id conn /\
    bookings.user_id r = user_id /\
    bookings.start_ts r = timestamp (to_utc tz start_local) /\
    bookings.end_ts r
    = timestamp (to_utc tz
        (start_local + minutes (BookingDraft.duration_min draft))) /\
    bookings.price_total r = price /\
    bookings.status r = "pending"%string.
Proof.
  unfold enter_phone. intros H.
  destruct (BookingDraft.start_dt draft) as [start_local|]; [|discriminate].
  destruct (commit_check tz conn start_local _) eqn:Hc.
  { destruct (BookingDraft.date draft) as [date|]; [|discriminate].
    destruct (iter_open_slots date _); discriminate. }
  destruct (price_for_interval _ _ _ _) as [price|] eqn:Hp; [|discriminate].
  injection H as <-. exists start_local, price. eexists.
  repeat split; first [assumption | reflexivity].
Qed.


(** [time_kb] returns exactly when [iter_open_slots] does. *)
Lemma time_kb_returns_iff now_sec now_usec date_local duration_min :
  (exists kb, time_kb now_sec now_usec date_local duration_min = Some kb) <->
  (exists slots, iter_open_slots date_local duration_min = Some slots).
Proof.
  unfold time_kb.
  destruct (iter_open_slots date_local duration_min) as [slots|].
  - split; [eauto|]. intros _. cbv zeta.
    match goal with
    | |- exists kb, match ?x with _ => _ end = _ => destruct x
    end; eauto.
  - split; intros [x H]; discriminate H.
Qed.

(** X3. Once an admin has cancelled a booking that [enter_phone] has just
    stored, the same draft can be booked again: the cancelled row no longer
    stands in the way, and the second booking is stored after it. *)
Theorem cancel_frees_the_slot (tz now_ts now_ts' : Z) (admins : list Z)
  (conn conn' : connection) (draft : BookingDraft.t)
  (user_id admin_id user_id' : Z) (username username' : option string)
  (phone phone' : string) :
  enter_phone tz now_ts conn draft user_id username phone
  = Some (conn', END) ->
  existsb (Z.eqb admin_id) admins = true ->
  let cancelled := admin_cancel admins conn' admin_id (next_id conn) in
  exists r r',
    conn' = conn ++ [r] /\
    cancelled = conn ++ [with_status r "cancelled"] /\
    enter_phone tz now_ts' cancelled draft user_id' username' phone'
    = Some (cancelled ++ [r'], END) /\
    bookings.start_ts r' = bookings.start_ts r /\
    bookings.end_ts r' = bookings.end_ts r /\
    bookings.price_total r' = bookings.price_total r.
Proof.
  intros H Hadmin cancelled.
  destruct (enter_phone_booked _ _ _ _ _ _ _ _ H)
    as (s & price & r & Hs & Hc & Hp & -> & Hid & _ & Hst & Hen & Hpr & _).
  assert (Hcan : cancelled = conn ++ [with_status r "cancelled"]).
  { unfold cancelled, admin_cancel. rewrite Hadmin. cbn [negb].
    unfold update_status. rewrite map_app.
    fold (update_status "cancelled" (next_id conn) conn).
    rewrite update_status_fresh
      by (intros a Ha; pose proof (id_below_next conn a Ha); lia).
    cbn [map]. now rewrite Hid, Z.eqb_refl. }
  assert (Hc' : commit_check tz cancelled s (BookingDraft.duration_min draft)
                = false).
  { unfold commit_check in *. rewrite Hcan, overlaps_app, Hc. reflexivity. }
  exists r. eexists. split; [reflexivity|]. split; [exact Hcan|].
  unfold enter_phone. rewrite Hs, Hc', Hp.
  split; [reflexivity|]. cbn. rewrite Hst, Hen, Hpr. auto.
Qed.

Lemma cancel_frees_the_slot_witness :
  let cancelled := admin_cancel [1] one_booking 1 (next_id []) in
  exists r r',
    one_booking = [] ++ [r] /\
    cancelled = [] ++ [with_status r "cancelled"] /\
    enter_phone 10800 5 cancelled
      (draft_of (on_day 20407 13 0) 60 "duo" false) 8 None "2"
    = Some (cancelled ++ [r'], END) /\
    bookings.start_ts r' = bookings.start_ts r /\
    bookings.end_ts r' = bookings.end_ts r /\
    bookings.price_total r' = bookings.price_total r.
Proof.
  apply (cancel_frees_the_slot 10800 0 5 [1] [] one_booking
           (draft_of (on_day 20407 13 0) 60 "duo" false)
           7 1 8 None None "1"%string "2"%string).
  - vm_compute. reflexivity.
  - reflexivity.
Defined.



(** ** Blocks and the buffer *)

Lemma overlaps_mono conn s e e' :
  e <= e' -> overlaps conn s e = true -> overlaps conn s e' = true.
Proof.
  intros He H. apply overlaps_iff in H as (r & Hin & Hst & Hov).
  apply overlaps_iff. exists r. repeat split; try assumption.
  unfold intervals_overlap in *. lia.
Qed.

(** X5. [admin_block] checks the interval without the buffer: an admin can
    block every interval that [enter_phone] would accept as a booking, and
    also intervals it would refuse, such as 13:00-14:00 right before a
    reservation that starts at 14:00. *)
Theorem admin_block_ignores_buffer (tz now_ts : Z) (admins : list Z)
  (user_id : Z) :
  existsb (Z.eqb user_id) admins = true ->
  (forall conn d dur,
     commit_check tz conn d dur = false ->
     exists r,
       admin_block tz now_ts admins conn user_id d dur = conn ++ [r] /\
       bookings.status r = "blocked"%string) /\
  (forall day st,
     let conn := [stored tz (on_day day 14 0) 60 st] in
     status_occupies st = true ->
     commit_check tz conn (on_day day 13 0) 60 = true /\
     exists r,
       admin_block tz now_ts admins conn user_id (on_day day 13 0) 60
       = conn ++ [r] /\
       bookings.end_ts r = bookings.start_ts (stored tz (on_day day 14 0) 60 st)).
Proof.
  intros Hadmin. split.
  - intros conn d dur Hc. unfold admin_block. rewrite Hadmin. cbn [negb].
    destruct (overlaps conn (to_utc tz d) (to_utc tz (d + minutes dur)))
      eqn:Ho.
    + unfold commit_check in Hc.
      rewrite (overlaps_mono conn (to_utc tz d) (to_utc tz (d + minutes dur))
                 (to_utc tz (d + minutes (dur + BUFFER_MIN))))
        in Hc; [discriminate| |exact Ho].
      unfold to_utc, minutes, BUFFER_MIN. lia.
    + eexists. split; reflexivity.
  - intros day st conn Hst. split.
    + unfold commit_check. apply overlaps_iff. exists (stored tz (on_day day 14 0) 60 st).
      split; [now left|]. split; [exact Hst|].
      unfold intervals_overlap, stored, timestamp, to_utc, on_day, minutes,
        time, BUFFER_MIN; cbn. lia.
    + unfold admin_block. rewrite Hadmin. cbn [negb].
      replace (overlaps conn (to_utc tz (on_day day 13 0))
                 (to_utc tz (on_day day 13 0 + minutes 60))) with false.
      * eexists. split; [reflexivity|].
        unfold stored, timestamp, to_utc, on_day, minutes, time; cbn. lia.
      * symmetry. unfold conn, overlaps, stored, timestamp, to_utc.
        cbn [existsb bookings.status bookings.end_ts bookings.start_ts].
        rewrite orb_false_r.
        replace (on_day day 14 0 - tz >=? on_day day 13 0 + minutes 60 - tz)
          with true
          by (symmetry; rewrite Z.geb_leb; apply Z.leb_le;
              unfold on_day, minutes, time; lia).
        rewrite orb_true_r. apply andb_false_r.
Qed.

Lemma admin_block_ignores_buffer_witness :
  commit_check 10800 [stored 10800 (on_day 20407 14 0) 60 "pending"]
    (on_day 20407 13 0) 60 = true /\
  exists r,
    admin_block 10800 0 [1] [stored 10800 (on_day 20407 14 0) 60 "pending"]
      1 (on_day 20407 13 0) 60
    = [stored 10800 (on_day 20407 14 0) 60 "pending"] ++ [r] /\
    bookings.end_ts r
    = bookings.start_ts (stored 10800 (on_day 20407 14 0) 60 "pending").
Proof.
  apply (proj2 (admin_block_ignores_buffer 10800 0 [1] 1 eq_refl)
           20407 "pending"%string).
  reflexivity.
Defined.

(** ** Further properties of the prices *)

(** X6. The price depends on the times of day only: moving both ends of
    an interval by whole days does not change it. *)
Theorem price_independent_of_date (k : Z) (start_local end_local : datetime)
  (gamepads_mode : string) (headsets : bool) :
  price_for_interval (start_local + days k) (end_local + days k)
    gamepads_mode headsets
  = price_for_interval start_local end_local gamepads_mode headsets.
Proof. apply price_shift_days. Qed.

Lemma minute_count_minutes start_local n :
  minute_count start_local (start_local + minutes (Z.of_nat n)) = n.
Proof.
  unfold minute_count, minutes.
  replace (start_local + 60 * Z.of_nat n - start_local + 59)
    with (59 + Z.of_nat n * 60) by lia.
  rewrite Z.div_add by lia. change (59 / 60) with 0. lia.
Qed.

(** X7. A minute that has begun is charged in full: without the squad
    tier, an interval costs what the interval rounded up to whole minutes
    costs; one second costs the same as one minute. *)
Theorem started_minute_is_charged (start_local end_local : datetime)
  (gamepads_mode : string) (headsets : bool) :
  (gamepads_mode =? "squad")%string = false ->
  price_for_interval start_local end_local gamepads_mode headsets
  = price_for_interval start_local
      (start_local + minutes ((end_local - start_local + 59) / 60))
      gamepads_mode headsets.
Proof.
  intros Hm. rewrite !price_for_interval_eq. unfold price_finish. rewrite Hm.
  destruct (Z.le_gt_cases ((end_local - start_local + 59) / 60) 0) as [Hle|Hgt].
  - assert (H0 : minute_count start_local end_local = O)
      by (unfold minute_count; lia).
    rewrite H0, minute_count_0 by (unfold minutes; lia). reflexivity.
  - replace ((end_local - start_local + 59) / 60)
      with (Z.of_nat (minute_count start_local end_local))
      by (unfold minute_count; lia).
    now rewrite minute_count_minutes.
Qed.

Lemma started_minute_is_charged_witness :
  price_for_interval (on_day 20407 13 0) (on_day 20407 13 0 + 1) "duo" false
  = price_for_interval (on_day 20407 13 0)
      (on_day 20407 13 0
       + minutes ((on_day 20407 13 0 + 1 - on_day 20407 13 0 + 59) / 60))
      "duo" false.
Proof.
  apply (started_minute_is_charged (on_day 20407 13 0)
           (on_day 20407 13 0 + 1) "duo" false).
  reflexivity.
Defined.

(** *** The bands of consecutive minutes *)

Lemma minute_starts_seq n : forall t,
  minute_starts n t = map (fun i => t + 60 * Z.of_nat i) (seq 0 n).
Proof.
  induction n as [|n IH]; intros t; [reflexivity|].
  cbn [minute_starts seq map]. rewrite IH, <- seq_shift, map_map.
  f_equal; [lia|]. apply map_ext. intros i. unfold minutes. lia.
Qed.

Lemma in_day_band_linear t i :
  0 <= i < 120 ->
  in_day_band (t + 60 * i)
  = (46800 <=? t mod 86400 + 60 * i) && (t mod 86400 + 60 * i <? 64800).
Proof.
  intros Hi. unfold in_day_band, time.
  pose proof (Z.mod_pos_bound t 86400 ltac:(lia)) as Hx.
  rewrite <- Zplus_mod_idemp_l.
  set (x := t mod 86400) in *.
  destruct (Z.lt_ge_cases (x + 60 * i) 86400) as [Hlt|Hge].
  - rewrite Z.mod_small by lia. reflexivity.
  - replace (x + 60 * i) with ((x + 60 * i - 86400) + 1 * 86400) at 1 2 by lia.
    rewrite Z.mod_add, Z.mod_small by lia.
    replace (3600 * 13 + 60 * 0 <=? x + 60 * i - 86400) with false
      by (symmetry; apply Z.leb_gt; lia).
    replace (x + 60 * i <? 64800) with false
      by (symmetry; apply Z.ltb_ge; lia).
    now rewrite andb_false_r.
Qed.

Lemma map_constant {A} (p : A -> bool) b l :
  (forall x, In x l -> p x = b) -> map p l = repeat b (List.length l).
Proof.
  induction l as [|x l IH]; intros H; [reflexivity|].
  cbn [map List.length repeat]. rewrite (H x) by now left.
  f_equal. apply IH. intros y Hy. apply H. now right.
Qed.

(** A predicate that stays at [b] once it has reached it. *)
Lemma switch_once (p : nat -> bool) b n :
  (forall i, p i = b -> p (S i) = b) ->
  exists a, (a <= n)%nat /\
    map p (seq 0 n) = repeat (negb b) a ++ repeat b (n - a).
Proof.
  intros Hmono.
  assert (Hs : exists a, (a <= n)%nat /\
            (forall i, (i < a)%nat -> p i = negb b) /\
            (forall i, (a <= i < n)%nat -> p i = b)).
  { induction n as [|n (a & Ha & Hlo & Hhi)].
    - exists O. repeat split; lia.
    - destruct (Nat.eq_dec a n) as [->|Hne].
      + destruct (bool_dec (p n) b) as [E|NE].
        * exists n. repeat split; [lia | assumption|].
          intros i Hi. replace i with n by lia. exact E.
        * exists (S n). repeat split; [lia| |lia].
          intros i Hi. destruct (Nat.eq_dec i n) as [->|]; [|apply Hlo; lia].
          destruct (p n), b; cbn; congruence.
      + exists a. repeat split; [lia | assumption|].
        intros i Hi. destruct (Nat.eq_dec i n) as [->|]; [|apply Hhi; lia].
        replace n with (S (n - 1)) by lia. apply Hmono, Hhi. lia. }
  destruct Hs as (a & Ha & Hlo & Hhi). exists a. split; [exact Ha|].
  replace n with (a + (n - a))%nat at 1 by lia.
  rewrite seq_app, map_app.
  rewrite (map_constant p (negb b) (seq 0 a)), (map_constant p b (seq (0 + a) (n - a))).
  - now rewrite !length_seq.
  - intros i Hi. apply in_seq in Hi. apply Hhi. lia.
  - intros i Hi. apply in_seq in Hi. apply Hlo. lia.
Qed.

(** Up to 120 consecutive minutes change band at most once. *)
Lemma bands_switch_once n t :
  (n <= 120)%nat ->
  exists a, (a <= n)%nat /\
    (map in_day_band (minute_starts n t)
     = repeat false a ++ repeat true (n - a) \/
     map in_day_band (minute_starts n t)
     = repeat true a ++ repeat false (n - a)).
Proof.
  intros Hn. rewrite minute_starts_seq, map_map.
  pose proof (Z.mod_pos_bound t 86400 ltac:(lia)) as Hx.
  set (x := t mod 86400) in *.
  set (p := fun i : nat =>
    (46800 <=? x + 60 * Z.of_nat i) && (x + 60 * Z.of_nat i <? 64800)).
  assert (Hp : map (fun i => in_day_band (t + 60 * Z.of_nat i)) (seq 0 n)
               = map p (seq 0 n)).
  { apply map_ext_in. intros i Hi. apply in_seq in Hi.
    unfold p, x. apply in_day_band_linear. lia. }
  rewrite Hp.
  destruct (Z.lt_ge_cases x 46800) as [Hlt|Hge].
  - (* the day band may begin *)
    set (q := fun i : nat => 46800 <=? x + 60 * Z.of_nat i).
    assert (Hq : map p (seq 0 n) = map q (seq 0 n)).
    { apply map_ext_in. intros i Hi. apply in_seq in Hi. unfold p, q.
      replace (x + 60 * Z.of_nat i <? 64800) with true
        by (symmetry; apply Z.ltb_lt; lia).
      apply andb_true_r. }
    rewrite Hq.
    destruct (switch_once q true n) as (a & Ha & E).
    + intros i. unfold q. rewrite !Z.leb_le. lia.
    + exists a. split; [exact Ha|]. left. exact E.
  - (* the day band may end *)
    set (q := fun i : nat => x + 60 * Z.of_nat i <? 64800).
    assert (Hq : map p (seq 0 n) = map q (seq 0 n)).
    { apply map_ext_in. intros i Hi. unfold p, q.
      replace (46800 <=? x + 60 * Z.of_nat i) with true
        by (symmetry; apply Z.leb_le; lia).
      reflexivity. }
    rewrite Hq.
    destruct (switch_once q false n) as (a & Ha & E).
    + intros i. unfold q. rewrite !Z.ltb_ge. lia.
    + exists a. split; [exact Ha|]. right. exact E.
Qed.

Lemma count_true_repeat a b :
  List.length (filter (fun x : bool => x) (repeat false a ++ repeat true b)) = b
  /\
  List.length (filter (fun x : bool => x) (repeat true a ++ repeat false b)) = a.
Proof.
  split.
  - induction a as [|a IH]; cbn [repeat app filter]; [|exact IH].
    induction b as [|b IH]; cbn [repeat filter List.length]; congruence.
  - induction a as [|a IH]; cbn [repeat app filter List.length];
      [|now rewrite IH].
    induction b as [|b IH]; cbn [repeat filter]; [reflexivity | exact IH].
Qed.

Lemma day_minutes_bands n t :
  day_minutes n t
  = Z.of_nat (List.length (filter (fun x : bool => x)
                             (map in_day_band (minute_starts n t)))).
Proof.
  unfold day_minutes. f_equal.
  induction (minute_starts n t) as [|x l IH]; [reflexivity|].
  cbn [map filter]. destruct (in_day_band x); cbn [List.length]; congruence.
Qed.

Lemma price_by_bands start_local n gamepads_mode headsets :
  price_for_interval start_local (start_local + minutes (Z.of_nat n))
    gamepads_mode headsets
  = bands_price (Z.of_nat n) (map in_day_band (minute_starts n start_local))
      (gamepads_mode =? "squad")%string headsets.
Proof.
  rewrite price_for_interval_eq, minute_count_minutes.
  unfold bands_price, price_finish. rewrite map_map.
  replace (start_local + minutes (Z.of_nat n) - start_local)
    with (minutes (Z.of_nat n) - 0) by lia.
  destruct (gamepads_mode =? "squad")%string; reflexivity.
Qed.

Lemma bands_exact_price n bands day squad headsets :
  bands_exact n bands day = true ->
  bands_price (Z.of_nat n) bands squad headsets
  = Some (exact_price (Z.of_nat n) (Z.of_nat day) squad headsets).
Proof.
  unfold bands_exact, bands_price. cbn zeta. intros H.
  rewrite forallb_forall in H.
  specialize (H squad ltac:(destruct squad; cbn; auto)).
  rewrite forallb_forall in H.
  specialize (H headsets ltac:(destruct headsets; cbn; auto)).
  destruct (price_finish _ _ _ _ _) as [p|]; [|discriminate].
  apply Z.eqb_eq in H. now rewrite H.
Qed.

Lemma offered_exact_60 : offered_exact 60 = true.
Proof. vm_compute. reflexivity. Qed.

Lemma offered_exact_90 : offered_exact 90 = true.
Proof. vm_compute. reflexivity. Qed.

Lemma offered_exact_120 : offered_exact 120 = true.
Proof. vm_compute. reflexivity. Qed.

Lemma offered_exact_price n start_local gamepads_mode headsets :
  (n <= 120)%nat -> offered_exact n = true ->
  price_for_interval start_local (start_local + minutes (Z.of_nat n))
    gamepads_mode headsets
  = Some (exact_price (Z.of_nat n) (day_minutes n start_local)
            (gamepads_mode =? "squad")%string headsets).
Proof.
  intros Hn Hex. rewrite price_by_bands, day_minutes_bands.
  unfold offered_exact in Hex. rewrite forallb_forall in Hex.
  destruct (bands_switch_once n start_local Hn) as (a & Ha & [E|E]);
    rewrite E;
    specialize (Hex a ltac:(apply in_seq; lia));
    apply andb_true_iff in Hex as [H1 H2];
    destruct (count_true_repeat a (n - a)) as [C1 C2].
  - rewrite C1. now apply bands_exact_price.
  - rewrite C2. now apply bands_exact_price.
Qed.

(** X8. For the three durations the bot offers, 60, 90 and 120 minutes,
    from any start and with any options, the price computed with floats is
    the exact one: the blend of 400 and 500 per hour over the minutes in
    and out of the day band, rounded once to the nearest integer, plus 100
    per hour for the squad tier and 150 for the headsets. *)
Theorem offered_durations_exact_price (n : nat) (start_local : datetime)
  (gamepads_mode : string) (headsets : bool) :
  In n [60; 90; 120]%nat ->
  price_for_interval start_local (start_local + minutes (Z.of_nat n))
    gamepads_mode headsets
  = Some (exact_price (Z.of_nat n) (day_minutes n start_local)
            (gamepads_mode =? "squad")%string headsets).
Proof.
  intros [<-|[<-|[<-|[]]]].
  - apply offered_exact_price; [lia | exact offered_exact_60].
  - apply offered_exact_price; [lia | exact offered_exact_90].
  - apply offered_exact_price; [lia | exact offered_exact_120].
Qed.

Lemma offered_durations_exact_price_witness :
  price_for_interval (on_day 20407 17 0)
    (on_day 20407 17 0 + minutes (Z.of_nat 90)) "squad" true
  = Some (exact_price (Z.of_nat 90) (day_minutes 90 (on_day 20407 17 0))
            ("squad" =? "squad")%string true).
Proof.
  apply (offered_durations_exact_price 90 (on_day 20407 17 0) "squad" true).
  cbn. auto.
Defined.

(** ** Further properties of the slot generator *)

Lemma grid_complete n : forall cur step dur k,
  (k < n)%nat ->
  In (cur + step * Z.of_nat k, cur + step * Z.of_nat k + dur)
    (grid n cur step dur).
Proof.
  intros cur step dur k Hk. eapply nth_error_In. now apply grid_nth.
Qed.

(** X9. The slot generator leaves out no start of the grid that fits.
    For a day whose following day is a date and a duration that is not
    negative and with which the opening instant, the duration and the
    buffer stay in the range of [datetime], it returns a list; every
    instant a whole number of steps after the opening, for which the
    duration and the buffer end by the closing, is the start of a returned
    slot; and the number of slots is [(770 - duration) / 60 + 1], or none
    when that is negative: 12 slots for 60 and for 90 minutes, 11 for
    120. *)
Theorem iter_open_slots_complete (date_local : datetime)
  (duration_min : Z) :
  datetime_min <= date_local -> date_local + days 1 <= datetime_max ->
  0 <= duration_min ->
  open_dt date_local + minutes duration_min + minutes BUFFER_MIN
  <= datetime_max ->
  exists slots,
    iter_open_slots date_local duration_min = Some slots /\
    List.length slots = Z.to_nat ((770 - duration_min) / 60 + 1) /\
    (forall k,
       0 <= k ->
       open_dt date_local + minutes SLOT_STEP_MIN * k
       + minutes duration_min + minutes BUFFER_MIN <= close_dt date_local ->
       In (open_dt date_local + minutes SLOT_STEP_MIN * k,
           open_dt date_local + minutes SLOT_STEP_MIN * k
           + minutes duration_min) slots).
Proof.
  intros Hmin Hnext Hd Hhi.
  eexists. split; [now apply iter_open_slots_returns_nonneg|].
  destruct (open_close_dt date_local) as (_ & Hc & _).
  assert (Hn : grid_count (open_dt date_local) (close_dt date_local)
                 (minutes duration_min + minutes BUFFER_MIN)
                 (minutes SLOT_STEP_MIN)
               = Z.to_nat ((770 - duration_min) / 60 + 1)).
  { unfold grid_count. rewrite Hc. unfold minutes, BUFFER_MIN, SLOT_STEP_MIN.
    replace (open_dt date_local + 13 * 3600 - open_dt date_local
             - (60 * duration_min + 60 * 10))
      with ((770 - duration_min) * 60) by lia.
    change (60 * 60) with (60 * 60). rewrite Z.div_mul_cancel_r by lia.
    reflexivity. }
  split.
  - now rewrite grid_length.
  - intros k Hk Hfit. rewrite Hn.
    replace k with (Z.of_nat (Z.to_nat k)) by lia.
    apply grid_complete.
    rewrite Hc in Hfit. unfold minutes, BUFFER_MIN, SLOT_STEP_MIN in Hfit.
    assert (k <= (770 - duration_min) / 60)
      by (apply Z.div_le_lower_bound; lia).
    lia.
Qed.

Lemma iter_open_slots_complete_witness :
  exists slots,
    iter_open_slots (on_day 20407 0 0) 90 = Some slots /\
    List.length slots = Z.to_nat ((770 - 90) / 60 + 1) /\
    (forall k,
       0 <= k ->
       open_dt (on_day 20407 0 0) + minutes SLOT_STEP_MIN * k
       + minutes 90 + minutes BUFFER_MIN <= close_dt (on_day 20407 0 0) ->
       In (open_dt (on_day 20407 0 0) + minutes SLOT_STEP_MIN * k,
           open_dt (on_day 20407 0 0) + minutes SLOT_STEP_MIN * k
           + minutes 90) slots).
Proof.
  apply (iter_open_slots_complete (on_day 20407 0 0) 90);
    vm_compute; congruence.
Defined.

(** ** Listings *)


Lemma insert_by_perm before r l : Permutation (r :: l) (insert_by before r l).
Proof.
  induction l as [|x l IH]; cbn [insert_by]; [reflexivity|].
  destruct (before r x); [reflexivity|].
  rewrite perm_swap. now constructor.
Qed.

Lemma order_by_perm before l : Permutation l (order_by before l).
Proof.
  induction l as [|x l IH]; cbn [order_by fold_right]; [constructor|].
  rewrite <- insert_by_perm. now constructor.
Qed.

Lemma insert_by_sorted (key : bookings.row -> Z) (desc : bool) r l :
  let before a b := if desc then key b <=? key a else key a <=? key b in
  let R a b := before a b = true in
  StronglySorted R l -> StronglySorted R (insert_by before r l).
Proof.
  intros before R. induction 1 as [|x l Hl IH Hx]; cbn [insert_by].
  - repeat constructor.
  - destruct (before r x) eqn:E.
    + constructor; [now constructor|]. constructor; [exact E|].
      eapply Forall_impl; [|exact Hx]. intros y Hy. unfold R, before in *.
      destruct desc; rewrite Z.leb_le in *; lia.
    + constructor; [exact IH|].
      rewrite <- (insert_by_perm before r l). constructor; [|exact Hx].
      unfold R, before in *. destruct desc; rewrite ?Z.leb_le, ?Z.leb_gt in *; lia.
Qed.

Lemma order_by_sorted (key : bookings.row -> Z) (desc : bool) l :
  let before a b := if desc then key b <=? key a else key a <=? key b in
  StronglySorted (fun a b => before a b = true) (order_by before l).
Proof.
  intros before. induction l as [|x l IH]; cbn [order_by fold_right].
  - constructor.
  - apply (insert_by_sorted key desc). exact IH.
Qed.

Lemma StronglySorted_impl {A} (R R' : A -> A -> Prop) l :
  (forall a b, R a b -> R' a b) -> StronglySorted R l -> StronglySorted R' l.
Proof.
  intros HR. induction 1 as [|x l Hl IH Hx]; constructor; [exact IH|].
  eapply Forall_impl; [|exact Hx]. intros y. apply HR.
Qed.

Lemma StronglySorted_firstn {A} (R : A -> A -> Prop) n : forall l,
  StronglySorted R l -> StronglySorted R (firstn n l).
Proof.
  induction n as [|n IH]; intros l H; [constructor|].
  destruct l as [|x l]; [constructor|]. cbn [firstn].
  inversion H as [|? ? Hl Hx]; subst. constructor; [now apply IH|].
  rewrite Forall_forall in *. intros y Hy. apply Hx.
  rewrite <- (firstn_skipn n l). apply in_or_app. now left.
Qed.

Lemma StronglySorted_split {A} (R : A -> A -> Prop) n : forall l x y,
  StronglySorted R l -> In x (firstn n l) -> In y (skipn n l) -> R x y.
Proof.
  induction n as [|n IH]; intros l x y H Hx Hy; [destruct Hx|].
  destruct l as [|z l]; [destruct Hx|]. cbn [firstn skipn] in *.
  inversion H as [|? ? Hl Hz]; subst. destruct Hx as [->|Hx].
  - rewrite Forall_forall in Hz. apply Hz.
    rewrite <- (firstn_skipn n l). apply in_or_app. now right.
  - now apply (IH l).
Qed.

(** X10. The rows listed for a user are rows of the table that belong to
    that user and are not cancelled; there are at most ten of them, the
    latest start first; and a row of the user that is not cancelled and not
    listed starts no later than every listed row. *)
Theorem list_bookings_latest_ten (conn : connection) (uid : Z) :
  (forall r, In r (list_bookings conn uid) ->
     In r conn /\ bookings.user_id r = uid /\
     bookings.status r <> "cancelled"%string) /\
  (List.length (list_bookings conn uid) <= 10)%nat /\
  StronglySorted (fun a b => bookings.start_ts b <= bookings.start_ts a)
    (list_bookings conn uid) /\
  (forall r, In r conn -> bookings.user_id r = uid ->
     bookings.status r <> "cancelled"%string ->
     In r (list_bookings conn uid) \/
     forall x, In x (list_bookings conn uid) ->
       bookings.start_ts r <= bookings.start_ts x).
Proof.
  unfold list_bookings.
  set (keep := own_not_cancelled uid).
  set (before := fun a b => bookings.start_ts b <=? bookings.start_ts a).
  set (sorted := order_by before (filter keep conn)).
  assert (Hkeep : forall r, In r sorted <->
            In r conn /\ bookings.user_id r = uid /\
            bookings.status r <> "cancelled"%string).
  { intros r. unfold sorted.
    split.
    - intros H. apply (Permutation_in r (Permutation_sym
                         (order_by_perm before (filter keep conn)))) in H.
      apply filter_In in H as [Hin Hk]. unfold keep, own_not_cancelled in Hk.
      apply andb_true_iff in Hk as [Hu Hs].
      apply Z.eqb_eq in Hu. apply negb_true_iff, String.eqb_neq in Hs. auto.
    - intros (Hin & Hu & Hs).
      apply (Permutation_in r (order_by_perm before (filter keep conn))).
      apply filter_In. split; [exact Hin|]. unfold keep, own_not_cancelled.
      apply andb_true_iff. split; [now apply Z.eqb_eq|].
      now apply negb_true_iff, String.eqb_neq. }
  assert (Hsorted : StronglySorted (fun a b => before a b = true) sorted)
    by apply (order_by_sorted bookings.start_ts true).
  repeat split.
  - apply Hkeep. rewrite <- (firstn_skipn 10 sorted). apply in_or_app. now left.
  - apply Hkeep. rewrite <- (firstn_skipn 10 sorted). apply in_or_app. now left.
  - apply Hkeep. rewrite <- (firstn_skipn 10 sorted). apply in_or_app. now left.
  - apply firstn_le_length.
  - apply StronglySorted_firstn.
    eapply StronglySorted_impl; [|exact Hsorted].
    intros a b Hab. unfold before in Hab. now apply Z.leb_le.
  - intros r Hin Hu Hs.
    assert (Hr : In r sorted) by (apply Hkeep; auto).
    rewrite <- (firstn_skipn 10 sorted) in Hr.
    apply in_app_or in Hr as [Hr|Hr]; [now left|right].
    intros x Hx.
    pose proof (StronglySorted_split _ 10 sorted x r Hsorted Hx Hr) as H.
    unfold before in H. now apply Z.leb_le.
Qed.

(** X11. A booking that has just been stored is among the rows listed for
    its user, provided the user had fewer than ten rows that were not
    cancelled. *)
Theorem booking_is_listed (tz now_ts : Z) (conn conn' : connection)
  (draft : BookingDraft.t) (uid : Z) (username : option string)
  (phone : string) :
  enter_phone tz now_ts conn draft uid username phone = Some (conn', END) ->
  (List.length (filter (own_not_cancelled uid) conn) < 10)%nat ->
  exists r,
    conn' = conn ++ [r] /\ bookings.user_id r = uid /\
    In r (list_bookings conn' uid).
Proof.
  intros H Hlen.
  destruct (enter_phone_booked _ _ _ _ _ _ _ _ H)
    as (s & price & r & _ & _ & _ & -> & _ & Hu & _ & _ & _ & Hpend).
  exists r. split; [reflexivity|]. split; [exact Hu|].
  unfold list_bookings.
  set (keep := own_not_cancelled uid) in *.
  set (before := fun a b => bookings.start_ts b <=? bookings.start_ts a).
  assert (Hk : keep r = true).
  { unfold keep, own_not_cancelled. rewrite Hu, Z.eqb_refl, Hpend.
    reflexivity. }
  rewrite firstn_all2.
  - apply (Permutation_in r (order_by_perm before _)).
    apply filter_In. split; [apply in_or_app; right; now left | exact Hk].
  - rewrite <- (Permutation_length (order_by_perm before _)).
    rewrite filter_app, length_app. cbn [filter]. rewrite Hk.
    cbn [List.length]. lia.
Qed.

Lemma booking_is_listed_witness :
  exists r,
    one_booking = [] ++ [r] /\ bookings.user_id r = 7 /\
    In r (list_bookings one_booking 7).
Proof.
  apply (booking_is_listed 10800 0 [] one_booking
           (draft_of (on_day 20407 13 0) 60 "duo" false) 7 None "1"%string).
  - vm_compute. reflexivity.
  - cbn. lia.
Defined.

(** X12. After an admin has cancelled the booking with a given id, no row
    with that id is listed for any user. *)
Theorem cancelled_is_not_listed (admins : list Z) (conn : connection)
  (admin_id bid uid : Z) (r : bookings.row) :
  existsb (Z.eqb admin_id) admins = true ->
  In r (list_bookings (admin_cancel admins conn admin_id bid) uid) ->
  bookings.id r <> bid.
Proof.
  intros Hadmin Hin Hid.
  unfold list_bookings in Hin.
  assert (Hin' : In r (order_by
            (fun a b => bookings.start_ts b <=? bookings.start_ts a)
            (filter (own_not_cancelled uid)
               (admin_cancel admins conn admin_id bid)))).
  { rewrite <- (firstn_skipn 10 _). apply in_or_app. left. exact Hin. }
  clear Hin.
  apply (Permutation_in r (Permutation_sym (order_by_perm _ _))) in Hin'.
  apply filter_In in Hin' as [Hc Hk].
  unfold admin_cancel in Hc. rewrite Hadmin in Hc. cbn [negb] in Hc.
  unfold update_status in Hc. apply in_map_iff in Hc as (x & Hx & _).
  apply andb_true_iff in Hk as [_ Hs].
  destruct (Z.eqb_spec (bookings.id x) bid) as [E|NE].
  - subst r. cbn in Hs. discriminate.
  - subst r. contradiction.
Qed.

Lemma cancelled_is_not_listed_witness :
  existsb (Z.eqb 1) [1] = true /\
  In (nth 0 (list_bookings (admin_cancel [1] two_bookings 1 1) 8)
        (stored 0 0 0 ""))
    (list_bookings (admin_cancel [1] two_bookings 1 1) 8) /\
  bookings.id
    (nth 0 (list_bookings (admin_cancel [1] two_bookings 1 1) 8)
       (stored 0 0 0 ""))
  <> 1.
Proof.
  assert (Hadmin : existsb (Z.eqb 1) [1] = true) by reflexivity.
  assert (Hin : In (nth 0 (list_bookings (admin_cancel [1] two_bookings 1 1) 8)
                      (stored 0 0 0 ""))
                  (list_bookings (admin_cancel [1] two_bookings 1 1) 8))
    by (vm_compute; left; reflexivity).
  split; [exact Hadmin|]. split; [exact Hin|].
  exact (cancelled_is_not_listed [1] two_bookings 1 1 8 _ Hadmin Hin).
Defined.

(** X13. The overview for an admin holds exactly the rows of the table,
    cancelled ones included, that start from today 00:00 to the day after
    tomorrow 00:00, both ends included, the earliest start first; anyone
    else gets nothing. *)
Theorem admin_overview (tz : Z) (now_local : datetime) (admins : list Z)
  (conn : connection) (user_id : Z) :
  let today := timestamp (to_utc tz (local_today now_local)) in
  time_of (local_today now_local) = 0 /\
  (existsb (Z.eqb user_id) admins = false ->
   admin tz now_local admins conn user_id = []) /\
  (existsb (Z.eqb user_id) admins = true ->
   (forall r,
      In r (admin tz now_local admins conn user_id) <->
      In r conn /\ today <= bookings.start_ts r <= today + days 2) /\
   Permutation
     (filter
        (fun r => (today <=? bookings.start_ts r)
                  && (bookings.start_ts r <=? today + days 2))
        conn)
     (admin tz now_local admins conn user_id) /\
   StronglySorted (fun a b => bookings.start_ts a <= bookings.start_ts b)
     (admin tz now_local admins conn user_id)).
Proof.
  intros today. split; [|split].
  - unfold local_today, time_of.
    pose proof (Z.div_mod now_local 86400 ltac:(lia)).
    replace (now_local - now_local mod 86400)
      with (0 + (now_local / 86400) * 86400) by lia.
    now rewrite Z.mod_add by lia.
  - intros Hadmin. unfold admin. now rewrite Hadmin.
  - intros Hadmin. unfold admin. rewrite Hadmin. cbn [negb].
    set (before := fun a b => bookings.start_ts a <=? bookings.start_ts b).
    replace (timestamp (to_utc tz (local_today now_local + days 1 + days 1)))
      with (today + days 2)
      by (unfold today, timestamp, to_utc, days; lia).
    fold today.
    set (window := filter _ conn).
    split; [|split].
    + intros r. split.
      * intros H.
        apply (Permutation_in r (Permutation_sym (order_by_perm before window)))
          in H.
        apply filter_In in H as [Hin Hw].
        apply andb_true_iff in Hw as [H1 H2].
        rewrite Z.leb_le in H1, H2. auto.
      * intros (Hin & H1 & H2).
        apply (Permutation_in r (order_by_perm before window)).
        apply filter_In. split; [exact Hin|].
        apply andb_true_iff. now rewrite !Z.leb_le.
    + apply order_by_perm.
    + pose proof (order_by_sorted bookings.start_ts false window) as Hs.
      cbn zeta in Hs. fold before in Hs.
      eapply StronglySorted_impl; [|exact Hs].
      intros a b Hab. unfold before in Hab. now apply Z.leb_le.
Qed.

(** ** The keyboard of start times *)

Lemma time_kb_step_eq skip st slot :
  time_kb_step skip st slot
  = if skip (fst slot) then st
    else if (List.length (snd st ++ [slot_button (fst slot)]) =? 4)%nat
         then (fst st ++ [snd st ++ [slot_button (fst slot)]], [])
         else (fst st, snd st ++ [slot_button (fst slot)]).
Proof. reflexivity. Qed.

Lemma time_kb_fold (skip : datetime -> bool) slots : forall buttons row,
  Forall (fun r => List.length r = 4%nat) buttons ->
  (List.length row < 4)%nat ->
  List.concat (fst (fold_left (time_kb_step skip) slots (buttons, row)))
  ++ snd (fold_left (time_kb_step skip) slots (buttons, row))
  = List.concat buttons ++ row
    ++ map (fun s => slot_button (fst s))
         (filter (fun s => negb (skip (fst s))) slots) /\
  Forall (fun r => List.length r = 4%nat)
    (fst (fold_left (time_kb_step skip) slots (buttons, row))) /\
  (List.length (snd (fold_left (time_kb_step skip) slots (buttons, row)))
   < 4)%nat.
Proof.
  induction slots as [|slot slots IH]; intros buttons row Hb Hr;
    cbn [fold_left filter map].
  - cbn [fst snd]. rewrite app_nil_r. auto.
  - rewrite (time_kb_step_eq skip (buttons, row) slot). cbn [fst snd].
    destruct (skip (fst slot)); cbn [negb].
    + apply IH; assumption.
    + destruct (Nat.eqb_spec (List.length (row ++ [slot_button (fst slot)])) 4)
        as [E|NE].
      * destruct (IH (buttons ++ [row ++ [slot_button (fst slot)]]) [])
          as (H1 & H2 & H3).
        -- apply Forall_app. split; [assumption|]. now constructor.
        -- cbn. lia.
        -- split; [|split; [exact H2|exact H3]].
           etransitivity; [exact H1|].
           rewrite concat_app. cbn [List.concat map app].
           rewrite !app_nil_r. now rewrite <- !app_assoc.
      * destruct (IH buttons (row ++ [slot_button (fst slot)]))
          as (H1 & H2 & H3).
        -- assumption.
        -- rewrite length_app in *. cbn [List.length] in *. lia.
        -- split; [|split; [exact H2|exact H3]].
           etransitivity; [exact H1|].
           cbn [map]. now rewrite <- !app_assoc.
Qed.

(** X14. For a day whose following day is a date and a duration that is
    not negative and with which the opening instant, the duration and the
    buffer stay in the range of [datetime], the keyboard of start times
    holds the slots of the day, in order, without those that start before
    now when the day is today; its rows hold four buttons each, the last
    one from one to four; when no slot is left it holds the single button
    [noop]. *)
Theorem time_kb_rows (now_sec now_usec : Z) (date_local : datetime)
  (duration_min : Z) :
  datetime_min <= date_local -> date_local + days 1 <= datetime_max ->
  0 <= duration_min ->
  open_dt date_local + minutes duration_min + minutes BUFFER_MIN
  <= datetime_max ->
  exists slots kb,
    iter_open_slots date_local duration_min = Some slots /\
    time_kb now_sec now_usec date_local duration_min = Some kb /\
    let offered :=
      filter
        (fun s =>
           negb (before_now (fst s) now_sec now_usec
                 && (date_of date_local =? date_of now_sec)))
        slots in
    (offered = [] -> kb = [[noop_button]]) /\
    (offered <> [] ->
     List.concat kb = map (fun s => slot_button (fst s)) offered /\
     exists full last,
       kb = full ++ [last] /\
       Forall (fun r => List.length r = 4%nat) full /\
       (1 <= List.length last <= 4)%nat).
Proof.
  intros Hmin Hnext Hd Hhi.
  exists (grid
            (grid_count (open_dt date_local) (close_dt date_local)
               (minutes duration_min + minutes BUFFER_MIN)
               (minutes SLOT_STEP_MIN))
            (open_dt date_local) (minutes SLOT_STEP_MIN)
            (minutes duration_min)).
  set (slots := grid _ _ _ _).
  unfold time_kb. rewrite iter_open_slots_returns_nonneg by assumption.
  fold slots. cbv zeta.
  set (skip := fun start => before_now start now_sec now_usec
                            && (date_of date_local =? date_of now_sec)).
  pose proof (time_kb_fold skip slots [] []
                ltac:(constructor) ltac:(cbn; lia)) as Hfold.
  set (offered := filter (fun s => negb (skip (fst s))) slots).
  change (filter _ slots) with offered in Hfold.
  change (filter _ slots) with offered.
  clearbody offered.
  destruct (fold_left (time_kb_step skip) slots ([], [])) as [B r].
  cbn [fst snd List.concat app] in *.
  destruct Hfold as (Hc & Hfull & Hrow).
  assert (Hlast : B = [] \/ exists full last,
            B = full ++ [last] /\
            Forall (fun r => List.length r = 4%nat) full /\
            List.length last = 4%nat).
  { destruct B as [|l B]; [now left|right].
    destruct (@exists_last _ (l :: B) ltac:(discriminate))
      as (full & last & E).
    rewrite E in Hfull. apply Forall_app in Hfull as [H1 H2].
    exists full, last. split; [exact E|]. split; [exact H1|].
    now inversion H2. }
  destruct r as [|b r].
  - rewrite app_nil_r in Hc.
    destruct Hlast as [->|(full & last & -> & Hf & Hl)].
    + eexists. split; [reflexivity|]. split; [reflexivity|].
      split; [reflexivity|]. intros Hne. exfalso. apply Hne.
      cbn [List.concat] in Hc.
      destruct offered; [reflexivity | cbn [map] in Hc; discriminate Hc].
    + destruct (full ++ [last]) as [|x B'] eqn:EB;
        [destruct full; discriminate|].
      eexists. split; [reflexivity|]. split; [reflexivity|]. split.
      * intros Hoff. exfalso. rewrite Hoff in Hc. cbn [map] in Hc.
        rewrite <- EB, concat_app in Hc. cbn [List.concat] in Hc.
        rewrite app_nil_r in Hc. apply app_eq_nil in Hc as [_ Hc].
        subst last. discriminate.
      * intros _. split; [exact Hc|]. exists full, last.
        split; [symmetry; exact EB|]. split; [exact Hf|]. lia.
  - destruct (B ++ [b :: r]) as [|x B'] eqn:EB;
      [destruct B; discriminate|].
    eexists. split; [reflexivity|]. split; [reflexivity|]. split.
    + intros Hoff. exfalso. rewrite Hoff in Hc. cbn [map] in Hc.
      apply app_eq_nil in Hc as [_ Hc]. discriminate.
    + intros _. split.
      * rewrite <- EB, concat_app. cbn [List.concat]. rewrite app_nil_r.
        exact Hc.
      * exists B, (b :: r). split; [symmetry; exact EB|].
        split; [exact Hfull|].
        cbn [List.length] in *. lia.
Qed.

Lemma time_kb_rows_witness :
  exists slots kb,
    iter_open_slots (on_day 20407 0 0) 60 = Some slots /\
    time_kb (on_day 20407 14 30) 0 (on_day 20407 0 0) 60 = Some kb /\
    let offered :=
      filter
        (fun s =>
           negb (before_now (fst s) (on_day 20407 14 30) 0
                 && (date_of (on_day 20407 0 0)
                     =? date_of (on_day 20407 14 30))))
        slots in
    (offered = [] -> kb = [[noop_button]]) /\
    (offered <> [] ->
     List.concat kb = map (fun s => slot_button (fst s)) offered /\
     exists full last,
       kb = full ++ [last] /\
       Forall (fun r => List.length r = 4%nat) full /\
       (1 <= List.length last <= 4)%nat).
Proof.
  apply (time_kb_rows (on_day 20407 14 30) 0 (on_day 20407 0 0) 60);
    vm_compute; congruence.
Defined.

(** ** The start time handler on the keyboard's buttons *)

Lemma digit_char_not_colon k :
  0 <= k <= 9 ->
  Ascii.eqb (Str.digit_char k) ":" = false /\
  Str.continues (Str.digit_char k) = false.
Proof.
  intros Hk.
  assert (H : k = 0 \/ k = 1 \/ k = 2 \/ k = 3 \/ k = 4 \/ k = 5 \/ k = 6
              \/ k = 7 \/ k = 8 \/ k = 9) by lia.
  repeat (destruct H as [->|H]; [split; reflexivity|]).
  subst k. split; reflexivity.
Qed.

Lemma strftime_HM_shape (d : datetime) :
  exists a b rest,
    strftime_HM d = String a (String b (String ":" rest)) /\
    (Ascii.eqb a ":" = false /\ Str.continues a = false) /\
    (Ascii.eqb b ":" = false /\ Str.continues b = false).
Proof.
  unfold strftime_HM, Str.two_digits, time_of.
  assert (H : 0 <= d mod 86400 < 86400) by (apply Z.mod_pos_bound; lia).
  assert (H1 : 0 <= d mod 86400 / 3600 < 24)
    by (split; [apply Z.div_pos; lia | apply Z.div_lt_upper_bound; lia]).
  eexists _, _, _. split; [cbn [append]; reflexivity|].
  split; apply digit_char_not_colon.
  - split; [apply Z.div_pos; lia | apply Z.div_le_upper_bound; lia].
  - pose proof (Z.mod_pos_bound (d mod 86400 / 3600) 10). lia.
Qed.

Lemma two_characters_sliced a b :
  Str.continues a = false -> Str.continues b = false ->
  Str.take 2 (String a (String b EmptyString))
  = String a (String b EmptyString) /\
  Str.drop 3 (String a (String b EmptyString)) = EmptyString.
Proof.
  intros Ha Hb. cbn [Str.take Str.drop]. rewrite Ha, Hb.
  split; reflexivity.
Qed.

Lemma time_chosen_slot_button (start : datetime)
  (draft : option BookingDraft.t) :
  time_chosen (InlineKeyboardButton.callback_data (slot_button start)) draft
  = None.
Proof.
  unfold slot_button. cbn [InlineKeyboardButton.callback_data].
  destruct (strftime_HM_shape start)
    as (a & b & rest & -> & (Ha & Ca) & (Hb & Cb)).
  destruct (two_characters_sliced a b Ca Cb) as [Et Ed].
  unfold time_chosen, time_chosen_with.
  cbn [append String.prefix Ascii.eqb Bool.eqb negb].
  cbn [Str.split Ascii.eqb Bool.eqb]. rewrite Ha, Hb.
  destruct (Str.split ":" rest) as [|x l]; cbn [nth_error];
    (destruct draft as [d|]; [|reflexivity]);
    (destruct (BookingDraft.date d); [|reflexivity]);
    rewrite Et, Ed;
    destruct (Str.int (String a (String b EmptyString))); reflexivity.
Qed.

Lemma time_kb_fold_buttons (skip : datetime -> bool) slots :
  forall st b,
    In b (List.concat (fst (fold_left (time_kb_step skip) slots st))
          ++ snd (fold_left (time_kb_step skip) slots st)) ->
    In b (List.concat (fst st) ++ snd st) \/
    exists start, b = slot_button start.
Proof.
  induction slots as [|slot slots IH]; intros st b Hin; cbn [fold_left] in Hin.
  - now left.
  - apply IH in Hin as [Hin|Hin]; [|now right].
    rewrite time_kb_step_eq in Hin.
    destruct (skip (fst slot)); [now left|].
    destruct (List.length (snd st ++ [slot_button (fst slot)]) =? 4)%nat;
      cbn [fst snd] in Hin.
    + rewrite app_nil_r, concat_app in Hin. cbn [List.concat] in Hin.
      rewrite app_nil_r, app_assoc in Hin.
      apply in_app_or in Hin as [Hin|[<-|[]]]; [now left|right; eauto].
    + rewrite app_assoc in Hin.
      apply in_app_or in Hin as [Hin|[<-|[]]]; [now left|right; eauto].
Qed.

Lemma time_kb_buttons now_sec now_usec date_local duration_min kb b :
  time_kb now_sec now_usec date_local duration_min = Some kb ->
  In b (List.concat kb) ->
  b = noop_button \/ exists start, b = slot_button start.
Proof.
  unfold time_kb. destruct (iter_open_slots date_local duration_min)
    as [slots|]; [|discriminate].
  cbv zeta.
  set (skip := fun start => before_now start now_sec now_usec
                            && (date_of date_local =? date_of now_sec)).
  pose proof (time_kb_fold_buttons skip slots ([], []) b) as H.
  destruct (fold_left (time_kb_step skip) slots ([], [])) as [B r].
  cbn [fst snd List.concat app] in *.
  intros E Hin.
  assert (Hkb : kb = [[noop_button]] \/ In b (List.concat B ++ r)).
  { destruct r as [|x r].
    - destruct B; injection E as <-; [now left|right].
      now rewrite app_nil_r.
    - destruct (B ++ [x :: r]) as [|y B'] eqn:EB;
        [destruct B; discriminate|].
      injection E as <-. right. rewrite <- EB, concat_app in Hin.
      cbn [List.concat] in Hin. now rewrite app_nil_r in Hin. }
  destruct Hkb as [->|Hb].
  - left. cbn in Hin. destruct Hin as [<-|[]]. reflexivity.
  - right. destruct (H Hb) as [[]|Hs]. exact Hs.
Qed.

(** X15. No button of the keyboard of start times takes the dialogue to
    the options: on the data of the button of a slot the handler
    [time_chosen] raises, whatever the draft, and on [noop] it stays in
    [CHOOSING_TIME] and leaves the draft as it is. *)
Theorem time_chosen_rejects_offered_times (now_sec now_usec : Z)
  (date_local : datetime) (duration_min : Z) (kb : InlineKeyboardMarkup)
  (b : InlineKeyboardButton.t) (draft : option BookingDraft.t) :
  time_kb now_sec now_usec date_local duration_min = Some kb ->
  In b (List.concat kb) ->
  (b = noop_button /\
   time_chosen (InlineKeyboardButton.callback_data b) draft
   = Some (draft, CHOOSING_TIME)) \/
  ((exists start, b = slot_button start) /\
   time_chosen (InlineKeyboardButton.callback_data b) draft = None).
Proof.
  intros E Hin.
  destruct (time_kb_buttons _ _ _ _ _ _ E Hin) as [->|(start & ->)].
  - left. split; reflexivity.
  - right. split; [eauto|]. apply time_chosen_slot_button.
Qed.

Lemma time_chosen_rejects_offered_times_witness :
  time_kb 0 0 0 60 = Some (kb_of (time_kb 0 0 0 60)) /\
  In (slot_button 46800) (List.concat (kb_of (time_kb 0 0 0 60))) /\
  ((slot_button 46800 = noop_button /\
    time_chosen (InlineKeyboardButton.callback_data (slot_button 46800)) None
    = Some (None, CHOOSING_TIME)) \/
   ((exists start, slot_button 46800 = slot_button start) /\
    time_chosen (InlineKeyboardButton.callback_data (slot_button 46800)) None
    = None)).
Proof.
  assert (E : time_kb 0 0 0 60 = Some (kb_of (time_kb 0 0 0 60)))
    by (vm_compute; reflexivity).
  assert (Hin : In (slot_button 46800)
                  (List.concat (kb_of (time_kb 0 0 0 60))))
    by (vm_compute; left; reflexivity).
  split; [exact E|]. split; [exact Hin|].
  exact (time_chosen_rejects_offered_times 0 0 0 60
           (kb_of (time_kb 0 0 0 60)) (slot_button 46800) None E Hin).
Defined.

(** ** The handlers of the duration and of the options *)

Lemma time_kb_returns now_sec now_usec date_local duration_min :
  datetime_min <= date_local -> date_local + days 1 <= datetime_max ->
  0 <= duration_min ->
  open_dt date_local + minutes duration_min + minutes BUFFER_MIN
  <= datetime_max ->
  exists kb, time_kb now_sec now_usec date_local duration_min = Some kb.
Proof.
  intros Hmin Hnext Hd Hhi.
  unfold time_kb. rewrite iter_open_slots_returns_nonneg by assumption.
  cbv zeta.
  match goal with
  | |- exists kb, match ?x with _ => _ end = _ => destruct x
  end; eauto.
Qed.

Lemma time_kb_raises now_sec now_usec date_local duration_min :
  iter_open_slots date_local duration_min = None ->
  time_kb now_sec now_usec date_local duration_min = None.
Proof. intros H. unfold time_kb. now rewrite H. Qed.

Lemma duration_chosen_minutes now_sec now_usec data s n d :
  String.prefix "dur:" data = true ->
  nth_error (Str.split ":" data) 1 = Some s ->
  Str.int s = Some n ->
  0 <= n <= 120 ->
  exists st,
    duration_chosen now_sec now_usec data (Some d)
    = (Some (with_duration_min d n), st) /\
    match BookingDraft.date d with
    | None => st = None
    | Some date =>
        (datetime_min <= date -> date + days 1 <= datetime_max ->
         st = Some CHOOSING_TIME) /\
        (datetime_max < date + days 1 -> st = None)
    end.
Proof.
  intros Hp Hs Hn Hr. unfold duration_chosen. rewrite Hp, Hs, Hn.
  cbn [negb with_duration_min BookingDraft.date BookingDraft.duration_min].
  destruct (BookingDraft.date d) as [date|]; [|eexists; split; reflexivity].
  destruct (time_kb now_sec now_usec date n) as [kb|] eqn:E.
  - eexists. split; [reflexivity|]. split; [reflexivity|].
    intros Hov.
    rewrite (time_kb_raises _ _ _ _ (iter_open_slots_last_day _ _ Hov)) in E.
    discriminate E.
  - eexists. split; [reflexivity|]. split; [|reflexivity].
    intros Hmin Hnext.
    destruct (business_day_in_range date Hmin Hnext) as [Hopen Hclose].
    destruct (open_close_dt date) as (_ & Hc & _).
    destruct (time_kb_returns now_sec now_usec date n Hmin Hnext) as [kb E'];
      [lia|unfold minutes, BUFFER_MIN; lia|].
    rewrite E' in E. discriminate E.
Qed.

(** X16. Every button of the keyboard of durations is taken by
    [duration_chosen]: the draft gets the 60, 90 or 120 minutes the button
    shows and nothing else in it changes.  The handler then builds the
    keyboard of start times: with a date whose following day is a date it
    goes on to [CHOOSING_TIME]; without a date, and with a date on
    9999-12-31, whose following day is out of range, it raises after the
    duration has been written. *)
Theorem duration_kb_accepted (now_sec now_usec : Z) (d : BookingDraft.t)
  (b : InlineKeyboardButton.t) :
  In b (List.concat duration_kb) ->
  exists n st,
    ((InlineKeyboardButton.text b = "60 мин"%string /\ n = 60) \/
     (InlineKeyboardButton.text b = "90 мин"%string /\ n = 90) \/
     (InlineKeyboardButton.text b = "120 мин"%string /\ n = 120)) /\
    duration_chosen now_sec now_usec
      (InlineKeyboardButton.callback_data b) (Some d)
    = (Some (with_duration_min d n), st) /\
    match BookingDraft.date d with
    | None => st = None
    | Some date =>
        (datetime_min <= date -> date + days 1 <= datetime_max ->
         st = Some CHOOSING_TIME) /\
        (datetime_max < date + days 1 -> st = None)
    end.
Proof.
  intros [<-|[<-|[<-|[]]]];
    cbn [InlineKeyboardButton.callback_data InlineKeyboardButton.text].
  - destruct (duration_chosen_minutes now_sec now_usec "dur:60" "60" 60 d)
      as (st & H1 & H2); try reflexivity; [lia|].
    exists 60, st. tauto.
  - destruct (duration_chosen_minutes now_sec now_usec "dur:90" "90" 90 d)
      as (st & H1 & H2); try reflexivity; [lia|].
    exists 90, st. tauto.
  - destruct (duration_chosen_minutes now_sec now_usec "dur:120" "120" 120 d)
      as (st & H1 & H2); try reflexivity; [lia|].
    exists 120, st. tauto.
Qed.

Lemma duration_kb_accepted_witness :
  exists n st,
    (("90 мин"%string = "60 мин"%string /\ n = 60) \/
     ("90 мин"%string = "90 мин"%string /\ n = 90) \/
     ("90 мин"%string = "120 мин"%string /\ n = 120)) /\
    duration_chosen 0 0 "dur:90"
      (Some (draft_of (on_day 20407 13 0) 60 "duo" false))
    = (Some (with_duration_min
               (draft_of (on_day 20407 13 0) 60 "duo" false) n), st) /\
    match BookingDraft.date (draft_of (on_day 20407 13 0) 60 "duo" false) with
    | None => st = None
    | Some date =>
        (datetime_min <= date -> date + days 1 <= datetime_max ->
         st = Some CHOOSING_TIME) /\
        (datetime_max < date + days 1 -> st = None)
    end.
Proof.
  apply (duration_kb_accepted 0 0
           (draft_of (on_day 20407 13 0) 60 "duo" false)
           {| InlineKeyboardButton.text := "90 мин";
              InlineKeyboardButton.callback_data := "dur:90" |}).
  cbn. right. left. reflexivity.
Defined.

(** On 9999-12-31 the keyboard of start times cannot be built: the
    handler raises, with the duration written. *)
Lemma duration_chosen_last_day :
  duration_chosen 0 0 "dur:60"
    (Some (draft_of (on_day 2932896 13 0) 90 "duo" false))
  = (Some (with_duration_min (draft_of (on_day 2932896 13 0) 90 "duo" false)
             60),
     None).
Proof. vm_compute. reflexivity. Qed.

(** X17. The price in the confirmation message is the price that is
    stored: when [addons_toggle] takes [next:confirm], [enter_name] takes
    the name and [enter_phone] then stores the booking, the stored row
    carries the price that was shown, the name and the phone that were
    entered, and the duration and the options of the draft. *)
Theorem quoted_price_is_stored (tz now_ts : Z) (conn conn' : connection)
  (d d1 d2 : BookingDraft.t) (user_id : Z) (username : option string)
  (name phone : string) (quoted : option Z) :
  addons_toggle "next:confirm" (Some d) = Some (Some d1, ENTERING_NAME, quoted) ->
  enter_name name (Some d1) = Some (Some d2, ENTERING_PHONE) ->
  enter_phone tz now_ts conn d2 user_id username phone = Some (conn', END) ->
  exists r,
    conn' = conn ++ [r] /\
    quoted = Some (bookings.price_total r) /\
    bookings.name r = Some name /\
    bookings.phone r = phone /\
    bookings.duration_min r = BookingDraft.duration_min d /\
    bookings.addons r
    = addons_of (BookingDraft.gamepads_mode d) (BookingDraft.headsets d).
Proof.
  intros Ha Hn Hp.
  unfold addons_toggle in Ha. cbn [String.prefix Ascii.eqb Bool.eqb] in Ha.
  change (("next:confirm" =? "hs:toggle")%string) with false in Ha.
  change (("next:confirm" =? "next:confirm")%string) with true in Ha.
  cbv iota in Ha.
  destruct (BookingDraft.start_dt d) as [start_local|] eqn:Es;
    [|discriminate].
  cbv zeta in Ha.
  destruct (price_for_interval start_local
              (start_local + minutes (BookingDraft.duration_min d))
              (BookingDraft.gamepads_mode d) (BookingDraft.headsets d))
    as [price|] eqn:Ep; [|discriminate].
  injection Ha as <- <-.
  unfold enter_name in Hn. injection Hn as <-.
  unfold enter_phone in Hp.
  cbn [with_name BookingDraft.start_dt BookingDraft.duration_min
       BookingDraft.gamepads_mode BookingDraft.headsets BookingDraft.name
       BookingDraft.date]
    in Hp.
  rewrite Es in Hp.
  destruct (commit_check tz conn start_local (BookingDraft.duration_min d)).
  { destruct (BookingDraft.date d) as [date|]; [|discriminate Hp].
    destruct (iter_open_slots date _); discriminate Hp. }
  rewrite Ep in Hp. injection Hp as <-.
  eexists. split; [reflexivity|]. cbn. repeat split.
Qed.

Lemma quoted_price_is_stored_witness :
  exists r,
    table_after []
      (enter_phone 10800 0 []
         (with_name (draft_of (on_day 20407 13 0) 60 "squad" true) "Ann")
         7 None "1")
    = [] ++ [r] /\
    Some 650 = Some (bookings.price_total r) /\
    bookings.name r = Some "Ann"%string /\
    bookings.phone r = "1"%string /\
    bookings.duration_min r = 60 /\
    bookings.addons r = addons_of "squad" true.
Proof.
  apply (quoted_price_is_stored 10800 0 []
           (table_after []
              (enter_phone 10800 0 []
                 (with_name (draft_of (on_day 20407 13 0) 60 "squad" true)
                    "Ann") 7 None "1"))
           (draft_of (on_day 20407 13 0) 60 "squad" true)
           (draft_of (on_day 20407 13 0) 60 "squad" true)
           (with_name (draft_of (on_day 20407 13 0) 60 "squad" true) "Ann")
           7 None "Ann"%string "1"%string (Some 650)).
  - vm_compute. reflexivity.
  - reflexivity.
  - vm_compute. reflexivity.
Defined.

Lemma prefix_app (p s : string) :
  String.prefix p s = true -> exists rest, s = (p ++ rest)%string.
Proof.
  revert s. induction p as [|a p IH]; intros s H.
  - exists s. reflexivity.
  - destruct s as [|b s]; simpl in H; [discriminate H|].
    destruct (ascii_dec a b) as [->|]; [|discriminate H].
    destruct (IH s H) as [rest ->]. exists rest. reflexivity.
Qed.

Lemma split_not_nil sep s : Str.split sep s <> [].
Proof.
  destruct s as [|c s]; cbn [Str.split]; [discriminate|].
  destruct (Ascii.eqb c sep); [discriminate|].
  destruct (Str.split sep s); discriminate.
Qed.

Lemma pads_mode data :
  String.prefix "pads:" data = true ->
  exists mode, nth_error (Str.split ":" data) 1 = Some mode.
Proof.
  intros H. destruct (prefix_app _ _ H) as [rest ->].
  cbn [append Str.split Ascii.eqb Bool.eqb].
  destruct (Str.split ":" rest) as [|x l] eqn:E;
    [now apply split_not_nil in E|].
  exists x. reflexivity.
Qed.

(** X18. With a draft, [addons_toggle] raises on no data other than
    [next:confirm]: it stays in [CHOOSING_ADDONS], sends no price, and
    leaves the date, the start, the duration, the name and the phone of
    the draft as they are; [hs:toggle] flips the headsets and keeps the
    gamepads, data that start with [pads:] keep the headsets, and any
    other data change nothing. *)
Theorem addons_toggle_keeps_booking (data : string) (d : BookingDraft.t) :
  data <> "next:confirm"%string ->
  exists d',
    addons_toggle data (Some d) = Some (Some d', CHOOSING_ADDONS, None) /\
    BookingDraft.date d' = BookingDraft.date d /\
    BookingDraft.start_dt d' = BookingDraft.start_dt d /\
    BookingDraft.duration_min d' = BookingDraft.duration_min d /\
    BookingDraft.name d' = BookingDraft.name d /\
    BookingDraft.phone d' = BookingDraft.phone d /\
    (String.prefix "pads:" data = true ->
     BookingDraft.headsets d' = BookingDraft.headsets d) /\
    (data = "hs:toggle"%string ->
     BookingDraft.headsets d' = negb (BookingDraft.headsets d) /\
     BookingDraft.gamepads_mode d' = BookingDraft.gamepads_mode d) /\
    (String.prefix "pads:" data = false -> data <> "hs:toggle"%string ->
     d' = d).
Proof.
  intros Hnext. unfold addons_toggle.
  destruct (String.prefix "pads:" data) eqn:Hp.
  - destruct (pads_mode data Hp) as [mode ->].
    eexists. split; [reflexivity|]. cbn.
    repeat (split; [reflexivity|]).
    split; [intros ->; vm_compute in Hp; discriminate Hp|].
    intros H. discriminate H.
  - destruct (String.eqb_spec data "hs:toggle") as [->|Hhs].
    + eexists. split; [reflexivity|]. cbn.
      repeat (split; [reflexivity|]).
      split; [intros H; discriminate H|].
      split; [intros _; split; reflexivity|].
      intros _ H. now elim H.
    + destruct (String.eqb_spec data "next:confirm") as [->|_];
        [now elim Hnext|].
      exists d. repeat (split; [reflexivity|]).
      split; [intros ->; now elim Hhs|].
      reflexivity.
Qed.

Lemma addons_toggle_keeps_booking_witness :
  exists d',
    addons_toggle "pads:squad"
      (Some (draft_of (on_day 20407 13 0) 60 "duo" true))
    = Some (Some d', CHOOSING_ADDONS, None) /\
    BookingDraft.date d'
    = BookingDraft.date (draft_of (on_day 20407 13 0) 60 "duo" true) /\
    BookingDraft.start_dt d'
    = BookingDraft.start_dt (draft_of (on_day 20407 13 0) 60 "duo" true) /\
    BookingDraft.duration_min d'
    = BookingDraft.duration_min (draft_of (on_day 20407 13 0) 60 "duo" true) /\
    BookingDraft.name d'
    = BookingDraft.name (draft_of (on_day 20407 13 0) 60 "duo" true) /\
    BookingDraft.phone d'
    = BookingDraft.phone (draft_of (on_day 20407 13 0) 60 "duo" true) /\
    (String.prefix "pads:" "pads:squad" = true ->
     BookingDraft.headsets d'
     = BookingDraft.headsets (draft_of (on_day 20407 13 0) 60 "duo" true)) /\
    ("pads:squad"%string = "hs:toggle"%string ->
     BookingDraft.headsets d'
     = negb (BookingDraft.headsets
               (draft_of (on_day 20407 13 0) 60 "duo" true)) /\
     BookingDraft.gamepads_mode d'
     = BookingDraft.gamepads_mode
         (draft_of (on_day 20407 13 0) 60 "duo" true)) /\
    (String.prefix "pads:" "pads:squad" = false ->
     "pads:squad"%string <> "hs:toggle"%string ->
     d' = draft_of (on_day 20407 13 0) 60 "duo" true).
Proof.
  apply (addons_toggle_keeps_booking "pads:squad"
           (draft_of (on_day 20407 13 0) 60 "duo" true)).
  discriminate.
Defined.

(** ** The start the start time handler records *)

Lemma time_chosen_start (int : string -> option Z) data d d' date :
  BookingDraft.date d = Some date ->
  time_chosen_with int data (Some d) = Some (Some d', CHOOSING_ADDONS) ->
  exists h m,
    0 <= h <= 23 /\ 0 <= m <= 59 /\
    d' = with_start_dt d
           (date - time_of date + time h m + time_of date mod 60).
Proof.
  intros Ed H. unfold time_chosen_with in H.
  destruct (negb (String.prefix "time:" data)); [discriminate H|].
  destruct (nth_error (Str.split ":" data) 1) as [hhmm|]; [|discriminate H].
  rewrite Ed in H.
  destruct (int (Str.take 2 hhmm)) as [h|]; [|discriminate H].
  destruct (int (Str.drop 3 hhmm)) as [m|]; [|discriminate H].
  unfold replace_hour_minute in H.
  destruct ((0 <=? h) && (h <=? 23) && (0 <=? m) && (m <=? 59)) eqn:Eb;
    [|discriminate H].
  injection H as <-. exists h, m.
  apply andb_prop in Eb as [Eb E4]. apply andb_prop in Eb as [Eb E3].
  apply andb_prop in Eb as [E1 E2].
  apply Z.leb_le in E1, E2, E3, E4. repeat split; assumption.
Qed.

Lemma date_of_replace (date h m : Z) :
  0 <= h <= 23 -> 0 <= m <= 59 ->
  date_of (date - time_of date + time h m + time_of date mod 60)
  = date_of date /\
  time_of (date - time_of date + time h m + time_of date mod 60)
  = time h m + time_of date mod 60.
Proof.
  intros Hh Hm. unfold date_of, time_of, time.
  pose proof (Z.mod_pos_bound (date mod 86400) 60 ltac:(lia)) as Hs.
  pose proof (Z.div_mod date 86400 ltac:(lia)) as Hd.
  set (s := (date mod 86400) mod 60) in *.
  set (t := 3600 * h + 60 * m + s).
  assert (Ht : 0 <= t < 86400) by (unfold t; lia).
  replace (date - date mod 86400 + (3600 * h + 60 * m) + s)
    with (t + (date / 86400) * 86400) by (unfold t; lia).
  rewrite Z.div_add, Z.mod_add by lia.
  rewrite Z.div_small, Z.mod_small by lia. split; reflexivity.
Qed.

Lemma midnight_slot date_local duration_min :
  duration_min <= 110 ->
  In (open_dt date_local + 39600,
      open_dt date_local + 39600 + minutes duration_min)
    (grid
       (grid_count (open_dt date_local) (close_dt date_local)
          (minutes duration_min + minutes BUFFER_MIN)
          (minutes SLOT_STEP_MIN))
       (open_dt date_local) (minutes SLOT_STEP_MIN)
       (minutes duration_min)) /\
  date_of (open_dt date_local + 39600) = date_of date_local + 1.
Proof.
  intros Hn. destruct (open_close_dt date_local) as (_ & Hc & _ & _).
  split.
  - replace 39600 with (minutes SLOT_STEP_MIN * Z.of_nat 11) by reflexivity.
    apply grid_complete. unfold grid_count. rewrite Hc.
    unfold minutes, BUFFER_MIN, SLOT_STEP_MIN.
    assert (11 <= (open_dt date_local + 13 * 3600 - open_dt date_local
                   - (60 * duration_min + 60 * 10)) / (60 * 60))
      by (apply Z.div_le_lower_bound; lia).
    lia.
  - unfold open_dt, replace_hour, time_of, hour, OPEN_TIME, time, date_of.
    cbn [fst].
    pose proof (Z.div_mod date_local 86400 ltac:(lia)) as Hd.
    replace (date_local - date_local mod 86400 + (3600 * 13 + 60 * 0) + 39600)
      with (0 + (date_local / 86400 + 1) * 86400) by lia.
    rewrite Z.div_add by lia. reflexivity.
Qed.

(** X19. Whatever [int] reads in the two fields of the data, when
    [time_chosen] accepts the data the start it writes to the draft is on
    the calendar day of the draft's date, at an hour from 0 to 23 and a
    minute from 0 to 59 with the date's seconds kept, and all the other
    fields of the draft stay as they were. *)
Theorem time_chosen_keeps_the_day (int : string -> option Z)
  (data : string) (d d' : BookingDraft.t) (date : datetime) :
  BookingDraft.date d = Some date ->
  time_chosen_with int data (Some d) = Some (Some d', CHOOSING_ADDONS) ->
  exists h m start,
    0 <= h <= 23 /\ 0 <= m <= 59 /\
    d' = with_start_dt d start /\
    date_of start = date_of date /\
    time_of start = time h m + time_of date mod 60.
Proof.
  intros Ed H.
  destruct (time_chosen_start int data d d' date Ed H)
    as (h & m & Hh & Hm & Es).
  exists h, m, (date - time_of date + time h m + time_of date mod 60).
  destruct (date_of_replace date h m Hh Hm) as [H1 H2].
  repeat split; try tauto.
Qed.

Lemma time_chosen_keeps_the_day_witness :
  exists h m start,
    0 <= h <= 23 /\ 0 <= m <= 59 /\
    with_start_dt (draft_of (on_day 20407 0 0) 60 "duo" false)
      (on_day 20407 13 30)
    = with_start_dt (draft_of (on_day 20407 0 0) 60 "duo" false) start /\
    date_of start = date_of (on_day 20407 0 0) /\
    time_of start = time h m + time_of (on_day 20407 0 0) mod 60.
Proof.
  apply (time_chosen_keeps_the_day Str.int "time:13-30"
           (draft_of (on_day 20407 0 0) 60 "duo" false)
           (with_start_dt (draft_of (on_day 20407 0 0) 60 "duo" false)
              (on_day 20407 13 30))
           (on_day 20407 0 0)).
  - reflexivity.
  - vm_compute. reflexivity.
Defined.

(** X20. For a day whose following day is a date and a duration of 1 to
    110 minutes the slot generator offers a slot that starts at midnight,
    on the day after the chosen date; and whatever the data and whatever
    [int] reads in them, [time_chosen] does not write that start to a
    draft with this date: the slots after midnight cannot be chosen. *)
Theorem midnight_slot_cannot_be_chosen (date_local : datetime)
  (duration_min : Z) :
  datetime_min <= date_local -> date_local + days 1 <= datetime_max ->
  0 < duration_min <= 110 ->
  exists slots slot,
    iter_open_slots date_local duration_min = Some slots /\
    In slot slots /\
    date_of (fst slot) = date_of date_local + 1 /\
    time_of (fst slot) = time 0 0 /\
    forall (int : string -> option Z) data d d',
      BookingDraft.date d = Some date_local ->
      time_chosen_with int data (Some d) = Some (Some d', CHOOSING_ADDONS) ->
      BookingDraft.start_dt d' <> Some (fst slot).
Proof.
  intros Hmin Hnext [Hpos Hn].
  destruct (midnight_slot date_local duration_min Hn) as [Hin Hd].
  destruct (business_day_in_range date_local Hmin Hnext) as [Hopen Hclose].
  destruct (open_close_dt date_local) as (Ho & Hc & _).
  eexists _, (_, _). split.
  { apply iter_open_slots_returns_nonneg; try assumption; [lia|].
    unfold minutes, BUFFER_MIN. lia. }
  split; [exact Hin|]. cbn [fst]. split; [exact Hd|]. split.
  - unfold time_of in *. unfold time in *.
    replace (open_dt date_local + 39600)
      with (open_dt date_local + 1 * 86400 - 46800) by lia.
    pose proof (Z.div_mod (open_dt date_local) 86400 ltac:(lia)) as Hq.
    replace (open_dt date_local + 1 * 86400 - 46800)
      with (0 + (open_dt date_local / 86400 + 1) * 86400) by lia.
    now rewrite Z.mod_add by lia.
  - intros int data d d' Ed H.
    destruct (time_chosen_start int data d d' date_local Ed H)
      as (h & m & Hh & Hm & ->).
    cbn [with_start_dt BookingDraft.start_dt]. intros E. injection E as E.
    destruct (date_of_replace date_local h m Hh Hm) as [H1 _].
    rewrite E, Hd in H1. lia.
Qed.

Lemma midnight_slot_cannot_be_chosen_witness :
  exists slots slot,
    iter_open_slots (on_day 20407 0 0) 60 = Some slots /\
    In slot slots /\
    date_of (fst slot) = date_of (on_day 20407 0 0) + 1 /\
    time_of (fst slot) = time 0 0 /\
    forall (int : string -> option Z) data d d',
      BookingDraft.date d = Some (on_day 20407 0 0) ->
      time_chosen_with int data (Some d) = Some (Some d', CHOOSING_ADDONS) ->
      BookingDraft.start_dt d' <> Some (fst slot).
Proof.
  apply (midnight_slot_cannot_be_chosen (on_day 20407 0 0) 60);
    vm_compute; try split; congruence.
Defined.

(** X21. Every button of the keyboard of options but the last is taken by
    [addons_toggle], and the keyboard of the draft it leaves shows the
    choice: after a gamepads button that button is marked and the other
    gamepads button is not, and after the headsets button its mark is
    flipped. *)
Theorem addons_kb_shows_choice (d : BookingDraft.t)
  (b : InlineKeyboardButton.t) :
  In b (List.concat (addons_kb d)) ->
  InlineKeyboardButton.callback_data b <> "next:confirm"%string ->
  exists d',
    addons_toggle (InlineKeyboardButton.callback_data b) (Some d)
    = Some (Some d', CHOOSING_ADDONS, None) /\
    forall b',
      In b' (List.concat (addons_kb d')) ->
      String.prefix "pads:" (InlineKeyboardButton.callback_data b')
      || (InlineKeyboardButton.callback_data b' =? "hs:toggle")%string
      = true ->
      if (InlineKeyboardButton.callback_data b =? "hs:toggle")%string
      then
        (InlineKeyboardButton.callback_data b' = "hs:toggle"%string ->
         marked b' = negb (marked b))
      else
        marked b'
        = (InlineKeyboardButton.callback_data b'
           =? InlineKeyboardButton.callback_data b)%string
          || (InlineKeyboardButton.callback_data b' =? "hs:toggle")%string
             && BookingDraft.headsets d.
Proof.
  intros Hin Hnext. unfold addons_kb in Hin. cbv zeta in Hin.
  cbn [List.concat app In] in Hin.
  destruct Hin as [<-|[<-|[<-|[<-|[]]]]];
    cbn [InlineKeyboardButton.callback_data] in *;
    [| | |now elim Hnext]; eexists; (split; [reflexivity|]);
    intros b' Hin' Hk; unfold addons_kb in Hin'; cbv zeta in Hin';
    cbn [List.concat app In with_gamepads_mode with_headsets
         BookingDraft.gamepads_mode BookingDraft.headsets] in Hin';
    destruct Hin' as [<-|[<-|[<-|[<-|[]]]]];
    cbn [InlineKeyboardButton.callback_data InlineKeyboardButton.text] in *;
    unfold marked; cbn [InlineKeyboardButton.text];
    vm_compute in Hk; try discriminate Hk;
    cbn [String.eqb Ascii.eqb Bool.eqb orb andb];
    try (intros Hcb; try discriminate Hcb);
    destruct (BookingDraft.headsets d); reflexivity.
Qed.

Lemma addons_kb_shows_choice_witness :
  exists d',
    addons_toggle "pads:squad"
      (Some (draft_of (on_day 20407 13 0) 60 "duo" true))
    = Some (Some d', CHOOSING_ADDONS, None) /\
    forall b',
      In b' (List.concat (addons_kb d')) ->
      String.prefix "pads:" (InlineKeyboardButton.callback_data b')
      || (InlineKeyboardButton.callback_data b' =? "hs:toggle")%string
      = true ->
      marked b'
      = (InlineKeyboardButton.callback_data b' =? "pads:squad")%string
        || (InlineKeyboardButton.callback_data b' =? "hs:toggle")%string
           && true.
Proof.
  apply (addons_kb_shows_choice
           (draft_of (on_day 20407 13 0) 60 "duo" true)
           {| InlineKeyboardButton.text := "3–4 геймпада (+100/ч)";
              InlineKeyboardButton.callback_data := "pads:squad" |}).
  - cbn. right. left. reflexivity.
  - discriminate.
Defined.
